(** * The ng_package packager: layout resolution of an npm package

    A shallow embedding of [packages/bazel/src/ng_package/packager.ts].

    Conventions of the embedding.
    - A JavaScript string is a Rocq [string]; each [ascii] stands for one
      UTF-16 code unit of value below 256, so the development speaks about
      the strings whose code units all lie in that range.
    - The built-ins the packager calls ([split], [join], [startsWith],
      [endsWith], [trim], [replace] with a regular expression) are written
      out in [Module JS], [JSON.stringify] in [Module JSON], and Node's
      [path] module, POSIX flavour, in [Module Path].
    - What the packager obtains from its surroundings (file contents, the
      recursive listing of a directory, [grep], [JSON.parse], the working
      directory) is the class [Packager.Env].
    - The storage calls the packager performs are recorded, in order, as a
      log of [Packager.event]s. *)

From Stdlib Require Import String Ascii List ZArith Lia Bool Arith.
Import ListNotations.

Open Scope list_scope.
Open Scope string_scope.

Set Warnings "-register-all".

(* ================================================================= *)
(** ** JavaScript built-ins used by the packager *)

Module JS.

(** [s.startsWith(p)] *)
Definition startsWith (s p : string) : bool := String.prefix p s.

Fixpoint rev (s : string) : string :=
  match s with
  | EmptyString => EmptyString
  | String c r => rev r ++ String c EmptyString
  end.

(** [s.endsWith(p)] *)
Definition endsWith (s p : string) : bool := String.prefix (rev p) (rev s).

Fixpoint take (n : nat) (s : string) : string :=
  match n, s with
  | S k, String c r => String c (take k r)
  | _, _ => EmptyString
  end.

Fixpoint drop (n : nat) (s : string) : string :=
  match n, s with
  | S k, String _ r => drop k r
  | _, _ => s
  end.

(** *** [split] and [join] *)

(** [splitOn sep skip s]: the pieces of [s] once its first [skip]
    characters, the remainder of a separator already recognised, have been
    passed over. *)
Fixpoint splitOn (sep : string) (skip : nat) (s : string) : list string :=
  match s with
  | EmptyString => [EmptyString]
  | String c r =>
      match skip with
      | S k => splitOn sep k r
      | O =>
          if String.prefix sep s
          then EmptyString :: splitOn sep (String.length sep - 1) r
          else match splitOn sep 0 r with
               | h :: t => String c h :: t
               | [] => [String c EmptyString]
               end
      end
  end.

Fixpoint chars (s : string) : list string :=
  match s with
  | EmptyString => []
  | String c r => String c EmptyString :: chars r
  end.

(** [s.split(sep)] *)
Definition split (s sep : string) : list string :=
  match sep with
  | EmptyString => chars s
  | _ => splitOn sep 0 s
  end.

(** [l.join(sep)] *)
Definition join (l : list string) (sep : string) : string := String.concat sep l.

(** [l.pop()] as a value: the last element, [undefined] on the empty array. *)
Definition pop (l : list string) : option string := List.last (map Some l) None.

(** [l.slice(0, -1)] *)
Definition slice_init (l : list string) : list string := List.removelast l.

(** *** [trim] *)

(** White space and line terminators among the code units below 256. *)
Definition isWhiteSpace (c : ascii) : bool :=
  let n := nat_of_ascii c in
  (((9 <=? n) && (n <=? 13)) || (n =? 32) || (n =? 160))%nat.

Fixpoint trimStart (s : string) : string :=
  match s with
  | String c r => if isWhiteSpace c then trimStart r else s
  | EmptyString => EmptyString
  end.

Definition trimEnd (s : string) : string := rev (trimStart (rev s)).

(** [s.trim()] *)
Definition trim (s : string) : string := trimEnd (trimStart s).

(** *** Regular expressions

    The three expressions of the packager are sequences of literal
    characters, [.] and [.*], optionally anchored with [^]. *)

Inductive atom : Type :=
| Lit (c : ascii)
| Any
| AnyStar.

Record regex : Type := mkRegex { anchored : bool; atoms : list atom }.

(** [.] matches every code unit except a line terminator. *)
Definition lineTerminator (c : ascii) : bool :=
  (c =? "010")%char || (c =? "013")%char.

(** [matchHere re s]: the length of the match of [re] at the start of [s],
    [.*] being greedy and giving characters back when the rest fails. *)
Fixpoint matchHere (re : list atom) : string -> option nat :=
  match re with
  | [] => fun _ => Some 0
  | Lit c :: re' =>
      fun s =>
        match s with
        | String d r => if (c =? d)%char then option_map S (matchHere re' r) else None
        | EmptyString => None
        end
  | Any :: re' =>
      fun s =>
        match s with
        | String d r =>
            if lineTerminator d then None else option_map S (matchHere re' r)
        | EmptyString => None
        end
  | AnyStar :: re' =>
      let rest := matchHere re' in
      fix star (s : string) : option nat :=
        match s with
        | String d r =>
            if lineTerminator d then rest s
            else match star r with
                 | Some n => Some (S n)
                 | None => rest s
                 end
        | EmptyString => rest s
        end
  end.

Fixpoint lits (s : string) : list atom :=
  match s with
  | EmptyString => []
  | String c r => Lit c :: lits r
  end.

(** The replacement text for one match (GetSubstitution) of an expression
    without capture groups: [$$], [$&], [$`] and [$'] are expanded, every
    other character stands for itself. *)
Fixpoint expand (repl matched before after : string) : string :=
  match repl with
  | EmptyString => EmptyString
  | String c r =>
      if (c =? "$")%char
      then match r with
           | EmptyString => String c EmptyString
           | String d r' =>
               if (d =? "$")%char then String "$" (expand r' matched before after)
               else if (d =? "&")%char then matched ++ expand r' matched before after
               else if (d =? "`")%char then before ++ expand r' matched before after
               else if (d =? "'")%char then after ++ expand r' matched before after
               else String c (expand r matched before after)
           end
      else String c (expand r matched before after)
  end.

(** [s.replace(re, repl)] for an expression without the [g] flag: the
    leftmost match only; [before] is the text already passed. *)
Fixpoint replaceFirstFrom (re : list atom) (repl before s : string) : string :=
  match matchHere re s with
  | Some n => expand repl (take n s) before (drop n s) ++ drop n s
  | None =>
      match s with
      | String c r =>
          String c (replaceFirstFrom re repl (before ++ String c EmptyString) r)
      | EmptyString => EmptyString
      end
  end.

Definition replace (s : string) (re : regex) (repl : string) : string :=
  if anchored re
  then match matchHere (atoms re) s with
       | Some n => expand repl (take n s) EmptyString (drop n s) ++ drop n s
       | None => s
       end
  else replaceFirstFrom (atoms re) repl EmptyString s.

(** [s.replace(re, repl)] for an unanchored expression with the [g] flag:
    every match, left to right, never overlapping. [skip] counts the
    characters of the current match still to be passed over. *)
Fixpoint replaceAllFrom (re : list atom) (repl : string) (skip : nat)
  (before s : string) : string :=
  match skip with
  | S k =>
      match s with
      | String c r => replaceAllFrom re repl k (before ++ String c EmptyString) r
      | EmptyString => EmptyString
      end
  | O =>
      match matchHere re s with
      | Some (S n) =>
          expand repl (take (S n) s) before (drop (S n) s)
          ++ match s with
             | String c r =>
                 replaceAllFrom re repl n (before ++ String c EmptyString) r
             | EmptyString => EmptyString
             end
      | Some O =>
          expand repl EmptyString before s
          ++ match s with
             | String c r =>
                 String c (replaceAllFrom re repl 0 (before ++ String c EmptyString) r)
             | EmptyString => EmptyString
             end
      | None =>
          match s with
          | String c r =>
              String c (replaceAllFrom re repl 0 (before ++ String c EmptyString) r)
          | EmptyString => EmptyString
          end
      end
  end.

Definition replaceAll (s : string) (re : list atom) (repl : string) : string :=
  replaceAllFrom re repl 0 EmptyString s.

End JS.

(* ================================================================= *)
(** ** JSON values and [JSON.stringify] *)

Module JSON.

(** A parsed JSON document. A number is given by the text [Number::toString]
    prints for it: [3] for 3, [1.5] for 1.5, [1e+21] for 1e21, [Infinity] for
    what [JSON.parse] makes of [1e400]. The members of an object are kept in
    property order. *)
Inductive json : Type :=
| JNull
| JBool (b : bool)
| JNumber (printed : string)
| JString (s : string)
| JArray (l : list json)
| JObject (m : list (string * json)).

Definition dquote : ascii := "034"%char.
Definition backslash : ascii := "092"%char.
Definition nl : string := String "010"%char EmptyString.

(** [o[k]] for an own property of a parsed document. *)
Fixpoint lookup (k : string) (m : list (string * json)) : option json :=
  match m with
  | [] => None
  | (k', v) :: m' => if String.eqb k k' then Some v else lookup k m'
  end.

(** [o[k] = v] for a key that is not an array index: an existing property
    keeps its place, a new one goes last. *)
Fixpoint assign (k : string) (v : json) (m : list (string * json))
  : list (string * json) :=
  match m with
  | [] => [(k, v)]
  | (k', v') :: m' =>
      if String.eqb k k' then (k, v) :: m' else (k', v') :: assign k v m'
  end.

Definition hexDigit (n : nat) : ascii :=
  match String.get n "0123456789abcdef" with
  | Some c => c
  | None => "0"%char
  end.

(** One code unit inside a JSON string (QuoteJSONString). *)
Definition quoteChar (c : ascii) : string :=
  let n := nat_of_ascii c in
  if (c =? dquote)%char then String backslash (String dquote EmptyString)
  else if (c =? backslash)%char then String backslash (String backslash EmptyString)
  else if (n =? 8)%nat then String backslash "b"
  else if (n =? 9)%nat then String backslash "t"
  else if (n =? 10)%nat then String backslash "n"
  else if (n =? 12)%nat then String backslash "f"
  else if (n =? 13)%nat then String backslash "r"
  else if (n <? 32)%nat
       then String backslash
              (String "u" (String "0" (String "0"
                 (String (hexDigit (n / 16)) (String (hexDigit (n mod 16)) EmptyString)))))
  else String c EmptyString.

Fixpoint quoteBody (s : string) : string :=
  match s with
  | EmptyString => EmptyString
  | String c r => quoteChar c ++ quoteBody r
  end.

Definition quote (s : string) : string :=
  String dquote (quoteBody s ++ String dquote EmptyString).

Definition isEmpty (s : string) : bool :=
  match s with EmptyString => true | _ => false end.

(** What [JSON.stringify] writes for a number: its text when it is finite,
    [null] otherwise. *)
Definition numberText (printed : string) : string :=
  if String.eqb printed "Infinity" || String.eqb printed "-Infinity"
     || String.eqb printed "NaN"
  then "null"
  else printed.

(** The text of an array or object from the texts of its parts. *)
Definition wrap (opening closing gap stepback indent : string)
  (parts : list string) : string :=
  match parts with
  | [] => opening ++ closing
  | _ =>
      if isEmpty gap
      then opening ++ String.concat "," parts ++ closing
      else opening ++ nl ++ indent
             ++ String.concat ("," ++ nl ++ indent) parts
             ++ nl ++ stepback ++ closing
  end.

(** SerializeJSONProperty, with [gap] the indentation unit and [indent] the
    current indentation. *)
Fixpoint serialize (gap indent : string) (j : json) {struct j} : string :=
  match j with
  | JNull => "null"
  | JBool true => "true"
  | JBool false => "false"
  | JNumber printed => numberText printed
  | JString s => quote s
  | JArray l =>
      wrap "[" "]" gap indent (indent ++ gap)
        (map (serialize gap (indent ++ gap)) l)
  | JObject m =>
      wrap "{" "}" gap indent (indent ++ gap)
        (map (fun kv =>
                match kv with
                | (k, v) =>
                    quote k ++ (if isEmpty gap then ":" else ": ")
                      ++ serialize gap (indent ++ gap) v
                end) m)
  end.

(** [JSON.stringify(j)] *)
Definition stringify (j : json) : string := serialize EmptyString EmptyString j.

(** [JSON.stringify(j, null, 2)] *)
Definition stringify2 (j : json) : string := serialize "  " EmptyString j.

End JSON.

(* ================================================================= *)
(** ** Node's [path] module on POSIX *)

Module Path.

Definition slash : ascii := "/"%char.

Fixpoint dropSlashes (s : string) : string :=
  match s with
  | String c r => if (c =? slash)%char then dropSlashes r else s
  | EmptyString => EmptyString
  end.

Fixpoint untilSlash (s : string) : string :=
  match s with
  | String c r => if (c =? slash)%char then EmptyString else String c (untilSlash r)
  | EmptyString => EmptyString
  end.

Fixpoint fromSlash (s : string) : string :=
  match s with
  | String c r => if (c =? slash)%char then s else fromSlash r
  | EmptyString => EmptyString
  end.

(** [path.basename(p)]: trailing slashes are ignored, the text after the
    last remaining slash is returned. *)
Definition basename (p : string) : string :=
  JS.rev (untilSlash (dropSlashes (JS.rev p))).

(** [path.dirname(p)]. The first character is never inspected. *)
Definition dirname (p : string) : string :=
  match p with
  | EmptyString => "."
  | String c body =>
      match fromSlash (dropSlashes (JS.rev body)) with
      | String _ r =>
          if (c =? slash)%char && JSON.isEmpty r
          then "//"
          else String c (JS.rev r)
      | EmptyString => if (c =? slash)%char then "/" else "."
      end
  end.

Definition isDot (s : string) : bool := String.eqb s ".".
Definition isDotDot (s : string) : bool := String.eqb s "..".

(** normalizeString, on the segments between slashes; [stack] holds the
    segments kept so far, last one first. *)
Fixpoint normalizeSegments (allowAboveRoot : bool) (stack segs : list string)
  : list string :=
  match segs with
  | [] => List.rev stack
  | seg :: rest =>
      if JSON.isEmpty seg || isDot seg
      then normalizeSegments allowAboveRoot stack rest
      else if isDotDot seg
      then match stack with
           | top :: below =>
               if isDotDot top
               then normalizeSegments allowAboveRoot
                      (if allowAboveRoot then seg :: stack else stack) rest
               else normalizeSegments allowAboveRoot below rest
           | [] =>
               normalizeSegments allowAboveRoot
                 (if allowAboveRoot then [seg] else []) rest
           end
      else normalizeSegments allowAboveRoot (seg :: stack) rest
  end.

(** [path.normalize(p)] *)
Definition normalize (p : string) : string :=
  match p with
  | EmptyString => "."
  | _ =>
      let isAbsolute := JS.startsWith p "/" in
      let trailing := JS.endsWith p "/" in
      let body :=
        JS.join (normalizeSegments (negb isAbsolute) [] (JS.split p "/")) "/" in
      match body with
      | EmptyString => if isAbsolute then "/" else if trailing then "./" else "."
      | _ =>
          (if isAbsolute then "/" else EmptyString)
            ++ body ++ (if trailing then "/" else EmptyString)
      end
  end.

(** [path.join(...segments)] *)
Definition join (segments : list string) : string :=
  match filter (fun s => negb (JSON.isEmpty s)) segments with
  | [] => "."
  | nonEmpty => normalize (JS.join nonEmpty "/")
  end.

(** The segments of [path.resolve(p)] when the working directory is [cwd]. *)
Definition resolveSegments (cwd p : string) : list string :=
  if JS.startsWith p "/"
  then normalizeSegments false [] (JS.split p "/")
  else normalizeSegments false [] (JS.split (cwd ++ "/" ++ p) "/").

Fixpoint stripCommon (a b : list string) : list string * list string :=
  match a, b with
  | x :: a', y :: b' => if String.eqb x y then stripCommon a' b' else (a, b)
  | _, _ => (a, b)
  end.

(** [path.relative(from, to)] when the working directory is [cwd]. *)
Definition relative (cwd from to : string) : string :=
  if String.eqb from to then EmptyString
  else
    let (up, down) := stripCommon (resolveSegments cwd from) (resolveSegments cwd to) in
    JS.join (List.repeat ".." (List.length up) ++ down)%list "/".

End Path.

(* ================================================================= *)
(** ** The packager *)

Module Packager.

Import JSON.

(** *** Results, storage calls and the surroundings *)

Inductive error : Type :=
| TypeError
| RangeError
| SyntaxError
| IOError
| Error (message : string).

Inductive result (A : Type) : Type :=
| Ok (a : A)
| Throw (e : error).
Arguments Ok {A} a.
Arguments Throw {A} e.

(** The calls that change the file system, as [main] issues them. A call is
    recorded, not carried out: whether [mkdir], [cp], [mv] or [writeFileSync]
    fails depends on the file system, which is no part of the model. The log
    of a run that comes to its end is the sequence of calls the code issues
    when none of them throws; nothing below says that they do not throw. *)
Inductive event : Type :=
| Mkdir (dir : string)                  (* shx.mkdir('-p', dir) *)
| Cp (source dest : string)             (* shx.cp(source, dest) *)
| Mv (source dest : string)             (* shx.mv(source, dest) *)
| WriteFile (file content : string).    (* fs.writeFileSync(file, content) *)

(** What a run reads from its surroundings. The files read are inputs of the
    run: their content does not depend on what the run has written. *)
Class Env : Type := {
  cwd : string;                               (* process.cwd() *)
  readFileSync : string -> result string;     (* fs.readFileSync(f, utf-8) *)
  shx_find : string -> list string;           (* shx.find('-R', dir) *)
  shx_grep : string -> string -> string;      (* shx.grep(pattern, file) *)
  JSON_parse : string -> result json          (* JSON.parse(text) *)
}.

(** The variables of [main] that its inner functions assign to:
    [primaryEntryPoint], [secondaryEntryPoints] (a [Set], kept in insertion
    order), and the log of storage calls. *)
Record state : Type := mkState {
  primaryEntryPoint : option string;
  secondaryEntryPoints : list string;
  log : list event
}.

Definition M (A : Type) : Type := state -> result (A * state).

Definition ret {A} (a : A) : M A := fun st => Ok (a, st).

Definition bind {A B} (m : M A) (k : A -> M B) : M B :=
  fun st =>
    match m st with
    | Ok (a, st') => k a st'
    | Throw e => Throw e
    end.

Notation "x <- m ;; k" := (bind m (fun x => k))
  (at level 61, m at next level, right associativity).
Notation "m ;;; k" := (bind m (fun _ => k))
  (at level 61, right associativity).

Definition lift {A} (r : result A) : M A :=
  fun st => match r with Ok a => Ok (a, st) | Throw e => Throw e end.

Definition get : M state := fun st => Ok (st, st).

Definition emit (e : event) : M unit :=
  fun st =>
    Ok (tt, mkState (primaryEntryPoint st) (secondaryEntryPoints st)
              (log st ++ [e])%list).

Fixpoint forEach {A} (l : list A) (f : A -> M unit) : M unit :=
  match l with
  | [] => ret tt
  | x :: l' => f x ;;; forEach l' f
  end.

(** [Set.prototype.add] *)
Definition setAdd (x : string) (s : list string) : list string :=
  if existsb (String.eqb x) s then s else (s ++ [x])%list.

(** Truthiness of a string that may be [undefined]. *)
Definition truthy (s : option string) : bool :=
  match s with
  | Some (String _ _) => true
  | _ => false
  end.

(** [filter(ext)], lines 13-15. *)
Definition filter (ext f : string) : bool :=
  JS.endsWith f ext
  && negb (JS.endsWith f (".ngfactory" ++ ext))
  && negb (JS.endsWith f (".ngsummary" ++ ext)).

(** The three regular expressions of the file. *)

(** [new RegExp('0.0.0' + '-PLACEHOLDER', 'g')], lines 38-41 *)
Definition placeholderRegex : list JS.atom :=
  [JS.Lit "0"; JS.Any; JS.Lit "0"; JS.Any; JS.Lit "0"] ++ JS.lits "-PLACEHOLDER".

(** [/\..*/], line 73 *)
Definition extensionRegex : JS.regex :=
  JS.mkRegex false [JS.Lit "."; JS.AnyStar].

(** [/^\/\/\/ <amd-module name=.*\/>\n/], line 125 *)
Definition amdModuleRegex : JS.regex :=
  JS.mkRegex true
    (JS.lits "/// <amd-module name=" ++ [JS.AnyStar] ++ JS.lits "/>"
       ++ [JS.Lit "010"])%list.

(** The sentinel the placeholder expression is built for. *)
Definition sentinel : string := "0.0.0" ++ "-PLACEHOLDER".

(** The entry-point name of a FESM file, lines 72-73. *)
Definition entryPointNameOf (file : string) : string :=
  let parts := JS.split (Path.basename file) "__" in
  JS.replace (JS.join parts "/") extensionRegex EmptyString.

(** [a + b] where [a] may be [null]. *)
Definition concatNullable (a : option string) (b : string) : string :=
  match a with
  | Some s => s ++ b
  | None => "null" ++ b
  end.

(** [`${x}`] where [x] may be [undefined]. *)
Definition template (x : option string) : string :=
  match x with
  | Some s => s
  | None => "undefined"
  end.

Section WithEnv.
Context {env : Env}.

(** The arguments of a run, lines 20-26. [stampData] and [licenseFile] are
    [undefined] when the parameter file is too short to give them. *)
Record params : Type := mkParams {
  out : string;
  srcDir : string;
  binDir : string;
  readmeMd : string;
  fesms2015 : list string;
  fesms5 : list string;
  bundles : list string;
  srcs : list string;
  stampData : option string;
  licenseFile : option string
}.

Variable p : params.

(** Lines 33-45. *)
Definition replaceVersionPlaceholders (filePath content : string)
  : result string :=
  if truthy (stampData p)
  then
    match List.nth_error
            (JS.split (shx_grep "BUILD_SCM_VERSION" (template (stampData p))) " ")
            1 with
    | Some field =>
        let version := JS.trim field in
        Ok (JS.replaceAll content placeholderRegex version)
    | None => Throw TypeError
    end
  else Ok content.

(** Line 58: the scope segment of a scoped package name is left out. *)
Definition dropScope (nameParts : list string) : list string :=
  match nameParts with
  | first :: others => if JS.startsWith first "@" then others else nameParts
  | [] => nameParts
  end.

(** The part of [amendPackageJson] after [JSON.parse], lines 56-68. *)
Definition amendParsedPackage (parsedPackage : json) : result string :=
  match parsedPackage with
  | JObject members =>
      match lookup "name" members with
      | Some (JString name) =>
          let nameParts := dropScope (JS.split name "/") in
          match nameParts with
          | [] => Throw RangeError                (* Array(-1) *)
          | _ =>
              let rel := JS.join (List.repeat ".." (List.length nameParts - 1)) "/" in
              let rel := if isEmpty rel then "." else rel in
              let indexFile := template (JS.pop nameParts) in
              let members :=
                assign "main"
                  (JString (rel ++ "/bundles/" ++ JS.join nameParts "-" ++ ".umd.js"))
                  members in
              let members :=
                assign "module" (JString (rel ++ "/esm5/" ++ indexFile ++ ".js")) members in
              let members :=
                assign "es2015" (JString (rel ++ "/esm2015/" ++ indexFile ++ ".js")) members in
              let members :=
                assign "typings" (JString ("./" ++ indexFile ++ ".d.ts")) members in
              Ok (stringify2 (JObject members))
          end
      | _ => Throw TypeError                      (* no [split] to call *)
      end
  | _ => Throw TypeError                          (* [name] is not there *)
  end.

(** Lines 54-69. *)
Definition amendPackageJson (filePath content : string) : result string :=
  match JSON_parse content with
  | Ok parsedPackage => amendParsedPackage parsedPackage
  | Throw e => Throw e
  end.

(** Lines 71-84. *)
Definition writeFesm (file baseDir : string) : M unit :=
  fun st =>
    let parts := JS.split (Path.basename file) "__" in
    let entryPointName := entryPointNameOf file in
    let primary :=
      match primaryEntryPoint st with
      | None => Some entryPointName
      | Some primary =>
          if String.eqb primary entryPointName then Some entryPointName
          else Some primary
      end in
    let secondaries :=
      match primaryEntryPoint st with
      | None => secondaryEntryPoints st
      | Some primary =>
          if String.eqb primary entryPointName then secondaryEntryPoints st
          else setAdd entryPointName (secondaryEntryPoints st)
      end in
    let filename := template (JS.pop parts) in
    let dir := Path.join (baseDir :: JS.slice_init parts) in
    Ok (tt, mkState primary secondaries
              (log st ++ [Mkdir dir;
                          Cp file dir;
                          Mv (Path.join [dir; Path.basename file])
                             (Path.join [dir; filename])])%list).

(** The loop of lines 98-103: every secondary name the relative path starts
    with assigns [outputPath] anew. *)
Fixpoint bundleIndexLoop (relative ext : string) (secondaries : list string)
  (outputPath : option string) : option string :=
  match secondaries with
  | [] => outputPath
  | secondary :: rest =>
      bundleIndexLoop relative ext rest
        (if JS.startsWith relative secondary
         then
           let filename := template (JS.pop (JS.split secondary "/")) in
           Some (Path.join [out p; secondary; filename ++ ext])
         else outputPath)
  end.

(** Lines 86-108. *)
Definition moveBundleIndex (f : string) : M string :=
  fun st =>
    let relocate (ext : string) : result (string * state) :=
      let relative := Path.relative cwd (binDir p) f in
      let outputPath :=
        bundleIndexLoop relative ext (secondaryEntryPoints st) None in
      if truthy outputPath
      then Ok (template outputPath, st)
      else Ok (Path.join [out p; concatNullable (primaryEntryPoint st) ext], st) in
    if JS.endsWith f ".d.ts" then relocate ".d.ts"
    else if JS.endsWith f ".metadata.json" then relocate ".metadata.json"
    else Throw (Error "Bundle index files should be .d.ts or .metadata.json").

(** The body of the loop over the declaration files, lines 122-134. *)
Definition writeDeclaration (f : string) : M unit :=
  content <- lift (readFileSync f) ;;
  let content := JS.replace content amdModuleRegex EmptyString in
  outputPath <-
    (if JS.endsWith f ".bundle_index.d.ts"
     then moveBundleIndex f
     else ret (Path.join [out p; Path.relative cwd (binDir p) f])) ;;
  emit (Mkdir (Path.dirname outputPath)) ;;;
  emit (WriteFile outputPath content).

(** The body of the loop over the sources, lines 136-145. *)
Definition writeSource (src : string) : M unit :=
  content <- lift (readFileSync src) ;;
  content <- lift (replaceVersionPlaceholders src content) ;;
  content <-
    (if String.eqb (Path.basename src) "package.json"
     then lift (amendPackageJson src content)
     else ret content) ;;
  let outputPath := Path.join [out p; Path.relative cwd (srcDir p) src] in
  emit (Mkdir (Path.dirname outputPath)) ;;;
  emit (WriteFile outputPath content).

(** The body of the loop over the bundle-index metadata, lines 147-150. *)
Definition writeBundleIndexMetadata (f : string) : M unit :=
  outputPath <- moveBundleIndex f ;;
  content <- lift (readFileSync f) ;;
  content <- lift (replaceVersionPlaceholders f content) ;;
  emit (WriteFile outputPath content).

(** The text of the redirecting metadata, lines 158-164. *)
Definition redirectMetadata (baseName : string) : string :=
  stringify
    (JObject
       [("__symbolic", JString "module");
        ("version", JNumber "3");
        ("metadata", JObject []);
        ("exports",
          JArray [JObject [("from", JString ("./" ++ baseName ++ "/" ++ baseName))]]);
        ("flatModuleIndexRedirect", JBool true)])
  ++ nl.

(** The text of the redirecting declaration file, lines 169-172. *)
Definition redirectDeclaration (licenseBanner baseName : string) : string :=
  licenseBanner ++ " "
    ++ (nl ++ " export * from './" ++ baseName ++ "/" ++ baseName ++ "'" ++ nl).

(** The body of the loop over the secondary entry points, lines 154-173. *)
Definition writeRedirects (licenseBanner secondaryEntryPoint : string) : M unit :=
  let baseName := template (JS.pop (JS.split secondaryEntryPoint "/")) in
  let dirName := Path.join (JS.slice_init (JS.split secondaryEntryPoint "/")) in
  emit (WriteFile (Path.join [out p; dirName; baseName ++ ".metadata.json"])
          (redirectMetadata baseName)) ;;;
  emit (WriteFile (Path.join [out p; dirName; baseName ++ ".d.ts"])
          (redirectDeclaration licenseBanner baseName)).

(** [main] from line 28 on. *)
Definition run : M Z :=
  emit (Mkdir (out p)) ;;;
  (if truthy (Some (readmeMd p))
   then emit (Cp (readmeMd p) (Path.join [out p; "README.md"]))
   else ret tt) ;;;
  forEach (fesms2015 p) (fun fesm2015 => writeFesm fesm2015 (Path.join [out p; "esm2015"])) ;;;
  forEach (fesms5 p) (fun fesm5 => writeFesm fesm5 (Path.join [out p; "esm5"])) ;;;
  let bundlesDir := Path.join [out p; "bundles"] in
  emit (Mkdir bundlesDir) ;;;
  forEach (bundles p) (fun bundle => emit (Cp bundle bundlesDir)) ;;;
  let allsrcs := shx_find (binDir p) in
  forEach (List.filter (filter ".d.ts") allsrcs) writeDeclaration ;;;
  forEach (srcs p) writeSource ;;;
  forEach (List.filter (filter ".bundle_index.metadata.json") allsrcs)
    writeBundleIndexMetadata ;;;
  licenseBanner <-
    (if truthy (licenseFile p)
     then lift (readFileSync (template (licenseFile p)))
     else ret EmptyString) ;;
  st <- get ;;
  forEach (secondaryEntryPoints st) (writeRedirects licenseBanner) ;;;
  ret 0%Z.

End WithEnv.

(** The extension [moveBundleIndex] settles on for [f], lines 89-94. *)
Definition bundleIndexExt (f ext : string) : Prop :=
  (JS.endsWith f ".d.ts" = true /\ ext = ".d.ts")
  \/ (JS.endsWith f ".d.ts" = false
      /\ JS.endsWith f ".metadata.json" = true /\ ext = ".metadata.json").

(** Lines 23-26: [arg.split(',').filter(s => !!s)]. *)
Definition listArg (arg : string) : list string :=
  List.filter (fun s => negb (isEmpty s)) (JS.split arg ",").

(** Lines 19-26: the parameter file, one argument per line, [''] standing
    for the empty string. Splitting [undefined] is a TypeError. *)
Definition parseParams (paramFile : string) : result params :=
  let args :=
    map (fun s => if String.eqb s "''" then EmptyString else s)
      (JS.split paramFile nl) in
  match args with
  | out :: srcDir :: binDir :: readmeMd :: fesms2015Arg :: fesms5Arg
      :: bundlesArg :: srcsArg :: rest =>
      Ok (mkParams out srcDir binDir readmeMd
            (listArg fesms2015Arg) (listArg fesms5Arg)
            (listArg bundlesArg) (listArg srcsArg)
            (List.nth_error rest 0) (List.nth_error rest 1))
  | _ => Throw TypeError
  end.

(** The state [main] starts from, lines 30-31. *)
Definition initial : state := mkState None [] [].

(** [main(args)], lines 17-176. *)
Definition main {env : Env} (args : list string) : result (Z * state) :=
  match args with
  | paramFilePath :: _ =>
      match readFileSync paramFilePath with
      | Ok paramFile =>
          match parseParams paramFile with
          | Ok p => run p initial
          | Throw e => Throw e
          end
      | Throw e => Throw e
      end
  | [] => Throw TypeError
  end.

(** *** Surroundings given by tables, to run the packager on examples *)

Fixpoint assoc {A} (k : string) (table : list (string * A)) : option A :=
  match table with
  | [] => None
  | (k', a) :: table' => if String.eqb k k' then Some a else assoc k table'
  end.

(** The working directory is [workingDir]; [files] gives the content of the
    files that exist; every directory lists as [listing]; [grep] answers
    [grepped]; [documents] gives the texts that parse as JSON. *)
Definition tableEnv (workingDir : string) (files : list (string * string))
  (listing : list string) (grepped : string)
  (documents : list (string * json)) : Env :=
  {| cwd := workingDir;
     readFileSync :=
       fun f => match assoc f files with Some c => Ok c | None => Throw IOError end;
     shx_find := fun _ => listing;
     shx_grep := fun _ _ => grepped;
     JSON_parse :=
       fun text =>
         match assoc text documents with
         | Some j => Ok j
         | None => Throw SyntaxError
         end |}.

End Packager.

(* ================================================================= *)
(** ** Notions the statements below are phrased with *)

Module Spec.

Import JSON Packager.

(** The text of [s] before its first [c], all of [s] when [c] is absent. *)
Fixpoint before (c : ascii) (s : string) : string :=
  match s with
  | EmptyString => EmptyString
  | String d r => if (d =? c)%char then EmptyString else String d (before c r)
  end.

(** The text of [s] after its first [c], nothing when [c] is absent. *)
Fixpoint after (c : ascii) (s : string) : string :=
  match s with
  | EmptyString => EmptyString
  | String d r => if (d =? c)%char then r else after c r
  end.

(** [s] from its first line terminator on. *)
Fixpoint fromLineTerminator (s : string) : string :=
  match s with
  | EmptyString => EmptyString
  | String d r => if JS.lineTerminator d then s else fromLineTerminator r
  end.

Fixpoint all (P : ascii -> bool) (s : string) : bool :=
  match s with
  | EmptyString => true
  | String d r => P d && all P r
  end.

Definition noLineTerminator (s : string) : bool :=
  all (fun d => negb (JS.lineTerminator d)) s.

Definition lacks (c : ascii) (s : string) : bool :=
  all (fun d => negb (d =? c)%char) s.

(** Every [__], read from the left, turned into [/]. *)
Fixpoint slashed (s : string) : string :=
  match s with
  | EmptyString => EmptyString
  | String c r =>
      if (c =? "_")%char
      then match r with
           | String d r' =>
               if (d =? "_")%char then String "/" (slashed r')
               else String c (slashed r)
           | EmptyString => String c EmptyString
           end
      else String c (slashed r)
  end.

(** Every [/] turned into [__]. *)
Fixpoint unslashed (s : string) : string :=
  match s with
  | EmptyString => EmptyString
  | String c r =>
      if (c =? "/")%char then String "_" (String "_" (unslashed r))
      else String c (unslashed r)
  end.

(** The entry-point name as the specification words it: the base name split
    on the double underscore, the segments joined with [/], everything from
    the first [.] on removed. *)
Definition entryPointNameOf (file : string) : string :=
  before "." (JS.join (JS.split (Path.basename file) "__") "/").

(** The path back to the package root for [k] name segments. *)
Definition rel (k : nat) : string :=
  if (k =? 1)%nat then "." else JS.join (List.repeat ".." (k - 1)) "/".

(** The four fields [amendPackageJson] sets. *)
Definition pointerField (k : string) : bool :=
  existsb (String.eqb k) ["main"; "module"; "es2015"; "typings"].

(** The members of a descriptor other than the four pointer fields, in
    order. *)
Definition otherMembers (m : list (string * json)) : list (string * json) :=
  List.filter (fun kv => negb (pointerField (fst kv))) m.

(** [re] has no [.*]: its matches have the length of [re]. *)
Definition starFree (re : list JS.atom) : bool :=
  forallb (fun a => match a with JS.AnyStar => false | _ => true end) re.

(** No match of [re] starts anywhere in [s]. *)
Fixpoint matchFree (re : list JS.atom) (s : string) : bool :=
  match JS.matchHere re s with
  | Some _ => false
  | None =>
      match s with
      | EmptyString => true
      | String _ r => matchFree re r
      end
  end.

(** A Metadata artifact that is not a bundle index: the path ends in
    [.metadata.json], is no [.ngfactory] or [.ngsummary] file and no
    bundle-index file. *)
Definition metadataArtifact (f : string) : bool :=
  Packager.filter ".metadata.json" f
  && negb (JS.endsWith f ".bundle_index.metadata.json").

(** A Declaration artifact that is not a bundle index. *)
Definition declarationArtifact (f : string) : bool :=
  Packager.filter ".d.ts" f && negb (JS.endsWith f ".bundle_index.d.ts").

(** The surroundings [env] with the files satisfying [hidden] left out of
    every directory listing. *)
Definition hiding (hidden : string -> bool) (env : Env) : Env :=
  {| cwd := cwd;
     readFileSync := readFileSync;
     shx_find := fun dir => List.filter (fun f => negb (hidden f)) (shx_find dir);
     shx_grep := shx_grep;
     JSON_parse := JSON_parse |}.

(** A path segment that [path.normalize] keeps as it is: not empty, without
    slash, and neither [.] nor [..]. *)
Definition segment (s : string) : bool :=
  negb (isEmpty s) && lacks "/" s && negb (Path.isDot s) && negb (Path.isDotDot s).

(** A character that a JSON string holds as it is. *)
Definition plainChar (c : ascii) : bool :=
  negb (c =? dquote)%char && negb (c =? backslash)%char
  && (32 <=? nat_of_ascii c)%nat.

(** [s] between double quotes. *)
Definition quoted (s : string) : string :=
  String dquote (s ++ String dquote EmptyString).

(** The redirecting metadata document, [from] being the JSON text of the
    module it points to. *)
Definition redirectDocument (from : string) : string :=
  "{" ++ quoted "__symbolic" ++ ":" ++ quoted "module" ++ ","
    ++ quoted "version" ++ ":3,"
    ++ quoted "metadata" ++ ":{},"
    ++ quoted "exports" ++ ":[{" ++ quoted "from" ++ ":" ++ from ++ "}],"
    ++ quoted "flatModuleIndexRedirect" ++ ":true}".

(** The re-export statement of a redirecting declaration file. *)
Definition reexportLine (baseName : string) : string :=
  " export * from './" ++ baseName ++ "/" ++ baseName ++ "'".

(** The lines of a declaration file that are re-exports. *)
Definition reexports (content : string) : list string :=
  List.filter (fun line => JS.startsWith (JS.trimStart line) "export * from ")
    (JS.split content nl).

(** The action [m] leaves the entry points as they are. *)
Definition keepsNames {A} (m : M A) : Prop :=
  forall st a st',
    m st = Ok (a, st') ->
    primaryEntryPoint st' = primaryEntryPoint st
    /\ secondaryEntryPoints st' = secondaryEntryPoints st.

(** What [written] holds for the secondary entry point [name], [baseName]
    being its last segment:
    - a file with base name [<baseName>.metadata.json], whose content is the
      redirect document pointing to [./<baseName>/<baseName>], on one line,
      followed by a newline; a base name of plain characters appears in the
      document as it is;
    - a file with base name [<baseName>.d.ts], whose content is the license
      banner, a space, a newline, one re-export line pointing to
      [./<baseName>/<baseName>] and a newline; unless the base name holds a
      newline, the re-export lines of the file are those of the banner and
      this one. *)
Definition redirectsOf (p : params) (licenseBanner name : string)
  (written : list event) : Prop :=
  let baseName := template (JS.pop (JS.split name "/")) in
  let dirName := Path.join (JS.slice_init (JS.split name "/")) in
  let from := quote ("./" ++ baseName ++ "/" ++ baseName) in
  let declaration := licenseBanner ++ " " ++ nl ++ reexportLine baseName ++ nl in
  In (WriteFile (Path.join [out p; dirName; baseName ++ ".metadata.json"])
        (redirectDocument from ++ nl)) written
  /\ Path.basename (Path.join [out p; dirName; baseName ++ ".metadata.json"])
     = (baseName ++ ".metadata.json")
  /\ noLineTerminator (redirectDocument from) = true
  /\ (all plainChar baseName = true ->
      from = quoted ("./" ++ baseName ++ "/" ++ baseName))
  /\ In (WriteFile (Path.join [out p; dirName; baseName ++ ".d.ts"]) declaration)
       written
  /\ Path.basename (Path.join [out p; dirName; baseName ++ ".d.ts"])
     = (baseName ++ ".d.ts")
  /\ (lacks "010" baseName = true ->
      reexports declaration
      = (reexports (licenseBanner ++ " ") ++ [reexportLine baseName])%list).

(** *** Notions for the further properties *)

(** A file the Angular compiler generated beside a source file: either
    filter of [main] leaves it out. *)
Definition generated (f : string) : bool :=
  JS.endsWith f ".ngfactory.d.ts" || JS.endsWith f ".ngsummary.d.ts"
  || JS.endsWith f ".ngfactory.bundle_index.metadata.json"
  || JS.endsWith f ".ngsummary.bundle_index.metadata.json".

(** [sub] occurs somewhere in [s]. *)
Fixpoint contains (sub s : string) : bool :=
  String.prefix sub s
  || match s with
     | EmptyString => false
     | String _ r => contains sub r
     end.

(** The elements of [l] in the order of their first occurrence. *)
Fixpoint distinct (l : list string) : list string :=
  match l with
  | [] => []
  | x :: r => x :: List.filter (fun y => negb (String.eqb x y)) (distinct r)
  end.

(** An argument as [main] reads it from a line of the parameter file. *)
Definition unquoted (line : string) : string :=
  if String.eqb line "''" then EmptyString else line.

(** The action [m] adds storage calls to the log and takes none away. *)
Definition appends {A} (m : M A) : Prop :=
  forall st a st',
    m st = Ok (a, st') -> exists more, log st' = (log st ++ more)%list.

(** The [name] of a parsed descriptor, when it is an object whose [name] is
    a string. *)
Definition packageName (j : json) : option string :=
  match j with
  | JObject members =>
      match lookup "name" members with
      | Some (JString name) => Some name
      | _ => None
      end
  | _ => None
  end.

(** The calls [calls] stand in [written] one after the other, in this
    order and with nothing between them. *)
Definition issued (calls written : list event) : Prop :=
  exists before after, written = (before ++ calls ++ after)%list.

(** The three calls [writeFesm] issues for [file], lines 81-83. *)
Definition fesmCalls (baseDir file : string) : list event :=
  let parts := JS.split (Path.basename file) "__" in
  let dir := Path.join (baseDir :: JS.slice_init parts) in
  [Mkdir dir;
   Cp file dir;
   Mv (Path.join [dir; Path.basename file])
      (Path.join [dir; template (JS.pop parts)])].

(** The two writes of lines 158-172 for the secondary entry point [name]. *)
Definition redirectCalls (p : params) (licenseBanner name : string) : list event :=
  let baseName := template (JS.pop (JS.split name "/")) in
  let dirName := Path.join (JS.slice_init (JS.split name "/")) in
  [WriteFile (Path.join [out p; dirName; baseName ++ ".metadata.json"])
     (redirectMetadata baseName);
   WriteFile (Path.join [out p; dirName; baseName ++ ".d.ts"])
     (redirectDeclaration licenseBanner baseName)].

(** [calls] are the two calls of lines 132-133 for the declaration file [f]
    in a run that ends in the state [final]: the directory of the
    destination is made, then the content, the [amd-module] expression
    replaced, is written there; a bundle index goes where [moveBundleIndex]
    says, any other file to its path relative to the build-output root. *)
Definition declarationCalls {env : Env} (p : params) (final : state) (f : string)
  (calls : list event) : Prop :=
  exists content dest,
    readFileSync f = Ok content
    /\ (if JS.endsWith f ".bundle_index.d.ts"
        then moveBundleIndex p f final = Ok (dest, final)
        else dest = Path.join [out p; Path.relative cwd (binDir p) f])
    /\ calls = [Mkdir (Path.dirname dest);
                WriteFile dest (JS.replace content amdModuleRegex EmptyString)].

(** [calls] are the two calls of lines 143-144 for the source [src]. *)
Definition sourceCalls {env : Env} (p : params) (src : string)
  (calls : list event) : Prop :=
  exists content stamped written,
    readFileSync src = Ok content
    /\ replaceVersionPlaceholders p src content = Ok stamped
    /\ (if String.eqb (Path.basename src) "package.json"
        then amendPackageJson src stamped = Ok written
        else written = stamped)
    /\ calls =
       [Mkdir (Path.dirname (Path.join [out p; Path.relative cwd (srcDir p) src]));
        WriteFile (Path.join [out p; Path.relative cwd (srcDir p) src]) written].

(** [calls] is the write of lines 148-149 for the bundle-index metadata file
    [f] in a run that ends in the state [final]. *)
Definition metadataCalls {env : Env} (p : params) (final : state) (f : string)
  (calls : list event) : Prop :=
  exists content stamped dest,
    moveBundleIndex p f final = Ok (dest, final)
    /\ readFileSync f = Ok content
    /\ replaceVersionPlaceholders p f content = Ok stamped
    /\ calls = [WriteFile dest stamped].

(** The storage calls of a run, in order: the output root, the README, the
    FESM files, the bundles, then the calls given for the declaration files,
    the sources and the bundle-index metadata, and last the redirects. *)
Definition runCalls (p : params) (licenseBanner : string)
  (declarations sources metadata : list (list event))
  (secondaries : list string) : list event :=
  (Mkdir (out p)
   :: (if truthy (Some (readmeMd p))
       then [Cp (readmeMd p) (Path.join [out p; "README.md"])]
       else [])
   ++ flat_map (fesmCalls (Path.join [out p; "esm2015"])) (fesms2015 p)
   ++ flat_map (fesmCalls (Path.join [out p; "esm5"])) (fesms5 p)
   ++ Mkdir (Path.join [out p; "bundles"])
   :: map (fun bundle => Cp bundle (Path.join [out p; "bundles"])) (bundles p)
   ++ concat declarations
   ++ concat sources
   ++ concat metadata
   ++ flat_map (redirectCalls p licenseBanner) secondaries)%list.

(** The first line of a declaration file that names its AMD module. *)
Definition amdModuleLine (name : string) : string :=
  "/// <amd-module name=" ++ name ++ "/>" ++ nl.

End Spec.

(* ================================================================= *)
(** ** Concrete runs used below *)

Module Examples.

Import JSON Packager.

(** The descriptor [{ name: '@angular/core' }], its text, and what
    [amendPackageJson] makes of it. *)
Definition coreDescriptor : json := JObject [("name", JString "@angular/core")].

Definition coreText : string := stringify coreDescriptor.

Definition coreAmended : json :=
  JObject
    [("name", JString "@angular/core");
     ("main", JString "./bundles/core.umd.js");
     ("module", JString "./esm5/core.js");
     ("es2015", JString "./esm2015/core.js");
     ("typings", JString "./core.d.ts")].

Definition descriptorEnv : Env :=
  tableEnv "/work" [] [] EmptyString [(coreText, coreDescriptor)].


(** A package with an entry point nested in another one. *)
Definition nestedParams : params :=
  mkParams "/out" "/src" "/bin" EmptyString
    ["core.js"; "core__testing.js"; "core__testing__foo.js"] [] [] []
    None None.

Definition nestedEnv : Env := tableEnv "/work" [] [] EmptyString [].

(** The state after the FESM files of [nestedParams]. *)
Definition nestedState : state :=
  match forEach (fesms2015 nestedParams)
          (fun fesm2015 => writeFesm fesm2015 (Path.join [out nestedParams; "esm2015"]))
          initial with
  | Ok (_, st) => st
  | Throw _ => initial
  end.

Definition nestedIndex : string := "/bin/core/testing/foo/foo.bundle_index.d.ts".

(** A file name with a carriage return after its first dot. *)
Definition brokenName : string := "a.b" ++ String "013"%char "c".

(** A run stamped with the version 10.0.0. *)
Definition stampedEnv : Env :=
  tableEnv "/work" [] [] ("BUILD_SCM_VERSION 10.0.0" ++ nl) [].

Definition stampedParams : params :=
  mkParams "/out" "/src" "/bin" EmptyString [] [] [] []
    (Some "/bin/stamp.txt") None.

(** A build-output tree with one declaration file and its metadata file;
    the parameter file names the output root, the source root and the
    build-output root and leaves the other seven arguments empty. *)
Definition treeParamFile : string :=
  JS.join ["/out"; "/src"; "/bin"; "''"; "''"; "''"; "''"; "''"; "''"; "''"] nl.

Definition treeEnv : Env :=
  tableEnv "/work"
    [("/params", treeParamFile);
     ("/bin/core/src/util.d.ts", "export declare const util: number;" ++ nl);
     ("/bin/core/src/util.metadata.json", "{}")]
    ["/bin"; "/bin/core"; "/bin/core/src";
     "/bin/core/src/util.d.ts"; "/bin/core/src/util.metadata.json"]
    EmptyString [].

(** The state of a run whose secondary entry point is [testing/foo]. *)
Definition fooState : state := mkState (Some "testing") ["testing/foo"] [].

(** A run that has seen no FESM file. *)
Definition bareParams : params :=
  mkParams "/out" "/src" "/bin" EmptyString [] [] [] [] None None.

(** A package with the entry points [testing] and [testing/foo] and no
    license file. *)
Definition fooParamFile : string :=
  JS.join ["/out"; "/src"; "/bin"; "''"; "testing.js,testing__foo.js"; "''";
           "''"; "''"; "''"; "''"] nl.

Definition fooEnv : Env :=
  tableEnv "/work" [("/params", fooParamFile)] [] EmptyString [].

(** A package with a README, the entry points [core] and [core/testing],
    one bundle, sources to stamp, and a build-output tree with plain
    declaration files, bundle-index files and generated files. *)
Definition packageParamFile : string :=
  JS.join ["/out"; "/src"; "/bin"; "/src/README.md"; "core.js,core__testing.js";
           "core.js"; "core.umd.js"; "/src/package.json,/src/VERSION";
           "/bin/stamp.txt"; "/src/banner.txt"] nl.

Definition packageListing : list string :=
  ["/bin"; "/bin/core"; "/bin/core/index.d.ts"; "/bin/core/index.ngfactory.d.ts";
   "/bin/core/core.bundle_index.d.ts"; "/bin/core/core.bundle_index.metadata.json";
   "/bin/core/testing"; "/bin/core/testing/testing.bundle_index.d.ts";
   "/bin/core/testing/testing.bundle_index.metadata.json"].

(** The surroundings of that package, [banner] being the content of its
    license file. *)
Definition packageEnvWith (banner : string) : Env :=
  tableEnv "/work"
    [("/params", packageParamFile);
     ("/src/package.json", coreText);
     ("/src/VERSION", "0.0.0-PLACEHOLDER");
     ("/src/banner.txt", banner);
     ("/bin/core/index.d.ts",
       Spec.amdModuleLine "'core'" ++ "export * from './src/core';" ++ nl);
     ("/bin/core/core.bundle_index.d.ts", "export * from './index';");
     ("/bin/core/core.bundle_index.metadata.json", "{}");
     ("/bin/core/testing/testing.bundle_index.d.ts", "export * from './index';");
     ("/bin/core/testing/testing.bundle_index.metadata.json",
       "{ version: 0.0.0-PLACEHOLDER }")]
    packageListing
    ("BUILD_SCM_VERSION 10.0.0" ++ nl)
    [(coreText, coreDescriptor)].

Definition packageEnv : Env := packageEnvWith "/* banner */".

(** The arguments its parameter file stands for. *)
Definition packageParams : params :=
  mkParams "/out" "/src" "/bin" "/src/README.md"
    ["core.js"; "core__testing.js"] ["core.js"] ["core.umd.js"]
    ["/src/package.json"; "/src/VERSION"]
    (Some "/bin/stamp.txt") (Some "/src/banner.txt").

(** The state at the end of that run. *)
Definition packageRun : state :=
  match main (env := packageEnv) ["/params"] with
  | Ok (_, st) => st
  | Throw _ => initial
  end.

(** The same package with a license file that holds a re-export line, and
    the declaration redirect its run writes for [core/testing]. *)
Definition reexportingBanner : string := "export * from './license';" ++ nl.

Definition bannerEnv : Env := packageEnvWith reexportingBanner.

Definition bannerRedirect : string :=
  reexportingBanner ++ " " ++ nl ++ " export * from './testing/testing'" ++ nl.

End Examples.

(* ================================================================= *)
(** ** The built-ins on examples *)

Section BuiltIns.

Example split_double_underscore :
  JS.split "common__http.umd.js" "__" = ["common"; "http.umd.js"]
  /\ JS.split "a___b__" "__" = ["a"; "_b"; EmptyString]
  /\ JS.split EmptyString "__" = [EmptyString]
  /\ JS.split "ab" EmptyString = ["a"; "b"].
Proof. repeat split. Qed.

Example trim_both_ends :
  JS.trim ("  10.0.0 " ++ JSON.nl) = "10.0.0".
Proof. reflexivity. Qed.

Example replace_first_and_all :
  JS.replace "common/http.umd.js" Packager.extensionRegex EmptyString = "common/http"
  /\ JS.replaceAll ("v" ++ Packager.sentinel ++ ", 0a0b0-PLACEHOLDER")
       Packager.placeholderRegex "[$&]"
     = "v[" ++ Packager.sentinel ++ "], [0a0b0-PLACEHOLDER]".
Proof. split; reflexivity. Qed.

Example amd_module_line :
  JS.replace ("/// <amd-module name=" ++ "core/testing" ++ "/>" ++ JSON.nl ++ "export {};")
    Packager.amdModuleRegex EmptyString = "export {};"
  /\ JS.replace ("// <amd-module name=x/>" ++ JSON.nl ++ "export {};")
       Packager.amdModuleRegex EmptyString
     = "// <amd-module name=x/>" ++ JSON.nl ++ "export {};".
Proof. split; reflexivity. Qed.

Example path_basename_dirname :
  Path.basename "/a/b//" = "b" /\ Path.basename "x/y.js" = "y.js"
  /\ Path.basename "///" = EmptyString
  /\ Path.dirname "/a/b//" = "/a" /\ Path.dirname "x/y.js" = "x"
  /\ Path.dirname "a" = "." /\ Path.dirname "/a" = "/".
Proof. repeat split. Qed.

Example path_join :
  Path.join ["out"; "core/testing"; "testing.d.ts"] = "out/core/testing/testing.d.ts"
  /\ Path.join ["/out/"; "../x//y/"; "./z/"] = "/x/y/z/"
  /\ Path.join [EmptyString; EmptyString] = "."
  /\ Path.join ["a"; "../.."] = ".."
  /\ Path.join [] = ".".
Proof. repeat split. Qed.

Example path_relative :
  Path.relative "/work" "/bin" "/bin/core/a.d.ts" = "core/a.d.ts"
  /\ Path.relative "/work" "bin" "bin/x" = "x"
  /\ Path.relative "/work" "/a/b" "/a/bc" = "../bc"
  /\ Path.relative "/work" "/a/b" "/a" = "..".
Proof. repeat split. Qed.

Example stringify_nested :
  JSON.stringify2
    (JSON.JObject [("name", JSON.JString "x"); ("files", JSON.JArray []);
                   ("deps", JSON.JObject [("y", JSON.JNumber "1")])])
  = "{" ++ JSON.nl
      ++ "  " ++ Spec.quoted "name" ++ ": " ++ Spec.quoted "x" ++ "," ++ JSON.nl
      ++ "  " ++ Spec.quoted "files" ++ ": []," ++ JSON.nl
      ++ "  " ++ Spec.quoted "deps" ++ ": {" ++ JSON.nl
      ++ "    " ++ Spec.quoted "y" ++ ": 1" ++ JSON.nl
      ++ "  }" ++ JSON.nl
      ++ "}".
Proof. reflexivity. Qed.

End BuiltIns.

(* ================================================================= *)
(** ** Facts about strings *)

Section StringFacts.

Lemma append_assoc (a b c : string) : ((a ++ b) ++ c) = (a ++ (b ++ c)).
Proof. induction a as [|x a IH]; simpl; [reflexivity|now rewrite IH]. Qed.

Lemma append_empty_r (a : string) : (a ++ EmptyString) = a.
Proof. induction a as [|x a IH]; simpl; [reflexivity|now rewrite IH]. Qed.

Lemma rev_append (a b : string) : JS.rev (a ++ b) = (JS.rev b ++ JS.rev a).
Proof.
  induction a as [|x a IH]; simpl.
  - now rewrite append_empty_r.
  - now rewrite IH, append_assoc.
Qed.

Lemma rev_involutive (a : string) : JS.rev (JS.rev a) = a.
Proof.
  induction a as [|x a IH]; simpl; [reflexivity|].
  rewrite rev_append. simpl. now rewrite IH.
Qed.

Lemma prefix_append (a b : string) : String.prefix a (a ++ b) = true.
Proof.
  induction a as [|x a IH]; simpl; [now destruct b|].
  destruct (ascii_dec x x); [exact IH|congruence].
Qed.

Lemma prefix_append_r (q s x : string) :
  String.prefix q s = true -> String.prefix q (s ++ x) = true.
Proof.
  revert s. induction q as [|c q IH]; intros s H.
  - now destruct (s ++ x).
  - destruct s as [|d s]; simpl in *; [discriminate|].
    destruct (ascii_dec c d); [now apply IH|discriminate].
Qed.

Lemma prefix_inv (q s : string) :
  String.prefix q s = true -> exists t, s = (q ++ t).
Proof.
  revert s. induction q as [|c q IH]; intros s H.
  - now exists s.
  - destruct s as [|d s]; simpl in H; [discriminate|].
    destruct (ascii_dec c d) as [->|]; [|discriminate].
    destruct (IH s H) as [t ->]. now exists t.
Qed.

(** [endsWith] is the suffix test. *)
Lemma endsWith_iff (s q : string) :
  JS.endsWith s q = true <-> exists t, s = (t ++ q).
Proof.
  unfold JS.endsWith. split.
  - intros H. apply prefix_inv in H. destruct H as [t Ht].
    exists (JS.rev t). rewrite <- (rev_involutive s), Ht, rev_append.
    now rewrite rev_involutive.
  - intros [t ->]. rewrite rev_append. apply prefix_append.
Qed.

Lemma endsWith_append (a b q : string) :
  JS.endsWith b q = true -> JS.endsWith (a ++ b) q = true.
Proof.
  unfold JS.endsWith. intros H. rewrite rev_append. now apply prefix_append_r.
Qed.

(** [startsWith] is the prefix test. *)
Lemma startsWith_iff (s q : string) :
  JS.startsWith s q = true <-> exists t, s = (q ++ t).
Proof.
  unfold JS.startsWith. split; [apply prefix_inv|].
  intros [t ->]. apply prefix_append.
Qed.

(** Two suffixes with different last characters exclude each other. *)
Lemma endsWith_last_differs (s a b : string) (x y : ascii) :
  x <> y ->
  JS.endsWith s (a ++ String x EmptyString) = true ->
  JS.endsWith s (b ++ String y EmptyString) = false.
Proof.
  unfold JS.endsWith. intros Hxy. rewrite !rev_append. simpl.
  destruct (JS.rev s) as [|c r]; simpl; [discriminate|].
  destruct (ascii_dec x c) as [->|]; [|discriminate].
  intros _. destruct (ascii_dec y c); [congruence|reflexivity].
Qed.

End StringFacts.

(* ================================================================= *)
(** ** Entry-point classification *)

Import Packager.

Section Classification.

Lemma setAdd_In (x y : string) (s : list string) :
  In x (setAdd y s) <-> x = y \/ In x s.
Proof.
  unfold setAdd. destruct (existsb (String.eqb y) s) eqn:E.
  - split; [now right|]. intros [->|H]; [|exact H].
    apply existsb_exists in E. destruct E as [z [Hz Hyz]].
    apply String.eqb_eq in Hyz. now subst.
  - rewrite in_app_iff. simpl. split.
    + intros [H|[H|[]]]; [now right|now left].
    + intros [H|H]; [right; left; now symmetry|now left].
Qed.

Lemma setAdd_NoDup (y : string) (s : list string) :
  NoDup s -> NoDup (setAdd y s).
Proof.
  intros H. unfold setAdd. destruct (existsb (String.eqb y) s) eqn:E; [exact H|].
  assert (Hy : ~ In y s).
  { intros Hin. assert (existsb (String.eqb y) s = true).
    { apply existsb_exists. exists y. split; [exact Hin|apply String.eqb_refl]. }
    congruence. }
  clear E. induction H as [|a l Ha Hl IH]; simpl.
  - constructor; [intros []|constructor].
  - constructor.
    + rewrite in_app_iff. simpl. intros [H1|[H1|[]]]; [now apply Ha|].
      apply Hy. now left.
    + apply IH. intros Hin. apply Hy. now right.
Qed.

(** One call of [writeFesm] once the primary entry point is known. *)
Lemma writeFesm_step (file baseDir q : string) (st : state) :
  primaryEntryPoint st = Some q ->
  exists st',
    writeFesm file baseDir st = Ok (tt, st')
    /\ primaryEntryPoint st' = Some q
    /\ secondaryEntryPoints st' =
         (if String.eqb q (entryPointNameOf file)
          then secondaryEntryPoints st
          else setAdd (entryPointNameOf file) (secondaryEntryPoints st)).
Proof.
  intros Hq. unfold writeFesm. rewrite Hq.
  eexists. split; [reflexivity|]. simpl.
  destruct (String.eqb q (entryPointNameOf file)) eqn:E.
  - apply String.eqb_eq in E. subst q. now split.
  - now split.
Qed.

Lemma forEach_cons {A} (x : A) (l : list A) (f : A -> M unit) (st : state) :
  forEach (x :: l) f st =
  match f x st with
  | Ok (_, st') => forEach l f st'
  | Throw e => Throw e
  end.
Proof. reflexivity. Qed.

Lemma writeFesm_many (files : list (string * string)) :
  forall (q : string) (st : state),
    primaryEntryPoint st = Some q ->
    exists st',
      forEach files (fun fb => writeFesm (fst fb) (snd fb)) st = Ok (tt, st')
      /\ primaryEntryPoint st' = Some q
      /\ (forall name,
             In name (secondaryEntryPoints st') <->
             In name (secondaryEntryPoints st)
             \/ (name <> q /\ In name (map (fun fb => entryPointNameOf (fst fb)) files)))
      /\ (NoDup (secondaryEntryPoints st) -> NoDup (secondaryEntryPoints st')).
Proof.
  induction files as [|[file baseDir] files IH]; intros q st Hq.
  - exists st. simpl. repeat split; auto.
    + intros [H|[_ []]]. exact H.
  - destruct (writeFesm_step file baseDir q st Hq) as [st1 [H1 [Hq1 Hs1]]].
    destruct (IH q st1 Hq1) as [st' [H' [Hq' [Hs' Hnd']]]].
    exists st'. rewrite forEach_cons. cbn [fst snd]. rewrite H1.
    split; [exact H'|]. split; [exact Hq'|]. split.
    + intros name. rewrite Hs', Hs1.
      destruct (String.eqb q (entryPointNameOf file)) eqn:E.
      * apply String.eqb_eq in E. simpl. split.
        -- intros [H|[Hn H]]; [now left|right; split; [exact Hn|now right]].
        -- intros [H|[Hn [H|H]]]; [now left| |right; now split].
           exfalso. apply Hn. now rewrite <- H.
      * apply String.eqb_neq in E. rewrite setAdd_In. simpl. split.
        -- intros [[H|H]|[Hn H]].
           ++ right. split; [|left; now symmetry]. intros ->. now apply E.
           ++ now left.
           ++ right. split; [exact Hn|now right].
        -- intros [H|[Hn [H|H]]].
           ++ left. now right.
           ++ left. left. now symmetry.
           ++ right. now split.
    + intros Hnd. apply Hnd'. rewrite Hs1.
      destruct (String.eqb q (entryPointNameOf file)); [exact Hnd|].
      now apply setAdd_NoDup.
Qed.

(** The first call of [writeFesm] in a run. *)
Lemma writeFesm_first (file baseDir : string) :
  exists st1,
    writeFesm file baseDir initial = Ok (tt, st1)
    /\ primaryEntryPoint st1 = Some (entryPointNameOf file)
    /\ secondaryEntryPoints st1 = [].
Proof. eexists. repeat split. Qed.

(** C1. Whatever the sequence of FESM files handed to [writeFesm], in input
    order and starting from the state [main] starts from: the run goes
    through; the name of the first file is the primary entry point at the
    end, so nothing later overwrites it; a name is in the secondary set
    exactly when it is the name of a later file and differs from the
    primary; the primary is not in the secondary set; the secondary set has
    no duplicates. Moreover a single call never changes a primary entry
    point that is already set. *)
Theorem writeFesm_classification :
  forall (file baseDir : string) (files : list (string * string)),
    (exists st',
        forEach ((file, baseDir) :: files)
          (fun fb => writeFesm (fst fb) (snd fb)) initial = Ok (tt, st')
        /\ primaryEntryPoint st' = Some (entryPointNameOf file)
        /\ (forall name,
               In name (secondaryEntryPoints st') <->
               name <> entryPointNameOf file
               /\ In name (map (fun fb => entryPointNameOf (fst fb)) files))
        /\ ~ In (entryPointNameOf file) (secondaryEntryPoints st')
        /\ NoDup (secondaryEntryPoints st'))
    /\ (forall (st : state) (q f b : string),
           primaryEntryPoint st = Some q ->
           exists st',
             writeFesm f b st = Ok (tt, st') /\ primaryEntryPoint st' = Some q).
Proof.
  intros file baseDir files. split.
  - destruct (writeFesm_first file baseDir) as [st1 [H1 [Hq1 Hs1]]].
    destruct (writeFesm_many files (entryPointNameOf file) st1 Hq1)
      as [st' [H' [Hq' [Hs' Hnd']]]].
    exists st'. rewrite forEach_cons. cbn [fst snd]. rewrite H1.
    split; [exact H'|]. split; [exact Hq'|].
    assert (Hiff : forall name,
               In name (secondaryEntryPoints st') <->
               name <> entryPointNameOf file
               /\ In name (map (fun fb => entryPointNameOf (fst fb)) files)).
    { intros name. rewrite Hs', Hs1. simpl.
      split; [intros [[]|H]; exact H|now right]. }
    split; [exact Hiff|]. split.
    + intros Hin. apply Hiff in Hin. destruct Hin as [Hn _]. now apply Hn.
    + apply Hnd'. rewrite Hs1. constructor.
  - intros st q f b Hq.
    destruct (writeFesm_step f b q st Hq) as [st' [H1 [H2 _]]].
    exists st'. now split.
Qed.

End Classification.

Lemma writeFesm_classification_witness :
  exists st',
    writeFesm "/bin/core__testing.js" "/out/esm5" Examples.fooState = Ok (tt, st')
    /\ primaryEntryPoint st' = Some "testing".
Proof.
  exact (proj2 (writeFesm_classification "core.js" "/out/esm2015" [])
           Examples.fooState "testing" "/bin/core__testing.js" "/out/esm5" eq_refl).
Defined.

(* ================================================================= *)
(** ** The package descriptor *)

Section Descriptor.

Import JSON.

Lemma lookup_assign_same (k : string) (v : json) (m : list (string * json)) :
  lookup k (assign k v m) = Some v.
Proof.
  induction m as [|[k' v'] m IH]; simpl.
  - now rewrite String.eqb_refl.
  - destruct (String.eqb k k') eqn:E; simpl.
    + now rewrite String.eqb_refl.
    + now rewrite E.
Qed.

Lemma lookup_assign_other (k k' : string) (v : json) (m : list (string * json)) :
  String.eqb k k' = false ->
  lookup k (assign k' v m) = lookup k m.
Proof.
  intros Hk. induction m as [|[k2 v2] m IH]; simpl.
  - now rewrite Hk.
  - destruct (String.eqb k' k2) eqn:E; simpl.
    + apply String.eqb_eq in E. subst k2. now rewrite Hk.
    + now rewrite IH.
Qed.

Lemma otherMembers_assign (k : string) (v : json) (m : list (string * json)) :
  Spec.pointerField k = true ->
  Spec.otherMembers (assign k v m) = Spec.otherMembers m.
Proof.
  intros Hk. unfold Spec.otherMembers.
  induction m as [|[k' v'] m IH]; simpl.
  - now rewrite Hk.
  - destruct (String.eqb k k') eqn:E; simpl.
    + apply String.eqb_eq in E. subst k'. now rewrite Hk.
    + now rewrite IH.
Qed.

Lemma keys_assign (k : string) (v : json) (m : list (string * json)) :
  map fst (assign k v m) = setAdd k (map fst m).
Proof.
  unfold setAdd. induction m as [|[k' v'] m IH]; simpl; [reflexivity|].
  destruct (String.eqb k k') eqn:E; simpl.
  - apply String.eqb_eq in E. now subst k'.
  - rewrite IH. now destruct (existsb (String.eqb k) (map fst m)).
Qed.

Lemma assign_nonempty (k : string) (v : json) (m : list (string * json)) :
  assign k v m <> [].
Proof. destruct m as [|[k' v'] m]; simpl; [|destruct (String.eqb k k')]; discriminate. Qed.

Lemma rel_code (segs : list string) :
  segs <> [] ->
  (if isEmpty (JS.join (List.repeat ".." (List.length segs - 1)) "/")
   then "."
   else JS.join (List.repeat ".." (List.length segs - 1)) "/")
  = Spec.rel (List.length segs).
Proof.
  unfold Spec.rel. destruct segs as [|a [|b segs]]; intros H; [congruence|reflexivity|].
  cbn [List.length Nat.sub Nat.eqb List.repeat]. unfold JS.join. simpl.
  now destruct (List.repeat ".." (List.length segs)).
Qed.

(** What [amendPackageJson] returns for a descriptor with a usable name. *)
Lemma amendParsedPackage_ok (members : list (string * json))
  (name indexFile : string) (segs : list string) :
  lookup "name" members = Some (JString name) ->
  dropScope (JS.split name "/") = segs ->
  JS.pop segs = Some indexFile ->
  amendParsedPackage (JObject members) =
  Ok (stringify2
        (JObject
           (assign "typings" (JString ("./" ++ indexFile ++ ".d.ts"))
              (assign "es2015"
                 (JString (Spec.rel (List.length segs) ++ "/esm2015/" ++ indexFile ++ ".js"))
                 (assign "module"
                    (JString (Spec.rel (List.length segs) ++ "/esm5/" ++ indexFile ++ ".js"))
                    (assign "main"
                       (JString (Spec.rel (List.length segs) ++ "/bundles/"
                                   ++ JS.join segs "-" ++ ".umd.js"))
                       members)))))).
Proof.
  intros Hname Hsegs Hpop. unfold amendParsedPackage. rewrite Hname, Hsegs.
  assert (Hne : segs <> []) by (intros ->; discriminate).
  rewrite (rel_code segs Hne), Hpop. cbn [template].
  destruct segs; [congruence|reflexivity].
Qed.

End Descriptor.

Section DescriptorClaims.

Import JSON.

(** C3. For a descriptor whose [name], once a leading [@]-scope segment is
    dropped, has the segments [segs] with last segment [indexFile], and with
    [rel] being [.] for one segment and otherwise one [..] per further
    segment joined by [/], [amendPackageJson] returns the text of a
    descriptor in which [main] is [<rel>/bundles/<segs joined by ->.umd.js],
    [module] is [<rel>/esm5/<indexFile>.js], [es2015] is
    [<rel>/esm2015/<indexFile>.js] and [typings] is [./<indexFile>.d.ts].
    For the name [@angular/core] these are [./bundles/core.umd.js],
    [./esm5/core.js], [./esm2015/core.js] and [./core.d.ts]. *)
Theorem amendPackageJson_pointers :
  (forall (env : Env) (filePath content : string)
          (members : list (string * json)) (name indexFile : string)
          (segs : list string),
      JSON_parse content = Ok (JObject members) ->
      lookup "name" members = Some (JString name) ->
      dropScope (JS.split name "/") = segs ->
      JS.pop segs = Some indexFile ->
      exists members',
        amendPackageJson filePath content = Ok (stringify2 (JObject members'))
        /\ lookup "main" members' =
             Some (JString (Spec.rel (List.length segs) ++ "/bundles/"
                              ++ JS.join segs "-" ++ ".umd.js"))
        /\ lookup "module" members' =
             Some (JString (Spec.rel (List.length segs) ++ "/esm5/" ++ indexFile ++ ".js"))
        /\ lookup "es2015" members' =
             Some (JString (Spec.rel (List.length segs) ++ "/esm2015/" ++ indexFile ++ ".js"))
        /\ lookup "typings" members' =
             Some (JString ("./" ++ indexFile ++ ".d.ts")))
  /\ (forall (env : Env) (filePath content : string),
         JSON_parse content = Ok Examples.coreDescriptor ->
         amendPackageJson filePath content = Ok (stringify2 Examples.coreAmended)).
Proof.
  split.
  - intros env filePath content members name indexFile segs Hparse Hname Hsegs Hpop.
    eexists. unfold amendPackageJson. rewrite Hparse.
    split; [apply (amendParsedPackage_ok members name indexFile segs Hname Hsegs Hpop)|].
    repeat split.
    + rewrite !lookup_assign_other by reflexivity. apply lookup_assign_same.
    + rewrite !lookup_assign_other by reflexivity. apply lookup_assign_same.
    + rewrite !lookup_assign_other by reflexivity. apply lookup_assign_same.
    + apply lookup_assign_same.
  - intros env filePath content Hparse.
    unfold amendPackageJson. rewrite Hparse. reflexivity.
Qed.

Lemma amendPackageJson_pointers_witness :
  exists members',
    amendPackageJson (env := Examples.descriptorEnv) "package.json" Examples.coreText
    = Ok (stringify2 (JObject members'))
    /\ lookup "main" members' = Some (JString "./bundles/core.umd.js")
    /\ lookup "module" members' = Some (JString "./esm5/core.js")
    /\ lookup "es2015" members' = Some (JString "./esm2015/core.js")
    /\ lookup "typings" members' = Some (JString "./core.d.ts").
Proof.
  exact (proj1 amendPackageJson_pointers Examples.descriptorEnv
           "package.json" Examples.coreText
           [("name", JString "@angular/core")] "@angular/core" "core" ["core"]
           eq_refl eq_refl eq_refl eq_refl).
Defined.

(** C4 fails as stated: the text [amendPackageJson] returns for
    [{ name: '@angular/core' }] does not end with a newline. *)
Lemma amendPackageJson_trailing_newline_counterexample :
  amendPackageJson (env := Examples.descriptorEnv) "package.json" Examples.coreText
  = Ok (stringify2 Examples.coreAmended)
  /\ JS.endsWith (stringify2 Examples.coreAmended) nl = false.
Proof. split; reflexivity. Qed.

Lemma stringify2_object_closes (m : list (string * json)) :
  JS.endsWith (stringify2 (JObject m)) "}" = true.
Proof.
  unfold stringify2. cbn [serialize]. unfold wrap.
  destruct (map _ m); [reflexivity|].
  cbn [isEmpty]. repeat apply endsWith_append. reflexivity.
Qed.

(** C4, as the code has it. Whenever [amendPackageJson] returns a text, the
    content parsed to an object, and the text is [JSON.stringify(_, null, 2)]
    of an object that has the members of the parsed one other than [main],
    [module], [es2015], [typings] in the same order with the same values;
    its keys are the parsed keys with those of the four fields that were
    missing added at the end; the text ends with the closing brace, and no
    newline follows it. *)
Theorem amendPackageJson_reserializes :
  forall (env : Env) (filePath content text : string),
    amendPackageJson filePath content = Ok text ->
    exists members members',
      JSON_parse content = Ok (JObject members)
      /\ text = stringify2 (JObject members')
      /\ Spec.otherMembers members' = Spec.otherMembers members
      /\ map fst members' =
           setAdd "typings" (setAdd "es2015" (setAdd "module"
             (setAdd "main" (map fst members))))
      /\ JS.endsWith text "}" = true
      /\ JS.endsWith text nl = false.
Proof.
  intros env filePath content text. unfold amendPackageJson.
  destruct (JSON_parse content) as [parsed|e] eqn:Hparse; [|discriminate].
  unfold amendParsedPackage.
  destruct parsed as [| | | | |members]; try discriminate.
  destruct (lookup "name" members) as [[| | |name| |]|]; try discriminate.
  destruct (dropScope (JS.split name "/")) as [|s segs] eqn:Hsegs; [discriminate|].
  intros H. injection H as <-.
  eexists members, _. split; [reflexivity|]. split; [reflexivity|].
  split; [now rewrite !otherMembers_assign by reflexivity|].
  split; [now rewrite !keys_assign|].
  split; [apply stringify2_object_closes|].
  apply (endsWith_last_differs _ EmptyString EmptyString "}" "010");
    [discriminate|apply stringify2_object_closes].
Qed.

Lemma amendPackageJson_reserializes_witness :
  exists members members',
    JSON_parse (Env := Examples.descriptorEnv) Examples.coreText = Ok (JObject members)
    /\ stringify2 Examples.coreAmended = stringify2 (JObject members')
    /\ Spec.otherMembers members' = Spec.otherMembers members
    /\ map fst members' =
         setAdd "typings" (setAdd "es2015" (setAdd "module"
           (setAdd "main" (map fst members))))
    /\ JS.endsWith (stringify2 Examples.coreAmended) "}" = true
    /\ JS.endsWith (stringify2 Examples.coreAmended) nl = false.
Proof.
  apply (amendPackageJson_reserializes Examples.descriptorEnv
           "package.json" Examples.coreText).
  reflexivity.
Defined.

End DescriptorClaims.

(* ================================================================= *)
(** ** The entry-point name of a FESM file *)

Section EntryPointName.

(** Induction two characters at a time. *)
Lemma string_pair_ind (P : string -> Prop) :
  P EmptyString ->
  (forall c, P (String c EmptyString)) ->
  (forall c d s, P s -> P (String d s) -> P (String c (String d s))) ->
  forall s, P s.
Proof.
  intros H0 H1 H2 s.
  enough (H : P s /\ forall c, P (String c s)) by apply H.
  induction s as [|d s [IHs IHc]]; [now split|].
  split; [apply IHc|]. intros c. apply H2; [exact IHs|apply IHc].
Qed.

Lemma splitOn_nonempty (sep : string) (s : string) :
  forall skip, JS.splitOn sep skip s <> [].
Proof.
  induction s as [|c s IH]; intros skip; cbn [JS.splitOn]; [discriminate|].
  destruct skip; [|apply IH].
  destruct (String.prefix sep (String c s)); [discriminate|].
  destruct (JS.splitOn sep 0 s); discriminate.
Qed.

Lemma concat_cons_char (sep : string) (c : ascii) (h : string) (t : list string) :
  String.concat sep (String c h :: t) = String c (String.concat sep (h :: t)).
Proof. destruct t; reflexivity. Qed.

Lemma concat_empty_head (sep : string) (l : list string) :
  l <> [] -> String.concat sep (EmptyString :: l) = (sep ++ String.concat sep l).
Proof. destruct l; [congruence|reflexivity]. Qed.

Lemma prefix_cons (c d : ascii) (q s : string) :
  String.prefix (String c q) (String d s) = (c =? d)%char && String.prefix q s.
Proof.
  cbn [String.prefix].
  destruct (ascii_dec c d), (Ascii.eqb_spec c d); try congruence; reflexivity.
Qed.

Lemma prefix_empty (s : string) : String.prefix EmptyString s = true.
Proof. now destruct s. Qed.

Lemma splitOn_cons (sep : string) (c : ascii) (r : string) :
  JS.splitOn sep 0 (String c r) =
  if String.prefix sep (String c r)
  then EmptyString :: JS.splitOn sep (String.length sep - 1) r
  else match JS.splitOn sep 0 r with
       | h :: t => String c h :: t
       | [] => [String c EmptyString]
       end.
Proof. reflexivity. Qed.

Lemma slashed_cons (c d : ascii) (s : string) :
  Spec.slashed (String c (String d s)) =
  if (c =? "_")%char && (d =? "_")%char then String "/" (Spec.slashed s)
  else String c (Spec.slashed (String d s)).
Proof. cbn [Spec.slashed]. destruct (c =? "_")%char, (d =? "_")%char; reflexivity. Qed.

Lemma slashed_one (c : ascii) : Spec.slashed (String c EmptyString) = String c EmptyString.
Proof. simpl. now destruct (c =? "_")%char. Qed.

(** Splitting on [__] and joining with [/] turns every [__], read from the
    left, into [/]. *)
Lemma split_join_slashed (s : string) :
  JS.join (JS.split s "__") "/" = Spec.slashed s.
Proof.
  unfold JS.join, JS.split.
  induction s as [| c | c d s IH0 IH1] using string_pair_ind.
  - reflexivity.
  - rewrite splitOn_cons, prefix_cons, slashed_one.
    change (String.prefix "_" EmptyString) with false. rewrite andb_false_r.
    reflexivity.
  - rewrite splitOn_cons, !prefix_cons, prefix_empty, andb_true_r, slashed_cons.
    rewrite (Ascii.eqb_sym "_" c), (Ascii.eqb_sym "_" d).
    destruct ((c =? "_")%char && (d =? "_")%char).
    + cbn [String.length Nat.sub JS.splitOn].
      rewrite concat_empty_head by apply splitOn_nonempty.
      rewrite IH0. reflexivity.
    + destruct (JS.splitOn "__" 0 (String d s)) as [|h t] eqn:E;
        [now apply splitOn_nonempty in E|].
      now rewrite concat_cons_char, IH1.
Qed.

(** Cutting at the first dot commutes with the rewriting of [__]. *)
Lemma before_dot_slashed (s : string) :
  Spec.before "." (Spec.slashed s) = Spec.slashed (Spec.before "." s).
Proof.
  induction s as [| c | c d s IH0 IH1] using string_pair_ind.
  - reflexivity.
  - rewrite slashed_one. simpl. destruct (c =? ".")%char; [reflexivity|].
    now rewrite slashed_one.
  - rewrite slashed_cons.
    destruct (Ascii.eqb_spec c "_") as [->|Hc]; cbn [andb].
    + destruct (Ascii.eqb_spec d "_") as [->|Hd].
      * cbn [Spec.before]. change ("/" =? ".")%char with false.
        change ("_" =? ".")%char with false. cbv iota.
        rewrite IH0, slashed_cons. reflexivity.
      * cbn [Spec.before] in *. change ("_" =? ".")%char with false. cbv iota.
        rewrite IH1. destruct (d =? ".")%char eqn:Ed; [reflexivity|].
        rewrite slashed_cons.
        destruct (Ascii.eqb_spec d "_"); [congruence|reflexivity].
    + cbn [Spec.before] in *. destruct (c =? ".")%char; [reflexivity|].
      rewrite IH1. destruct (d =? ".")%char eqn:Ed.
      * now rewrite slashed_one.
      * rewrite slashed_cons.
        destruct (Ascii.eqb_spec c "_"); [congruence|reflexivity].
Qed.

Lemma after_dot_slashed (s : string) :
  Spec.after "." (Spec.slashed s) = Spec.slashed (Spec.after "." s).
Proof.
  induction s as [| c | c d s IH0 IH1] using string_pair_ind.
  - reflexivity.
  - rewrite slashed_one. simpl. now destruct (c =? ".")%char.
  - rewrite slashed_cons.
    destruct (Ascii.eqb_spec c "_") as [->|Hc]; cbn [andb].
    + destruct (Ascii.eqb_spec d "_") as [->|Hd].
      * cbn [Spec.after]. change ("/" =? ".")%char with false.
        change ("_" =? ".")%char with false. cbv iota. exact IH0.
      * cbn [Spec.after] in *. change ("_" =? ".")%char with false. cbv iota.
        exact IH1.
    + cbn [Spec.after] in *. destruct (c =? ".")%char; [reflexivity|exact IH1].
Qed.

Lemma all_slashed (P : ascii -> bool) (s : string) :
  P "/"%char = true -> Spec.all P s = true -> Spec.all P (Spec.slashed s) = true.
Proof.
  intros Hslash.
  induction s as [| c | c d s IH0 IH1] using string_pair_ind; intros H.
  - reflexivity.
  - now rewrite slashed_one.
  - rewrite slashed_cons. cbn [Spec.all] in H.
    apply andb_true_iff in H. destruct H as [Hc H].
    destruct ((c =? "_")%char && (d =? "_")%char).
    + cbn [Spec.all]. rewrite Hslash. apply IH0.
      cbn [Spec.all] in H. apply andb_true_iff in H. apply H.
    + cbn [Spec.all]. rewrite Hc. now apply IH1.
Qed.

Lemma unslashed_slashed (s : string) :
  Spec.lacks "/" s = true -> Spec.unslashed (Spec.slashed s) = s.
Proof.
  unfold Spec.lacks.
  induction s as [| c | c d s IH0 IH1] using string_pair_ind; intros H.
  - reflexivity.
  - rewrite slashed_one. simpl in *. now destruct (c =? "/")%char.
  - rewrite slashed_cons. cbn [Spec.all] in H.
    apply andb_true_iff in H. destruct H as [Hc H].
    destruct (Ascii.eqb_spec c "_") as [->|Hcn]; cbn [andb].
    + destruct (Ascii.eqb_spec d "_") as [->|Hdn].
      * cbn [Spec.unslashed]. change ("/" =? "/")%char with true. cbv iota.
        rewrite IH0; [reflexivity|].
        cbn [Spec.all] in H. apply andb_true_iff in H. apply H.
      * cbn [Spec.unslashed]. change ("_" =? "/")%char with false. cbv iota.
        now rewrite IH1.
    + cbn [Spec.unslashed]. destruct (c =? "/")%char; [discriminate|].
      now rewrite IH1.
Qed.

Lemma all_append (P : ascii -> bool) (a b : string) :
  Spec.all P (a ++ b) = Spec.all P a && Spec.all P b.
Proof. induction a as [|c a IH]; simpl; [reflexivity|]. now rewrite IH, andb_assoc. Qed.

Lemma all_rev (P : ascii -> bool) (s : string) : Spec.all P (JS.rev s) = Spec.all P s.
Proof.
  induction s as [|c s IH]; simpl; [reflexivity|].
  rewrite all_append, IH. simpl. rewrite andb_true_r. apply andb_comm.
Qed.

Lemma all_before (P : ascii -> bool) (c : ascii) (s : string) :
  Spec.all P s = true -> Spec.all P (Spec.before c s) = true.
Proof.
  induction s as [|d s IH]; simpl; [reflexivity|]. intros H.
  apply andb_true_iff in H. destruct H as [Hd H].
  destruct (d =? c)%char; [reflexivity|]. simpl. now rewrite Hd, IH.
Qed.

(** A base name contains no slash. *)
Lemma basename_lacks_slash (file : string) :
  Spec.lacks "/" (Path.basename file) = true.
Proof.
  unfold Spec.lacks, Path.basename. rewrite all_rev.
  generalize (Path.dropSlashes (JS.rev file)). intros s.
  induction s as [|c s IH]; simpl; [reflexivity|].
  unfold Path.slash. destruct (c =? "/")%char eqn:E; [reflexivity|].
  simpl. now rewrite E, IH.
Qed.

Lemma anyStar_drop (r : string) :
  exists n, JS.matchHere [JS.AnyStar] r = Some n
            /\ JS.drop n r = Spec.fromLineTerminator r.
Proof.
  induction r as [|d r [n [Hn Hd]]]; [now exists 0|].
  cbn [JS.matchHere] in *. cbn [Spec.fromLineTerminator].
  destruct (JS.lineTerminator d); [now exists 0|].
  rewrite Hn. now exists (S n).
Qed.

Lemma replace_extension_from (s : string) :
  forall pre,
    JS.replaceFirstFrom [JS.Lit "."; JS.AnyStar] EmptyString pre s =
    (Spec.before "." s ++ Spec.fromLineTerminator (Spec.after "." s)).
Proof.
  induction s as [|d s IH]; intros pre; [reflexivity|].
  cbn [JS.replaceFirstFrom Spec.before Spec.after].
  change (JS.matchHere [JS.Lit "."; JS.AnyStar] (String d s))
    with (if ("." =? d)%char then option_map S (JS.matchHere [JS.AnyStar] s) else None).
  rewrite (Ascii.eqb_sym "." d).
  destruct (d =? ".")%char.
  - destruct (anyStar_drop s) as [n [Hn Hd]]. rewrite Hn. simpl. exact Hd.
  - rewrite IH. reflexivity.
Qed.

(** What line 73 computes from the joined segments. *)
Lemma entryPointNameOf_unfold (file : string) :
  entryPointNameOf file =
  (Spec.before "." (Spec.slashed (Path.basename file))
   ++ Spec.fromLineTerminator (Spec.after "." (Spec.slashed (Path.basename file)))).
Proof.
  unfold entryPointNameOf, JS.replace. cbn [extensionRegex JS.anchored JS.atoms].
  rewrite replace_extension_from, split_join_slashed. reflexivity.
Qed.

Lemma fromLineTerminator_none (s : string) :
  Spec.noLineTerminator s = true -> Spec.fromLineTerminator s = EmptyString.
Proof.
  unfold Spec.noLineTerminator. induction s as [|d s IH]; simpl; [reflexivity|].
  destruct (JS.lineTerminator d); [discriminate|]. exact IH.
Qed.

(** Without a line terminator after the first dot of the base name, the
    name is the rewritten text of the base name before its first dot. *)
Lemma entryPointNameOf_stem (file : string) :
  Spec.noLineTerminator (Spec.after "." (Path.basename file)) = true ->
  entryPointNameOf file = Spec.slashed (Spec.before "." (Path.basename file)).
Proof.
  intros H. rewrite entryPointNameOf_unfold, after_dot_slashed.
  rewrite fromLineTerminator_none, append_empty_r by (now apply all_slashed).
  apply before_dot_slashed.
Qed.

(** C6, as the code has it. For a FESM file whose base name has no line
    terminator after its first [.], the entry-point name is the base name
    split on [__], the segments joined with [/], with everything from the
    first [.] on removed; [common__http.umd.js] yields [common/http]. For
    every file, the name is the joined text without its first [.] and what
    follows it up to the next line terminator. *)
Theorem entryPointNameOf_derivation :
  forall file : string,
    let joined := JS.join (JS.split (Path.basename file) "__") "/" in
    entryPointNameOf file =
      (Spec.before "." joined ++ Spec.fromLineTerminator (Spec.after "." joined))
    /\ (Spec.noLineTerminator (Spec.after "." (Path.basename file)) = true ->
        entryPointNameOf file = Spec.entryPointNameOf file)
    /\ entryPointNameOf "common__http.umd.js" = "common/http".
Proof.
  intros file joined. split; [|split].
  - subst joined. rewrite split_join_slashed. apply entryPointNameOf_unfold.
  - intros H. unfold Spec.entryPointNameOf.
    rewrite (entryPointNameOf_stem file H), split_join_slashed.
    symmetry. apply before_dot_slashed.
  - reflexivity.
Qed.

Lemma entryPointNameOf_derivation_witness :
  entryPointNameOf "/bin/common__http.umd.js"
  = Spec.entryPointNameOf "/bin/common__http.umd.js".
Proof.
  apply (proj1 (proj2 (entryPointNameOf_derivation "/bin/common__http.umd.js"))).
  reflexivity.
Defined.

(** C6 fails as stated: for the file name [a.b], carriage return, [c] the
    text from the first [.] on is not all removed. *)
Lemma entryPointNameOf_line_terminator_counterexample :
  entryPointNameOf Examples.brokenName = String "a" (String "013" "c")
  /\ Spec.entryPointNameOf Examples.brokenName = "a".
Proof. split; reflexivity. Qed.

(** C7 fails as stated: [core.js] and [core.umd.js] have different base
    names, with different double-underscore segments, and the same
    entry-point name. *)
Lemma entryPointNameOf_not_injective_counterexample :
  Path.basename "core.js" <> Path.basename "core.umd.js"
  /\ JS.split (Path.basename "core.js") "__"
     <> JS.split (Path.basename "core.umd.js") "__"
  /\ entryPointNameOf "core.js" = entryPointNameOf "core.umd.js".
Proof. repeat split; discriminate. Qed.

(** C7, as the code has it. Equal file names have equal entry-point names.
    Two file names whose base names have no line terminator after their
    first [.] have the same entry-point name exactly when their base names
    agree before the first [.]; so they have different names as soon as the
    double-underscore segments of those stems differ. *)
Theorem entryPointNameOf_injective_on_stems :
  forall f1 f2 : string,
    (f1 = f2 -> entryPointNameOf f1 = entryPointNameOf f2)
    /\ (Spec.noLineTerminator (Spec.after "." (Path.basename f1)) = true ->
        Spec.noLineTerminator (Spec.after "." (Path.basename f2)) = true ->
        (entryPointNameOf f1 = entryPointNameOf f2 <->
         Spec.before "." (Path.basename f1) = Spec.before "." (Path.basename f2))
        /\ (JS.split (Spec.before "." (Path.basename f1)) "__"
              <> JS.split (Spec.before "." (Path.basename f2)) "__" ->
            entryPointNameOf f1 <> entryPointNameOf f2)).
Proof.
  intros f1 f2. split; [now intros ->|]. intros H1 H2.
  assert (Hiff : entryPointNameOf f1 = entryPointNameOf f2 <->
                 Spec.before "." (Path.basename f1) = Spec.before "." (Path.basename f2)).
  { rewrite (entryPointNameOf_stem f1 H1), (entryPointNameOf_stem f2 H2). split.
    - intros H. apply (f_equal Spec.unslashed) in H.
      rewrite !unslashed_slashed in H; [exact H| |];
        apply all_before, basename_lacks_slash.
    - now intros ->. }
  split; [exact Hiff|].
  intros Hne Heq. apply Hne. apply Hiff in Heq. now rewrite Heq.
Qed.

Lemma entryPointNameOf_injective_on_stems_witness :
  (entryPointNameOf "/bin/core__testing.js" = entryPointNameOf "/out/core__testing.es5.js"
   <-> Spec.before "." (Path.basename "/bin/core__testing.js")
       = Spec.before "." (Path.basename "/out/core__testing.es5.js"))
  /\ entryPointNameOf "core__testing.js" <> entryPointNameOf "core__http.js".
Proof.
  split.
  - exact (proj1 (proj2 (entryPointNameOf_injective_on_stems
                           "/bin/core__testing.js" "/out/core__testing.es5.js")
                    eq_refl eq_refl)).
  - apply (proj2 (proj2 (entryPointNameOf_injective_on_stems
                           "core__testing.js" "core__http.js")
                    eq_refl eq_refl)).
    discriminate.
Defined.

End EntryPointName.

(* ================================================================= *)
(** ** Version placeholders *)

Section Placeholders.

Local Arguments Ascii.eqb : simpl nomatch.
Local Arguments JS.lineTerminator : simpl never.

Lemma length_append (a b : string) :
  String.length (a ++ b) = String.length a + String.length b.
Proof. induction a as [|c a IH]; simpl; [reflexivity|now rewrite IH]. Qed.

Lemma take_drop (n : nat) (s : string) : (JS.take n s ++ JS.drop n s) = s.
Proof.
  revert s. induction n as [|n IH]; intros [|c s]; simpl; try reflexivity.
  now rewrite IH.
Qed.

Lemma drop_append (n : nat) (a b : string) :
  n <= String.length a -> JS.drop n (a ++ b) = (JS.drop n a ++ b).
Proof.
  revert a. induction n as [|n IH]; intros [|c a] H; simpl in *; try reflexivity.
  - lia.
  - apply IH. lia.
Qed.

Lemma length_drop (n : nat) (s : string) :
  String.length (JS.drop n s) = String.length s - n.
Proof. revert s. induction n as [|n IH]; intros [|c s]; simpl; auto. Qed.

(** A match does not reach beyond the text. *)
Lemma matchHere_bound (re : list JS.atom) :
  forall s n, JS.matchHere re s = Some n -> n <= String.length s.
Proof.
  induction re as [|a re IH]; intros s n H.
  - injection H as <-. lia.
  - destruct a.
    + destruct s as [|d r]; cbn [JS.matchHere] in H; [discriminate|].
      destruct (c =? d)%char; [|discriminate].
      destruct (JS.matchHere re r) as [m|] eqn:E; [|discriminate].
      injection H as <-. apply IH in E. simpl. lia.
    + destruct s as [|d r]; cbn [JS.matchHere] in H; [discriminate|].
      destruct (JS.lineTerminator d); [discriminate|].
      destruct (JS.matchHere re r) as [m|] eqn:E; [|discriminate].
      injection H as <-. apply IH in E. simpl. lia.
    + revert n H. induction s as [|d r IHs]; intros n H.
      * cbn [JS.matchHere] in H. now apply IH in H.
      * cbn [JS.matchHere] in H. cbn [JS.matchHere] in IHs.
        destruct (JS.lineTerminator d); [now apply IH in H|].
        match type of H with
        | match ?x with _ => _ end = _ => destruct x as [m|] eqn:E
        end.
        -- injection H as <-. specialize (IHs m eq_refl). simpl. lia.
        -- now apply IH in H.
Qed.

Lemma matchHere_starFree_length (re : list JS.atom) :
  Spec.starFree re = true ->
  forall s n, JS.matchHere re s = Some n -> n = List.length re.
Proof.
  induction re as [|a re IH]; intros Hsf s n H.
  - now injection H as <-.
  - cbn [Spec.starFree forallb] in Hsf. apply andb_true_iff in Hsf.
    destruct Hsf as [Ha Hsf]. specialize (IH Hsf).
    destruct a; [| |discriminate];
      (destruct s as [|d r]; cbn [JS.matchHere] in H; [discriminate|]).
    + destruct (c =? d)%char; [|discriminate].
      destruct (JS.matchHere re r) as [m|] eqn:E; [|discriminate].
      injection H as <-. apply IH in E. simpl. now rewrite E.
    + destruct (JS.lineTerminator d); [discriminate|].
      destruct (JS.matchHere re r) as [m|] eqn:E; [|discriminate].
      injection H as <-. apply IH in E. simpl. now rewrite E.
Qed.

(** A match of an expression without [.*] looks at as many characters as
    the expression has atoms. *)
Lemma matchHere_starFree_append (re : list JS.atom) :
  Spec.starFree re = true ->
  forall s x, List.length re <= String.length s ->
              JS.matchHere re (s ++ x) = JS.matchHere re s.
Proof.
  induction re as [|a re IH]; intros Hsf s x Hlen; [reflexivity|].
  cbn [Spec.starFree forallb] in Hsf. apply andb_true_iff in Hsf.
  destruct Hsf as [Ha Hsf]. specialize (IH Hsf).
  destruct s as [|d r]; [simpl in Hlen; lia|].
  simpl in Hlen. assert (Hr : List.length re <= String.length r) by lia.
  destruct a; [| |discriminate]; cbn [JS.matchHere String.append];
    now rewrite (IH r x Hr).
Qed.

Lemma expand_plain (v matched before after : string) :
  Spec.lacks "$" v = true -> JS.expand v matched before after = v.
Proof.
  unfold Spec.lacks. induction v as [|c v IH]; intros H; [reflexivity|].
  cbn [Spec.all] in H. apply andb_true_iff in H. destruct H as [Hc H].
  cbn [JS.expand]. destruct (c =? "$")%char; [discriminate|].
  now rewrite IH.
Qed.

Lemma replaceAllFrom_skip (re : list JS.atom) (v : string) :
  forall k pre s,
    k <= String.length s ->
    JS.replaceAllFrom re v k pre s =
    JS.replaceAllFrom re v 0 (pre ++ JS.take k s) (JS.drop k s).
Proof.
  induction k as [|k IH]; intros pre s H.
  - destruct s; cbn [JS.take JS.drop]; now rewrite append_empty_r.
  - destruct s as [|c r]; [simpl in H; lia|].
    cbn [JS.replaceAllFrom JS.take JS.drop]. rewrite IH by (simpl in H; lia).
    now rewrite append_assoc.
Qed.

(** One step of the global replacement at a match. *)
Lemma replaceAllFrom_match (re : list JS.atom) (v pre s : string) (n : nat) :
  JS.matchHere re s = Some (S n) ->
  JS.replaceAllFrom re v 0 pre s =
  (JS.expand v (JS.take (S n) s) pre (JS.drop (S n) s)
   ++ JS.replaceAllFrom re v 0 (pre ++ JS.take (S n) s) (JS.drop (S n) s)).
Proof.
  intros H. pose proof (matchHere_bound re s (S n) H) as Hlen.
  destruct s as [|c r]; [simpl in Hlen; lia|].
  cbn [JS.replaceAllFrom]. rewrite H. f_equal.
  rewrite replaceAllFrom_skip by (simpl in Hlen; lia).
  cbn [JS.take JS.drop]. now rewrite append_assoc.
Qed.

Lemma replaceAllFrom_nomatch (re : list JS.atom) (v pre : string) (c : ascii)
  (r : string) :
  JS.matchHere re (String c r) = None ->
  JS.replaceAllFrom re v 0 pre (String c r) =
  String c (JS.replaceAllFrom re v 0 (pre ++ String c EmptyString) r).
Proof. intros H. cbn [JS.replaceAllFrom]. now rewrite H. Qed.

(** A text without a match is left as it is. *)
Lemma replaceAllFrom_matchFree (re : list JS.atom) (v : string) :
  forall s pre,
    Spec.matchFree re s = true -> JS.replaceAllFrom re v 0 pre s = s.
Proof.
  induction s as [|c r IH]; intros pre H.
  - cbn [Spec.matchFree] in H. cbn [JS.replaceAllFrom].
    destruct (JS.matchHere re EmptyString); [discriminate|reflexivity].
  - cbn [Spec.matchFree] in H.
    destruct (JS.matchHere re (String c r)) eqn:E; [discriminate|].
    rewrite (replaceAllFrom_nomatch re v pre c r E). now rewrite IH.
Qed.

(** With a replacement text free of [$], what was read before plays no
    role. *)
Lemma replaceAllFrom_before (re : list JS.atom) (v : string) :
  Spec.lacks "$" v = true ->
  forall s k pre pre',
    JS.replaceAllFrom re v k pre s = JS.replaceAllFrom re v k pre' s.
Proof.
  intros Hv. induction s as [|c r IH]; intros k pre pre'.
  - destruct k; cbn [JS.replaceAllFrom]; [|reflexivity].
    destruct (JS.matchHere re EmptyString) as [[|n]|]; now rewrite ?expand_plain.
  - destruct k; cbn [JS.replaceAllFrom]; [|apply IH].
    destruct (JS.matchHere re (String c r)) as [[|n]|];
      rewrite ?expand_plain by exact Hv.
    + now rewrite (IH 0 (pre ++ String c EmptyString) (pre' ++ String c EmptyString)).
    + now rewrite (IH n (pre ++ String c EmptyString) (pre' ++ String c EmptyString)).
    + now rewrite (IH 0 (pre ++ String c EmptyString) (pre' ++ String c EmptyString)).
Qed.

Ltac split_tests :=
  repeat (cbn;
          match goal with
          | |- context [if (?x =? ?y)%char then _ else _] => destruct (x =? y)%char
          | |- context [if JS.lineTerminator ?c then _ else _] =>
              destruct (JS.lineTerminator c)
          end);
  cbn; try reflexivity.

(** No match begins before an occurrence of the sentinel and ends inside
    it or behind it. *)
Lemma no_match_into_sentinel (a b : string) :
  1 <= String.length a <= 16 ->
  JS.matchHere placeholderRegex (a ++ sentinel ++ b) = None.
Proof.
  intros H.
  do 17 (destruct a as [|? a]; [first [simpl in H; lia | clear H; split_tests] |]).
  simpl in H. lia.
Qed.

Lemma placeholderRegex_starFree : Spec.starFree placeholderRegex = true.
Proof. reflexivity. Qed.

Section Version.

Variable v : string.
Hypothesis v_plain : Spec.lacks "$" v = true.

Let R (s : string) : string := JS.replaceAllFrom placeholderRegex v 0 EmptyString s.

Lemma at_sentinel (b : string) : R (sentinel ++ b) = (v ++ R b).
Proof.
  unfold R. rewrite (replaceAllFrom_match placeholderRegex v _ (sentinel ++ b) 16)
    by reflexivity.
  rewrite expand_plain by exact v_plain. f_equal.
  apply replaceAllFrom_before, v_plain.
Qed.

Lemma around_sentinel :
  forall n a b,
    String.length a <= n ->
    R (a ++ sentinel ++ b) = (R a ++ v ++ R b).
Proof.
  induction n as [|n IH]; intros a b Hlen.
  - destruct a; [|simpl in Hlen; lia]. apply at_sentinel.
  - destruct a as [|c a]; [apply at_sentinel|].
    destruct (JS.matchHere placeholderRegex (String c a)) as [m|] eqn:E.
    + pose proof (matchHere_starFree_length _ placeholderRegex_starFree _ _ E) as Hm.
      change (List.length placeholderRegex) with 17 in Hm. subst m.
      pose proof (matchHere_bound _ _ _ E) as Hb.
      assert (E' : JS.matchHere placeholderRegex (String c a ++ sentinel ++ b) = Some 17).
      { rewrite matchHere_starFree_append; [exact E|reflexivity|exact Hb]. }
      unfold R.
      rewrite (replaceAllFrom_match _ v _ _ 16 E'), (replaceAllFrom_match _ v _ _ 16 E).
      rewrite !expand_plain by exact v_plain.
      rewrite (drop_append 17 (String c a)) by exact Hb.
      rewrite (replaceAllFrom_before _ v v_plain _ 0 _ EmptyString).
      rewrite (replaceAllFrom_before _ v v_plain (JS.drop 17 (String c a)) 0 _ EmptyString).
      fold (R (JS.drop 17 (String c a) ++ sentinel ++ b)).
      rewrite IH.
      * unfold R. now rewrite !append_assoc.
      * rewrite length_drop. simpl in *. lia.
    + assert (E' : JS.matchHere placeholderRegex (String c a ++ sentinel ++ b) = None).
      { destruct (le_lt_dec 17 (String.length (String c a))) as [Hl|Hl].
        - rewrite matchHere_starFree_append; [exact E|reflexivity|exact Hl].
        - apply no_match_into_sentinel. simpl in *. lia. }
      unfold R. cbn [String.append] in *.
      rewrite (replaceAllFrom_nomatch _ v _ _ _ E'), (replaceAllFrom_nomatch _ v _ _ _ E).
      rewrite (replaceAllFrom_before _ v v_plain _ 0 _ EmptyString).
      rewrite (replaceAllFrom_before _ v v_plain a 0 _ EmptyString).
      fold (R (a ++ sentinel ++ b)). rewrite IH by (simpl in Hlen; lia).
      reflexivity.
Qed.

End Version.

(** Each occurrence of the sentinel is replaced by a version free of [$],
    and the text around the occurrence is treated on its own. *)
Lemma replaceAll_sentinel (v a b : string) :
  Spec.lacks "$" v = true ->
  JS.replaceAll (a ++ sentinel ++ b) placeholderRegex v =
  (JS.replaceAll a placeholderRegex v ++ v ++ JS.replaceAll b placeholderRegex v).
Proof.
  intros Hv. apply (around_sentinel v Hv (String.length a)). lia.
Qed.

End Placeholders.

Section PlaceholderClaims.

Context {env : Env}.
Variable p : params.

(** C8, as the code has it. Without stamp data [replaceVersionPlaceholders]
    returns the content as it is. With stamp data, and [version] the trimmed
    second field of the [BUILD_SCM_VERSION] line, it returns the content
    with every match of [0.0.0-PLACEHOLDER] (each [.] standing for one
    character other than a line terminator) replaced; for a version free of
    [$] every occurrence of the sentinel is replaced by the version, the
    text before and behind it being treated on its own. A second run
    returns the result of the first whenever that result has no match left;
    nothing more is claimed about running twice. *)
Theorem replaceVersionPlaceholders_substitutes :
  forall (filePath content : string),
    (truthy (stampData p) = false ->
     replaceVersionPlaceholders p filePath content = Ok content)
    /\ (forall field : string,
           truthy (stampData p) = true ->
           List.nth_error
             (JS.split (shx_grep "BUILD_SCM_VERSION" (template (stampData p))) " ") 1
           = Some field ->
           let version := JS.trim field in
           let substituted := fun text => JS.replaceAll text placeholderRegex version in
           replaceVersionPlaceholders p filePath content = Ok (substituted content)
           /\ (Spec.lacks "$" version = true ->
               forall a b : string,
                 substituted (a ++ sentinel ++ b)
                 = (substituted a ++ version ++ substituted b))
           /\ (Spec.matchFree placeholderRegex (substituted content) = true ->
               replaceVersionPlaceholders p filePath (substituted content)
               = Ok (substituted content))).
Proof.
  intros filePath content. split.
  - intros H. unfold replaceVersionPlaceholders. now rewrite H.
  - intros field Hstamp Hfield version substituted.
    assert (Hrun : forall text,
               replaceVersionPlaceholders p filePath text = Ok (substituted text)).
    { intros text. unfold replaceVersionPlaceholders. now rewrite Hstamp, Hfield. }
    split; [apply Hrun|]. split.
    + intros Hv a b. now apply replaceAll_sentinel.
    + intros Hfree. rewrite Hrun. f_equal.
      now apply replaceAllFrom_matchFree.
Qed.

End PlaceholderClaims.

Lemma replaceVersionPlaceholders_substitutes_witness :
  replaceVersionPlaceholders (env := Examples.stampedEnv) Examples.bareParams
    "index.js" ("VERSION = '" ++ sentinel ++ "';")
  = Ok ("VERSION = '" ++ sentinel ++ "';")
  /\ replaceVersionPlaceholders (env := Examples.stampedEnv) Examples.stampedParams
       "index.js" ("VERSION = '" ++ sentinel ++ "';")
     = Ok "VERSION = '10.0.0';"
  /\ replaceVersionPlaceholders (env := Examples.stampedEnv) Examples.stampedParams
       "index.js" "VERSION = '10.0.0';"
     = Ok "VERSION = '10.0.0';".
Proof.
  split.
  - apply (proj1 (replaceVersionPlaceholders_substitutes (env := Examples.stampedEnv)
                    Examples.bareParams "index.js" ("VERSION = '" ++ sentinel ++ "';"))).
    reflexivity.
  - pose proof (proj2 (replaceVersionPlaceholders_substitutes (env := Examples.stampedEnv)
                         Examples.stampedParams "index.js"
                         ("VERSION = '" ++ sentinel ++ "';"))
                  ("10.0.0" ++ JSON.nl) eq_refl eq_refl) as [H1 [_ H3]].
    split; [exact H1|]. apply H3. reflexivity.
Defined.

(** C8 fails as stated: with the version 10.0.0, the text made of the
    sentinel followed by [-PLACEHOLDER] becomes [10.0.0-PLACEHOLDER], and a
    second run turns that into [110.0.0]. *)
Lemma replaceVersionPlaceholders_not_idempotent_counterexample :
  replaceVersionPlaceholders (env := Examples.stampedEnv) Examples.stampedParams
    "index.js" (sentinel ++ "-PLACEHOLDER")
  = Ok "10.0.0-PLACEHOLDER"
  /\ replaceVersionPlaceholders (env := Examples.stampedEnv) Examples.stampedParams
       "index.js" "10.0.0-PLACEHOLDER"
     = Ok "110.0.0".
Proof. split; reflexivity. Qed.

(* ================================================================= *)
(** ** Splitting on one character *)

Section SplitOnCharacter.

Lemma splitOn_char_cons (x c : ascii) (r : string) :
  JS.splitOn (String x EmptyString) 0 (String c r) =
  if (c =? x)%char then EmptyString :: JS.splitOn (String x EmptyString) 0 r
  else match JS.splitOn (String x EmptyString) 0 r with
       | h :: t => String c h :: t
       | [] => [String c EmptyString]
       end.
Proof.
  rewrite splitOn_cons, prefix_cons, prefix_empty, andb_true_r.
  now rewrite (Ascii.eqb_sym x c).
Qed.

(** Splitting on one character: the pieces of two texts joined by the
    character are the pieces of the one followed by the pieces of the
    other. *)
Lemma split_char_append (x : ascii) (a b : string) :
  JS.split (a ++ String x b) (String x EmptyString) =
  (JS.split a (String x EmptyString) ++ JS.split b (String x EmptyString))%list.
Proof.
  unfold JS.split. induction a as [|c a IH].
  - change (EmptyString ++ String x b) with (String x b).
    now rewrite splitOn_char_cons, Ascii.eqb_refl.
  - change (String c a ++ String x b) with (String c (a ++ String x b)).
    rewrite !splitOn_char_cons, IH.
    destruct (c =? x)%char; [reflexivity|].
    destruct (JS.splitOn (String x EmptyString) 0 a) as [|h t] eqn:E;
      [now apply splitOn_nonempty in E|].
    reflexivity.
Qed.

Lemma split_char_one (x : ascii) (s : string) :
  Spec.lacks x s = true -> JS.split s (String x EmptyString) = [s].
Proof.
  unfold JS.split, Spec.lacks.
  induction s as [|c s IH]; intros H; [reflexivity|].
  cbn [Spec.all] in H. apply andb_true_iff in H. destruct H as [Hc H].
  rewrite splitOn_char_cons, (IH H).
  now destruct (c =? x)%char.
Qed.

End SplitOnCharacter.

(* ================================================================= *)
(** ** Facts about paths *)

Section PathFacts.

Lemma normalizeSegments_app (allow : bool) (l1 l2 : list string) :
  forall stack,
    Path.normalizeSegments allow stack (l1 ++ l2)%list =
    Path.normalizeSegments allow
      (List.rev (Path.normalizeSegments allow stack l1)) l2.
Proof.
  induction l1 as [|seg l1 IH]; intros stack.
  - simpl. now rewrite List.rev_involutive.
  - cbn [app Path.normalizeSegments].
    destruct (JSON.isEmpty seg || Path.isDot seg); [apply IH|].
    destruct (Path.isDotDot seg); [|apply IH].
    destruct stack as [|top below]; [apply IH|].
    destruct (Path.isDotDot top); apply IH.
Qed.

(** A proper segment at the end of a path stays at the end. *)
Lemma normalizeSegments_snoc (allow : bool) (l : list string) (seg : string) :
  Spec.segment seg = true ->
  Path.normalizeSegments allow [] (l ++ [seg])%list =
  (Path.normalizeSegments allow [] l ++ [seg])%list.
Proof.
  unfold Spec.segment. intros H.
  apply andb_true_iff in H. destruct H as [H Hdd].
  apply andb_true_iff in H. destruct H as [H Hd].
  apply andb_true_iff in H. destruct H as [He _].
  apply negb_true_iff in Hdd, Hd, He.
  rewrite normalizeSegments_app. cbn [Path.normalizeSegments].
  rewrite He, Hd, Hdd. cbn [orb List.rev].
  now rewrite List.rev_involutive.
Qed.

Lemma join_snoc (l : list string) (x sep : string) :
  JS.join (l ++ [x])%list sep =
  match l with
  | [] => x
  | _ => (JS.join l sep ++ sep ++ x)
  end.
Proof.
  unfold JS.join. induction l as [|a l IH]; [reflexivity|].
  destruct l as [|b l]; [reflexivity|].
  change (String.concat sep ((a :: b :: l) ++ [x])%list)
    with (a ++ sep ++ String.concat sep ((b :: l) ++ [x])%list).
  rewrite IH. change (String.concat sep (a :: b :: l))
    with (a ++ sep ++ String.concat sep (b :: l)).
  now rewrite !append_assoc.
Qed.

Lemma segment_lacks_slash (seg : string) :
  Spec.segment seg = true -> Spec.lacks "/" seg = true.
Proof.
  unfold Spec.segment. intros H.
  apply andb_true_iff in H. destruct H as [H _].
  apply andb_true_iff in H. destruct H as [H _].
  apply andb_true_iff in H. apply H.
Qed.

Lemma segment_first (seg : string) :
  Spec.segment seg = true ->
  exists c r, seg = String c r /\ (c =? "/")%char = false
              /\ Spec.lacks "/" r = true.
Proof.
  unfold Spec.segment, Spec.lacks. destruct seg as [|c r]; [discriminate|].
  intros H. apply andb_true_iff in H. destruct H as [H _].
  apply andb_true_iff in H. destruct H as [H _].
  cbn [JSON.isEmpty negb andb Spec.all] in H.
  apply andb_true_iff in H. destruct H as [Hc Hr].
  exists c, r. repeat split; [now apply negb_true_iff in Hc|exact Hr].
Qed.

Lemma segment_rev_first (seg : string) :
  Spec.segment seg = true ->
  exists c r, JS.rev seg = String c r /\ (c =? "/")%char = false
              /\ Spec.lacks "/" r = true.
Proof.
  intros H. destruct (segment_first seg H) as [c [r [-> [Hc Hr]]]].
  assert (Hall : Spec.lacks "/" (JS.rev (String c r)) = true).
  { unfold Spec.lacks in *. rewrite all_rev. cbn [Spec.all]. now rewrite Hc, Hr. }
  destruct (JS.rev (String c r)) as [|d t] eqn:E.
  - apply (f_equal String.length) in E. cbn [JS.rev] in E.
    rewrite length_append in E. simpl in E. lia.
  - unfold Spec.lacks in Hall. cbn [Spec.all] in Hall.
    apply andb_true_iff in Hall. destruct Hall as [Hd Ht].
    exists d, t. repeat split; [now apply negb_true_iff in Hd|exact Ht].
Qed.

Lemma untilSlash_append (a b : string) :
  Spec.lacks "/" a = true ->
  (b = EmptyString \/ exists t, b = String "/" t) ->
  Path.untilSlash (a ++ b) = a.
Proof.
  unfold Spec.lacks. induction a as [|c a IH]; intros Ha Hb.
  - destruct Hb as [->|[t ->]]; reflexivity.
  - cbn [Spec.all] in Ha. apply andb_true_iff in Ha. destruct Ha as [Hc Ha].
    apply negb_true_iff in Hc. cbn [String.append Path.untilSlash].
    unfold Path.slash. rewrite Hc. now rewrite IH.
Qed.

(** The base name of a path that ends with a proper segment behind a slash,
    or is that segment. *)
Lemma basename_segment (q seg : string) :
  Spec.segment seg = true ->
  (q = EmptyString \/ JS.endsWith q "/" = true) ->
  Path.basename (q ++ seg) = seg.
Proof.
  intros Hseg Hq. unfold Path.basename. rewrite rev_append.
  destruct (segment_rev_first seg Hseg) as [c [r [E [Hc Hr]]]].
  assert (Hlacks : Spec.lacks "/" (JS.rev seg) = true).
  { rewrite E. unfold Spec.lacks in *. cbn [Spec.all]. now rewrite Hc, Hr. }
  assert (Hdrop : Path.dropSlashes (JS.rev seg ++ JS.rev q) = (JS.rev seg ++ JS.rev q)).
  { rewrite E. cbn [String.append Path.dropSlashes]. unfold Path.slash. now rewrite Hc. }
  rewrite Hdrop, untilSlash_append; [apply rev_involutive|exact Hlacks|].
  destruct Hq as [->|Hq]; [now left|]. right.
  apply endsWith_iff in Hq. destruct Hq as [t ->].
  rewrite rev_append. now exists (JS.rev t).
Qed.

Lemma segment_not_slashed (seg : string) :
  Spec.segment seg = true ->
  JS.startsWith seg "/" = false /\ forall d, JS.endsWith (d ++ seg) "/" = false.
Proof.
  intros H. split.
  - destruct (segment_first seg H) as [c [r [-> [Hc _]]]].
    unfold JS.startsWith. rewrite prefix_cons, (Ascii.eqb_sym "/" c), Hc. reflexivity.
  - intros d. destruct (segment_rev_first seg H) as [c [r [E [Hc _]]]].
    unfold JS.endsWith. rewrite rev_append, E.
    change (JS.rev "/") with (String "/" EmptyString).
    cbn [String.append]. rewrite prefix_cons, (Ascii.eqb_sym "/" c), Hc. reflexivity.
Qed.

(** [path.normalize] keeps a proper last segment. *)
Lemma normalize_last_segment (d seg : string) :
  Spec.segment seg = true ->
  exists q,
    Path.normalize (d ++ String "/" seg) = (q ++ seg)
    /\ (q = EmptyString \/ JS.endsWith q "/" = true).
Proof.
  intros Hseg.
  assert (Htrail : JS.endsWith (d ++ String "/" seg) "/" = false).
  { replace (d ++ String "/" seg) with ((d ++ "/") ++ seg)
      by (now rewrite append_assoc).
    now apply segment_not_slashed. }
  assert (Hsplit : JS.split (d ++ String "/" seg) "/"
                   = (JS.split d "/" ++ [seg])%list).
  { change "/" with (String "/" EmptyString).
    now rewrite split_char_append, (split_char_one "/" seg (segment_lacks_slash seg Hseg)). }
  unfold Path.normalize.
  destruct (d ++ String "/" seg) as [|c0 s0] eqn:Es.
  { destruct d; discriminate. }
  rewrite Htrail, Hsplit, (normalizeSegments_snoc _ _ _ Hseg), join_snoc.
  destruct (segment_first seg Hseg) as [c [r [Eseg _]]].
  destruct (Path.normalizeSegments _ [] (JS.split d "/")) as [|k kept].
  - rewrite Eseg, append_empty_r.
    destruct (JS.startsWith _ "/").
    + exists "/". split; [reflexivity|now right].
    + exists EmptyString. split; [reflexivity|now left].
  - destruct (JS.join (k :: kept) "/" ++ "/" ++ seg) as [|c1 s1] eqn:Eb.
    { apply (f_equal String.length) in Eb. rewrite !length_append in Eb.
      simpl in Eb. lia. }
    rewrite <- Eb, append_empty_r.
    destruct (JS.startsWith _ "/").
    + exists ("/" ++ JS.join (k :: kept) "/" ++ "/"). split.
      * now rewrite !append_assoc.
      * right. apply (endsWith_append "/" (JS.join (k :: kept) "/" ++ "/")).
        now apply (endsWith_append (JS.join (k :: kept) "/") "/").
    + exists (JS.join (k :: kept) "/" ++ "/"). split.
      * now rewrite !append_assoc.
      * right. now apply (endsWith_append (JS.join (k :: kept) "/") "/").
Qed.

Lemma normalize_segment (seg : string) :
  Spec.segment seg = true -> Path.normalize seg = seg.
Proof.
  intros Hseg. unfold Path.normalize.
  destruct (segment_first seg Hseg) as [c [r [Eseg _]]].
  rewrite Eseg. rewrite <- Eseg.
  change (JS.split seg "/") with (JS.split seg (String "/" EmptyString)).
  rewrite (split_char_one "/" seg (segment_lacks_slash seg Hseg)).
  rewrite (normalizeSegments_snoc _ [] _ Hseg : Path.normalizeSegments _ [] [seg] = _).
  cbn [Path.normalizeSegments List.rev app JS.join String.concat].
  rewrite (proj1 (segment_not_slashed seg Hseg)).
  rewrite (proj2 (segment_not_slashed seg Hseg) EmptyString
           : JS.endsWith seg "/" = false).
  rewrite Eseg. cbn [String.append]. now rewrite append_empty_r.
Qed.

(** The base name of [path.join(..., file)] is [file] when [file] is a
    proper segment. *)
Lemma basename_join (dirs : list string) (file : string) :
  Spec.segment file = true ->
  Path.basename (Path.join (dirs ++ [file])%list) = file.
Proof.
  intros Hseg. unfold Path.join.
  rewrite filter_app. cbn [List.filter].
  destruct (segment_first file Hseg) as [c [r [Efile _]]].
  assert (Hne : negb (JSON.isEmpty file) = true) by now rewrite Efile.
  rewrite Hne.
  destruct (List.filter (fun s => negb (JSON.isEmpty s)) dirs) as [|d ds] eqn:Ed.
  - change (Path.basename (Path.normalize file) = file).
    rewrite (normalize_segment file Hseg).
    apply (basename_segment EmptyString file Hseg). now left.
  - change (Path.basename (Path.normalize (JS.join ((d :: ds) ++ [file])%list "/")) = file).
    rewrite join_snoc.
    destruct (normalize_last_segment (JS.join (d :: ds) "/") file Hseg) as [q [Hq Hend]].
    change (JS.join (d :: ds) "/" ++ "/" ++ file)
      with (JS.join (d :: ds) "/" ++ String "/" file).
    rewrite Hq. now apply basename_segment.
Qed.

Lemma pop_In (l : list string) :
  l <> [] -> exists x, JS.pop l = Some x /\ In x l.
Proof.
  unfold JS.pop. induction l as [|a l IH]; [congruence|]. intros _.
  destruct l as [|b l].
  - exists a. split; [reflexivity|now left].
  - destruct IH as [x [Hx Hin]]; [discriminate|].
    exists x. split; [exact Hx|now right].
Qed.

Lemma split_char_lacks (c : ascii) (s : string) :
  forall x, In x (JS.split s (String c EmptyString)) -> Spec.lacks c x = true.
Proof.
  unfold JS.split, Spec.lacks. induction s as [|d s IH]; intros x Hin.
  - destruct Hin as [<-|[]]. reflexivity.
  - rewrite splitOn_char_cons in Hin. destruct (d =? c)%char eqn:E.
    + destruct Hin as [<-|Hin]; [reflexivity|now apply IH].
    + destruct (JS.splitOn (String c EmptyString) 0 s) as [|h t] eqn:Es.
      * now apply splitOn_nonempty in Es.
      * destruct Hin as [<-|Hin].
        -- cbn [Spec.all]. rewrite E. apply IH. now left.
        -- apply IH. now right.
Qed.

(** The last segment of a name has no slash. *)
Lemma last_segment_lacks_slash (name : string) :
  Spec.lacks "/" (template (JS.pop (JS.split name "/"))) = true.
Proof.
  destruct (pop_In (JS.split name "/")) as [x [Hx Hin]].
  - unfold JS.split. apply splitOn_nonempty.
  - rewrite Hx. now apply (split_char_lacks "/" name).
Qed.

(** A text without slash followed by one of the two bundle-index
    extensions is a proper path segment. *)
Lemma segment_with_ext (s ext : string) :
  Spec.lacks "/" s = true ->
  ext = ".d.ts" \/ ext = ".metadata.json" ->
  Spec.segment (s ++ ext) = true.
Proof.
  intros Hs Hext. unfold Spec.segment, Path.isDot, Path.isDotDot.
  assert (Hlen : 5 <= String.length (s ++ ext)).
  { rewrite length_append. destruct Hext as [->| ->]; simpl; lia. }
  assert (Hlacks : Spec.lacks "/" (s ++ ext) = true).
  { unfold Spec.lacks in *. rewrite all_append, Hs.
    destruct Hext as [->| ->]; reflexivity. }
  rewrite Hlacks.
  destruct (String.eqb_spec (s ++ ext) ".") as [E|_];
    [rewrite E in Hlen; simpl in Hlen; lia|].
  destruct (String.eqb_spec (s ++ ext) "..") as [E|_];
    [rewrite E in Hlen; simpl in Hlen; lia|].
  destruct (s ++ ext); [simpl in Hlen; lia|reflexivity].
Qed.

End PathFacts.

(* ================================================================= *)
(** ** Declaration and metadata files of the build-output tree *)

Section BuildOutputTree.

Lemma metadata_not_selected (f : string) :
  Spec.metadataArtifact f = true ->
  Packager.filter ".d.ts" f = false
  /\ Packager.filter ".bundle_index.metadata.json" f = false.
Proof.
  unfold Spec.metadataArtifact, Packager.filter. intros H.
  apply andb_true_iff in H. destruct H as [H Hindex].
  apply andb_true_iff in H. destruct H as [H _].
  apply andb_true_iff in H. destruct H as [H _].
  split.
  - assert (Hd : JS.endsWith f ".d.ts" = false).
    { apply (endsWith_last_differs f ".metadata.jso" ".d.t" "n" "s");
        [discriminate|exact H]. }
    now rewrite Hd.
  - apply negb_true_iff in Hindex. now rewrite Hindex.
Qed.

Lemma filter_hidden (keep hidden : string -> bool) (l : list string) :
  (forall f, hidden f = true -> keep f = false) ->
  List.filter keep (List.filter (fun f => negb (hidden f)) l) = List.filter keep l.
Proof.
  intros H. induction l as [|f l IH]; simpl; [reflexivity|].
  destruct (hidden f) eqn:E; simpl.
  - now rewrite (H f E).
  - now rewrite IH.
Qed.

Context {env : Env}.
Variable p : params.

(** The metadata files that are no bundle index play no role in a run. *)
Lemma run_ignores_metadata (st : state) :
  run (env := Spec.hiding Spec.metadataArtifact env) p st = run p st.
Proof.
  unfold run. cbn [shx_find Spec.hiding].
  rewrite !filter_hidden by (intros f Hf; now apply metadata_not_selected in Hf).
  reflexivity.
Qed.

(** C5, as the code has it. A Metadata artifact of the build-output tree
    that is no bundle index is selected by neither loop over the tree, and
    the run is the one it would be with these files absent from the listing:
    they are not written anywhere. What is written to [<out>/<path relative
    to the build-output root>] is a Declaration artifact that is no bundle
    index, with its leading [amd-module] line removed. *)
Theorem metadata_artifacts_not_written :
  (forall f : string,
      Spec.metadataArtifact f = true ->
      Packager.filter ".d.ts" f = false
      /\ Packager.filter ".bundle_index.metadata.json" f = false)
  /\ (forall st : state,
         run (env := Spec.hiding Spec.metadataArtifact env) p st = run p st)
  /\ (forall args : list string,
         main (env := Spec.hiding Spec.metadataArtifact env) args = main args)
  /\ (forall (f content : string) (st : state),
         Spec.declarationArtifact f = true ->
         readFileSync f = Ok content ->
         let outputPath := Path.join [out p; Path.relative cwd (binDir p) f] in
         writeDeclaration p f st =
         Ok (tt, mkState (primaryEntryPoint st) (secondaryEntryPoints st)
                   (log st ++ [Mkdir (Path.dirname outputPath);
                               WriteFile outputPath
                                 (JS.replace content amdModuleRegex EmptyString)])%list)).
Proof.
  split; [exact metadata_not_selected|].
  split; [exact run_ignores_metadata|].
  split.
  - intros [|paramFilePath args]; [reflexivity|].
    unfold main. cbn [readFileSync Spec.hiding].
    destruct (readFileSync paramFilePath) as [paramFile|]; [|reflexivity].
    destruct (parseParams paramFile) as [q|]; [|reflexivity].
    unfold run. cbn [shx_find Spec.hiding].
    rewrite !filter_hidden by (intros f Hf; now apply metadata_not_selected in Hf).
    reflexivity.
  - intros f content st Hdecl Hread outputPath.
    unfold Spec.declarationArtifact in Hdecl. apply andb_true_iff in Hdecl.
    destruct Hdecl as [_ Hindex]. apply negb_true_iff in Hindex.
    unfold writeDeclaration, bind, lift, ret, emit. rewrite Hread, Hindex.
    cbn [primaryEntryPoint secondaryEntryPoints log]. fold outputPath.
    now rewrite <- app_assoc.
Qed.

End BuildOutputTree.

Lemma metadata_artifacts_not_written_witness :
  Spec.metadataArtifact "/bin/core/src/util.metadata.json" = true
  /\ Packager.filter ".d.ts" "/bin/core/src/util.metadata.json" = false
  /\ Packager.filter ".bundle_index.metadata.json" "/bin/core/src/util.metadata.json" = false
  /\ writeDeclaration (env := Examples.treeEnv) Examples.bareParams
       "/bin/core/src/util.d.ts" initial
     = Ok (tt, mkState None []
                 [Mkdir "/out/core/src";
                  WriteFile "/out/core/src/util.d.ts"
                    ("export declare const util: number;" ++ JSON.nl)]).
Proof.
  split; [reflexivity|].
  destruct (proj1 (metadata_artifacts_not_written (env := Examples.treeEnv)
                     Examples.bareParams)
              "/bin/core/src/util.metadata.json" eq_refl) as [H1 H2].
  split; [exact H1|]. split; [exact H2|].
  exact (proj2 (proj2 (proj2 (metadata_artifacts_not_written (env := Examples.treeEnv)
                                Examples.bareParams)))
           "/bin/core/src/util.d.ts" ("export declare const util: number;" ++ JSON.nl)
           initial eq_refl eq_refl).
Defined.

(** C5 fails as stated. The build-output tree of [treeEnv] holds
    [core/src/util.d.ts] and [core/src/util.metadata.json]. The run writes
    the declaration file to [/out/core/src/util.d.ts] and writes nothing to
    [/out/core/src/util.metadata.json]. *)
Lemma metadata_artifact_counterexample :
  Spec.metadataArtifact "/bin/core/src/util.metadata.json" = true
  /\ In "/bin/core/src/util.metadata.json" (shx_find (Env := Examples.treeEnv) "/bin")
  /\ Path.join ["/out";
                Path.relative (cwd (Env := Examples.treeEnv)) "/bin"
                  "/bin/core/src/util.metadata.json"]
     = "/out/core/src/util.metadata.json"
  /\ main (env := Examples.treeEnv) ["/params"]
     = Ok (0%Z,
           mkState None []
             [Mkdir "/out"; Mkdir "/out/bundles"; Mkdir "/out/core/src";
              WriteFile "/out/core/src/util.d.ts"
                ("export declare const util: number;" ++ JSON.nl)]).
Proof.
  split; [reflexivity|]. split; [simpl; tauto|]. split; reflexivity.
Qed.

(* ================================================================= *)
(** ** Redirects for the secondary entry points *)

Section Redirects.

Import JSON.

Lemma quoteChar_noLineTerminator (c : ascii) :
  Spec.noLineTerminator (quoteChar c) = true.
Proof. destruct c as [[] [] [] [] [] [] [] []]; reflexivity. Qed.

Lemma noLineTerminator_append (a b : string) :
  Spec.noLineTerminator (a ++ b) = Spec.noLineTerminator a && Spec.noLineTerminator b.
Proof. apply all_append. Qed.

Lemma quoteBody_noLineTerminator (s : string) :
  Spec.noLineTerminator (quoteBody s) = true.
Proof.
  induction s as [|c s IH]; [reflexivity|].
  cbn [quoteBody]. now rewrite noLineTerminator_append, quoteChar_noLineTerminator, IH.
Qed.

Lemma quote_noLineTerminator (s : string) :
  Spec.noLineTerminator (quote s) = true.
Proof.
  unfold quote.
  change (String dquote (quoteBody s ++ String dquote EmptyString))
    with (String dquote EmptyString ++ quoteBody s ++ String dquote EmptyString).
  now rewrite !noLineTerminator_append, quoteBody_noLineTerminator.
Qed.

Lemma quoteChar_plain (c : ascii) :
  Spec.plainChar c = true -> quoteChar c = String c EmptyString.
Proof. destruct c as [[] [] [] [] [] [] [] []]; intros H; try reflexivity; discriminate. Qed.

(** A string of plain characters is quoted as it is. *)
Lemma quote_plain (s : string) :
  Spec.all Spec.plainChar s = true -> quote s = Spec.quoted s.
Proof.
  unfold quote, Spec.quoted. intros H. do 2 f_equal.
  induction s as [|c s IH]; simpl in *; [reflexivity|].
  apply andb_true_iff in H. destruct H as [Hc H].
  now rewrite (quoteChar_plain c Hc), IH.
Qed.

(** The redirecting metadata: the document on one line, then a newline. *)
Lemma redirectMetadata_text (baseName : string) :
  redirectMetadata baseName =
  (Spec.redirectDocument (quote ("./" ++ baseName ++ "/" ++ baseName)) ++ nl)
  /\ Spec.noLineTerminator
       (Spec.redirectDocument (quote ("./" ++ baseName ++ "/" ++ baseName))) = true.
Proof.
  split.
  - unfold redirectMetadata, Spec.redirectDocument, stringify.
    cbn [serialize map wrap isEmpty String.concat].
    rewrite !append_assoc. reflexivity.
  - unfold Spec.redirectDocument.
    rewrite !noLineTerminator_append, quote_noLineTerminator.
    reflexivity.
Qed.

(** The redirecting declaration file adds exactly one re-export line to
    whatever the license banner holds. *)
Lemma redirectDeclaration_reexports (licenseBanner baseName : string) :
  Spec.lacks "010" baseName = true ->
  Spec.reexports (redirectDeclaration licenseBanner baseName) =
  (Spec.reexports (licenseBanner ++ " ") ++ [Spec.reexportLine baseName])%list.
Proof.
  intros H.
  assert (Hc : redirectDeclaration licenseBanner baseName =
               ((licenseBanner ++ " ")
                  ++ String "010" (Spec.reexportLine baseName
                                     ++ String "010" EmptyString))).
  { unfold redirectDeclaration, Spec.reexportLine, nl. now rewrite !append_assoc. }
  assert (Hline : Spec.lacks "010" (Spec.reexportLine baseName) = true).
  { unfold Spec.reexportLine, Spec.lacks in *. rewrite !all_append, H. reflexivity. }
  unfold Spec.reexports.
  unfold nl.
  rewrite Hc, !split_char_append, (split_char_one _ _ Hline), !filter_app.
  reflexivity.
Qed.

Lemma redirectDeclaration_text (licenseBanner baseName : string) :
  redirectDeclaration licenseBanner baseName =
  (licenseBanner ++ " " ++ nl ++ Spec.reexportLine baseName ++ nl).
Proof. unfold redirectDeclaration, Spec.reexportLine. now rewrite !append_assoc. Qed.

Variable p : params.
Variable licenseBanner : string.

Lemma writeRedirects_many (names : list string) :
  forall st : state,
    exists st',
      forEach names (writeRedirects p licenseBanner) st = Ok (tt, st')
      /\ (forall e, In e (log st) -> In e (log st'))
      /\ primaryEntryPoint st' = primaryEntryPoint st
      /\ secondaryEntryPoints st' = secondaryEntryPoints st
      /\ (forall name,
             In name names ->
             let baseName := template (JS.pop (JS.split name "/")) in
             let dirName := Path.join (JS.slice_init (JS.split name "/")) in
             In (WriteFile (Path.join [out p; dirName; baseName ++ ".metadata.json"])
                   (redirectMetadata baseName)) (log st')
             /\ In (WriteFile (Path.join [out p; dirName; baseName ++ ".d.ts"])
                      (redirectDeclaration licenseBanner baseName)) (log st')).
Proof.
  induction names as [|name names IH]; intros st.
  - exists st. split; [reflexivity|]. split; [auto|].
    split; [reflexivity|]. split; [reflexivity|]. intros name [].
  - set (st1 := mkState (primaryEntryPoint st) (secondaryEntryPoints st)
                  ((log st
                    ++ [WriteFile
                          (Path.join [out p;
                                      Path.join (JS.slice_init (JS.split name "/"));
                                      (template (JS.pop (JS.split name "/")) ++ ".metadata.json")%string])
                          (redirectMetadata (template (JS.pop (JS.split name "/"))))])
                   ++ [WriteFile
                         (Path.join [out p;
                                     Path.join (JS.slice_init (JS.split name "/"));
                                     (template (JS.pop (JS.split name "/")) ++ ".d.ts")%string])
                         (redirectDeclaration licenseBanner
                            (template (JS.pop (JS.split name "/"))))])%list).
    destruct (IH st1) as [st' [Hrun [Hmono [Hp [Hs Hnames]]]]].
    exists st'. split; [exact Hrun|]. split; [|split; [exact Hp|split; [exact Hs|]]].
    + intros e He. apply Hmono. unfold st1. cbn [log].
      apply in_or_app. left. apply in_or_app. now left.
    + intros name' [<-|Hin]; [|now apply Hnames].
      cbv zeta. split; apply Hmono; unfold st1; cbn [log].
      * apply in_or_app. left. apply in_or_app. right. now left.
      * apply in_or_app. right. now left.
Qed.

(** The loop over the secondary entry points, from any state. *)
Lemma redirects_loop :
  forall st : state,
    exists st',
      forEach (secondaryEntryPoints st) (writeRedirects p licenseBanner) st
      = Ok (tt, st')
      /\ primaryEntryPoint st' = primaryEntryPoint st
      /\ secondaryEntryPoints st' = secondaryEntryPoints st
      /\ forall name,
           In name (secondaryEntryPoints st) ->
           Spec.redirectsOf p licenseBanner name (log st').
Proof.
  intros st.
  destruct (writeRedirects_many (secondaryEntryPoints st) st)
    as [st' [Hrun [_ [Hp [Hs Hnames]]]]].
  exists st'. split; [exact Hrun|]. split; [exact Hp|]. split; [exact Hs|].
  intros name Hin. unfold Spec.redirectsOf.
  destruct (Hnames name Hin) as [Hmeta Hdecl]. cbv zeta in Hmeta, Hdecl.
  destruct (redirectMetadata_text (template (JS.pop (JS.split name "/")))) as [Htext Hline].
  rewrite Htext in Hmeta. rewrite redirectDeclaration_text in Hdecl.
  split; [exact Hmeta|]. split.
  { apply (basename_join [out p; Path.join (JS.slice_init (JS.split name "/"))]).
    apply segment_with_ext; [apply last_segment_lacks_slash|now right]. }
  split; [exact Hline|]. split.
  { intros Hplain. apply quote_plain. now rewrite !all_append, Hplain. }
  split; [exact Hdecl|]. split.
  { apply (basename_join [out p; Path.join (JS.slice_init (JS.split name "/"))]).
    apply segment_with_ext; [apply last_segment_lacks_slash|now left]. }
  intros Hnl. rewrite <- redirectDeclaration_text.
  now apply redirectDeclaration_reexports.
Qed.

End Redirects.

(* ================================================================= *)
(** ** A whole run *)

Section Runs.

Context {env : Env}.

Lemma bind_Ok {A B} (m : M A) (k : A -> M B) (st : state) (r : B * state) :
  bind m k st = Ok r -> exists a st1, m st = Ok (a, st1) /\ k a st1 = Ok r.
Proof.
  unfold bind. destruct (m st) as [[a st1]|e]; [|discriminate].
  intros H. now exists a, st1.
Qed.

Lemma keeps_ret {A} (a : A) : Spec.keepsNames (ret a).
Proof. intros st b st' H. injection H as _ <-. now split. Qed.

Lemma keeps_emit (e : event) : Spec.keepsNames (emit e).
Proof. intros st b st' H. injection H as _ <-. now split. Qed.

Lemma keeps_lift {A} (r : result A) : Spec.keepsNames (lift r).
Proof.
  intros st b st' H. unfold lift in H. destruct r; [|discriminate].
  injection H as _ <-. now split.
Qed.

Lemma keeps_bind {A B} (m : M A) (k : A -> M B) :
  Spec.keepsNames m -> (forall a, Spec.keepsNames (k a)) -> Spec.keepsNames (bind m k).
Proof.
  intros Hm Hk st b st' H. apply bind_Ok in H. destruct H as [a [st1 [H1 H2]]].
  destruct (Hm _ _ _ H1) as [Hp1 Hs1]. destruct (Hk a _ _ _ H2) as [Hp2 Hs2].
  split; congruence.
Qed.

Lemma keeps_forEach {A} (l : list A) (f : A -> M unit) :
  (forall x, Spec.keepsNames (f x)) -> Spec.keepsNames (forEach l f).
Proof.
  intros Hf. induction l as [|x l IH]; [apply keeps_ret|].
  apply keeps_bind; [apply Hf|intros _; exact IH].
Qed.

Variable p : params.

Lemma keeps_moveBundleIndex (f : string) : Spec.keepsNames (moveBundleIndex p f).
Proof.
  intros st a st' H. unfold moveBundleIndex in H.
  destruct (JS.endsWith f ".d.ts");
    [|destruct (JS.endsWith f ".metadata.json"); [|discriminate]];
    (destruct (truthy _); injection H as _ <-; now split).
Qed.

Lemma keeps_writeDeclaration (f : string) : Spec.keepsNames (writeDeclaration p f).
Proof.
  unfold writeDeclaration.
  apply keeps_bind; [apply keeps_lift|]. intros content.
  apply keeps_bind.
  - destruct (JS.endsWith f ".bundle_index.d.ts");
      [apply keeps_moveBundleIndex|apply keeps_ret].
  - intros outputPath. apply keeps_bind; intros; apply keeps_emit.
Qed.

Lemma keeps_writeSource (src : string) : Spec.keepsNames (writeSource p src).
Proof.
  unfold writeSource.
  apply keeps_bind; [apply keeps_lift|]. intros content.
  apply keeps_bind; [apply keeps_lift|]. intros content'.
  apply keeps_bind.
  - destruct (String.eqb _ _); [apply keeps_lift|apply keeps_ret].
  - intros content''. apply keeps_bind; intros; apply keeps_emit.
Qed.

Lemma keeps_writeBundleIndexMetadata (f : string) :
  Spec.keepsNames (writeBundleIndexMetadata p f).
Proof.
  unfold writeBundleIndexMetadata.
  apply keeps_bind; [apply keeps_moveBundleIndex|]. intros outputPath.
  apply keeps_bind; [apply keeps_lift|]. intros content.
  apply keeps_bind; [apply keeps_lift|]. intros content'. apply keeps_emit.
Qed.

(** The secondary names after a loop of [writeFesm] are those before it and
    entry-point names of the files. *)
Lemma writeFesm_names (files : list string) (baseDir : string) :
  forall st st',
    forEach files (fun file => writeFesm file baseDir) st = Ok (tt, st') ->
    forall name,
      In name (secondaryEntryPoints st') ->
      In name (secondaryEntryPoints st)
      \/ exists file, In file files /\ name = entryPointNameOf file.
Proof.
  induction files as [|file files IH]; intros st st' H name Hin.
  - injection H as <-. now left.
  - rewrite forEach_cons in H.
    destruct (writeFesm file baseDir st) as [[[] st1]|e] eqn:E; [|discriminate].
    destruct (IH st1 st' H name Hin) as [H1|[f [Hf Hname]]].
    + unfold writeFesm in E. injection E as <-. cbn [secondaryEntryPoints] in H1.
      destruct (primaryEntryPoint st) as [q|]; [|now left].
      destruct (String.eqb q (entryPointNameOf file)); [now left|].
      apply setAdd_In in H1. destruct H1 as [->|H1]; [|now left].
      right. exists file. split; [now left|reflexivity].
    + right. exists f. split; [now right|exact Hname].
Qed.

(** *** Names that hold no newline *)

Lemma all_splitOn (P : ascii -> bool) (sep : string) (s : string) :
  Spec.all P s = true ->
  forall skip x, In x (JS.splitOn sep skip s) -> Spec.all P x = true.
Proof.
  induction s as [|c s IH]; intros Hs skip x Hin.
  - destruct Hin as [<-|[]]. reflexivity.
  - cbn [Spec.all] in Hs. apply andb_true_iff in Hs. destruct Hs as [Hc Hs].
    destruct skip as [|skip]; [|exact (IH Hs skip x Hin)].
    rewrite splitOn_cons in Hin.
    destruct (String.prefix sep (String c s)).
    + destruct Hin as [<-|Hin]; [reflexivity|exact (IH Hs _ x Hin)].
    + destruct (JS.splitOn sep 0 s) as [|h t] eqn:E.
      * now apply splitOn_nonempty in E.
      * destruct Hin as [<-|Hin].
        -- cbn [Spec.all]. rewrite Hc. apply (IH Hs 0). rewrite E. now left.
        -- apply (IH Hs 0). rewrite E. now right.
Qed.

Lemma all_split (P : ascii -> bool) (s sep : string) :
  Spec.all P s = true -> forall x, In x (JS.split s sep) -> Spec.all P x = true.
Proof.
  intros Hs x Hin. destruct sep as [|c sep].
  - cbn [JS.split] in Hin. induction s as [|d s IH]; [destruct Hin|].
    cbn [Spec.all] in Hs. apply andb_true_iff in Hs. destruct Hs as [Hd Hs].
    destruct Hin as [<-|Hin]; [cbn [Spec.all]; now rewrite Hd|now apply IH].
  - exact (all_splitOn P _ s Hs 0 x Hin).
Qed.

Lemma all_after (P : ascii -> bool) (c : ascii) (s : string) :
  Spec.all P s = true -> Spec.all P (Spec.after c s) = true.
Proof.
  induction s as [|d s IH]; [reflexivity|]. cbn [Spec.all Spec.after]. intros H.
  apply andb_true_iff in H. destruct H as [_ H].
  destruct (d =? c)%char; [exact H|now apply IH].
Qed.

Lemma all_fromLineTerminator (P : ascii -> bool) (s : string) :
  Spec.all P s = true -> Spec.all P (Spec.fromLineTerminator s) = true.
Proof.
  induction s as [|d s IH]; [reflexivity|]. intros H.
  cbn [Spec.fromLineTerminator]. destruct (JS.lineTerminator d); [exact H|].
  cbn [Spec.all] in H. apply andb_true_iff in H. now apply IH.
Qed.

Lemma all_basename (P : ascii -> bool) (file : string) :
  Spec.all P file = true -> Spec.all P (Path.basename file) = true.
Proof.
  intros H. unfold Path.basename. rewrite all_rev.
  rewrite <- all_rev in H. revert H. generalize (JS.rev file). intros s Hs.
  assert (Hd : Spec.all P (Path.dropSlashes s) = true).
  { induction s as [|c s IH]; [reflexivity|]. cbn [Path.dropSlashes].
    destruct (c =? Path.slash)%char; [|exact Hs].
    cbn [Spec.all] in Hs. apply andb_true_iff in Hs. now apply IH. }
  revert Hd. generalize (Path.dropSlashes s). clear s Hs. intros s Hs.
  induction s as [|c s IH]; [reflexivity|]. cbn [Path.untilSlash].
  cbn [Spec.all] in Hs. apply andb_true_iff in Hs. destruct Hs as [Hc Hs].
  destruct (c =? Path.slash)%char; [reflexivity|].
  cbn [Spec.all]. now rewrite Hc, IH.
Qed.

Lemma all_entryPointNameOf (P : ascii -> bool) (file : string) :
  P "/"%char = true ->
  Spec.all P file = true -> Spec.all P (entryPointNameOf file) = true.
Proof.
  intros Hslash H. rewrite entryPointNameOf_unfold, all_append.
  pose proof (all_slashed P _ Hslash (all_basename P file H)) as Hb.
  rewrite (all_before P "." _ Hb).
  now rewrite (all_fromLineTerminator P _ (all_after P "." _ Hb)).
Qed.

Lemma last_segment_all (P : ascii -> bool) (name : string) :
  Spec.all P name = true ->
  Spec.all P (template (JS.pop (JS.split name "/"))) = true.
Proof.
  intros H. destruct (pop_In (JS.split name "/")) as [x [Hx Hin]].
  - unfold JS.split. apply splitOn_nonempty.
  - rewrite Hx. exact (all_split P name "/" H x Hin).
Qed.

(** No argument of the parameter file holds a newline. *)
Lemma parseParams_single_line (paramFile : string) (q : params) :
  parseParams paramFile = Ok q ->
  forall file, In file (fesms2015 q ++ fesms5 q)%list -> Spec.lacks "010" file = true.
Proof.
  unfold parseParams.
  assert (Hargs : forall arg,
             In arg (map (fun s => if String.eqb s "''" then EmptyString else s)
                       (JS.split paramFile JSON.nl)) ->
             Spec.lacks "010" arg = true).
  { intros arg Harg. apply in_map_iff in Harg. destruct Harg as [s [<- Hs]].
    destruct (String.eqb s "''"); [reflexivity|].
    exact (split_char_lacks "010" paramFile s Hs). }
  assert (Hlist : forall arg file,
             Spec.lacks "010" arg = true -> In file (listArg arg) ->
             Spec.lacks "010" file = true).
  { intros arg file Harg Hfile. unfold listArg in Hfile.
    apply filter_In in Hfile. destruct Hfile as [Hfile _].
    exact (all_split _ arg "," Harg file Hfile). }
  destruct (map _ (JS.split paramFile JSON.nl))
    as [|a0 [|a1 [|a2 [|a3 [|a4 [|a5 [|a6 [|a7 rest]]]]]]]]; try discriminate.
  intros H. injection H as <-. cbn [fesms2015 fesms5]. intros file Hin.
  apply in_app_or in Hin. destruct Hin as [Hin|Hin].
  - apply (Hlist a4 file); [|exact Hin]. apply Hargs. simpl. tauto.
  - apply (Hlist a5 file); [|exact Hin]. apply Hargs. simpl. tauto.
Qed.

End Runs.

(** Every file of a loop of [writeFesm] names an entry point at its end,
    and the entry points there before stay. *)
Lemma writeFesm_covers (files : list string) (baseDir : string) :
  forall st st',
    forEach files (fun file => writeFesm file baseDir) st = Ok (tt, st') ->
    (forall n, primaryEntryPoint st = Some n -> primaryEntryPoint st' = Some n)
    /\ (forall n, In n (secondaryEntryPoints st) -> In n (secondaryEntryPoints st'))
    /\ forall file,
         In file files ->
         primaryEntryPoint st' = Some (entryPointNameOf file)
         \/ In (entryPointNameOf file) (secondaryEntryPoints st').
Proof.
  induction files as [|file files IH]; intros st st' H.
  - injection H as <-. split; [auto|]. split; [auto|]. intros file [].
  - rewrite forEach_cons in H.
    destruct (writeFesm file baseDir st) as [[[] st1]|e] eqn:E; [|discriminate].
    destruct (IH st1 st' H) as [Hq [Hs Hfiles]].
    assert (H1 : (forall n, primaryEntryPoint st = Some n ->
                            primaryEntryPoint st1 = Some n)
                 /\ (forall n, In n (secondaryEntryPoints st) ->
                               In n (secondaryEntryPoints st1))
                 /\ (primaryEntryPoint st1 = Some (entryPointNameOf file)
                     \/ In (entryPointNameOf file) (secondaryEntryPoints st1))).
    { unfold writeFesm in E. injection E as <-.
      cbn [primaryEntryPoint secondaryEntryPoints].
      destruct (primaryEntryPoint st) as [q|]; [|split; [discriminate|now auto]].
      destruct (String.eqb q (entryPointNameOf file)) eqn:Eq.
      - apply String.eqb_eq in Eq. subst q. split; [auto|]. split; [auto|now left].
      - split; [auto|]. split.
        + intros n Hn. apply setAdd_In. now right.
        + right. apply setAdd_In. now left. }
    destruct H1 as [Hq1 [Hs1 Hfile]].
    split; [auto|]. split; [auto|].
    intros f [<-|Hin]; [|now apply Hfiles].
    destruct Hfile as [Hfile|Hfile]; [left; now apply Hq|right; now apply Hs].
Qed.

(** C9, as the code has it. Take a run of [main] on the parameter file that
    gives the arguments [p], and let it come to its end (the code makes no
    directory for the redirects and writes into one that is there). The license
    banner is the content of the license file when one is named and empty
    otherwise. Every FESM file of [p] names the primary or a secondary entry
    point of the final state. For every name in the secondary set,
    [baseName] being its last segment, the run has written
    [<baseName>.metadata.json], holding the one-line redirect document
    pointing to [./<baseName>/<baseName>] followed by a newline, and
    [<baseName>.d.ts], holding the banner, a space, a newline, the re-export
    line pointing to [./<baseName>/<baseName>] and a newline
    ([Spec.redirectsOf] spells this out); the base name holds no newline, the
    re-export lines of the declaration file are those of the banner followed
    by this one, and it is the only one when the banner holds none. For
    [testing/foo] without a banner the re-export lines of the file are the
    single line pointing to [./foo/foo]. *)
Theorem redirects_written :
  forall (env : Env) (paramFilePath : string) (rest : list string)
         (paramFile : string) (p : params) (z : Z) (st' : state),
    readFileSync paramFilePath = Ok paramFile ->
    parseParams paramFile = Ok p ->
    main (paramFilePath :: rest) = Ok (z, st') ->
    exists licenseBanner : string,
      (if truthy (licenseFile p)
       then readFileSync (template (licenseFile p)) = Ok licenseBanner
       else licenseBanner = EmptyString)
      /\ (forall file,
             In file (fesms2015 p ++ fesms5 p)%list ->
             primaryEntryPoint st' = Some (entryPointNameOf file)
             \/ In (entryPointNameOf file) (secondaryEntryPoints st'))
      /\ (forall name,
             In name (secondaryEntryPoints st') ->
             let baseName := template (JS.pop (JS.split name "/")) in
             Spec.redirectsOf p licenseBanner name (log st')
             /\ Spec.lacks "010" baseName = true
             /\ Spec.reexports (redirectDeclaration licenseBanner baseName)
                = (Spec.reexports (licenseBanner ++ " ")
                   ++ [Spec.reexportLine baseName])%list
             /\ (Spec.reexports (licenseBanner ++ " ") = [] ->
                 Spec.reexports (redirectDeclaration licenseBanner baseName)
                 = [Spec.reexportLine baseName]))
      /\ Spec.reexports
           (redirectDeclaration EmptyString
              (template (JS.pop (JS.split "testing/foo" "/"))))
         = [" export * from './foo/foo'"].
Proof.
  intros env paramFilePath rest paramFile p z st' Hread Hparams H.
  unfold main in H. rewrite Hread, Hparams in H.
  unfold run in H.
  apply bind_Ok in H. destruct H as [u1 [s1 [H1 H]]]. cbv beta zeta in H.
  apply bind_Ok in H. destruct H as [u2 [s2 [H2 H]]]. cbv beta zeta in H.
  apply bind_Ok in H. destruct H as [[] [s3 [H3 H]]]. cbv beta zeta in H.
  apply bind_Ok in H. destruct H as [[] [s4 [H4 H]]]. cbv beta zeta in H.
  apply bind_Ok in H. destruct H as [u5 [s5 [H5 H]]]. cbv beta zeta in H.
  apply bind_Ok in H. destruct H as [u6 [s6 [H6 H]]]. cbv beta zeta in H.
  apply bind_Ok in H. destruct H as [u7 [s7 [H7 H]]]. cbv beta zeta in H.
  apply bind_Ok in H. destruct H as [u8 [s8 [H8 H]]]. cbv beta zeta in H.
  apply bind_Ok in H. destruct H as [u9 [s9 [H9 H]]]. cbv beta zeta in H.
  apply bind_Ok in H. destruct H as [licenseBanner [s10 [H10 H]]]. cbv beta zeta in H.
  apply bind_Ok in H. destruct H as [st [s11 [H11 H]]]. cbv beta zeta in H.
  apply bind_Ok in H. destruct H as [u12 [s12 [H12 H]]]. cbv beta zeta in H.
  injection H as _ <-. injection H11 as <- <-.
  (* the entry points stay as the two loops of [writeFesm] leave them *)
  assert (K1 : secondaryEntryPoints s1 = []) by (injection H1 as _ <-; reflexivity).
  assert (K2 : secondaryEntryPoints s2 = []).
  { destruct (truthy (Some (readmeMd p)));
      [apply keeps_emit in H2|apply keeps_ret in H2]; destruct H2; congruence. }
  apply keeps_emit in H5.
  apply (keeps_forEach _ _ (fun bundle => keeps_emit _)) in H6.
  apply (keeps_forEach _ _ (keeps_writeDeclaration p)) in H7.
  apply (keeps_forEach _ _ (keeps_writeSource p)) in H8.
  apply (keeps_forEach _ _ (keeps_writeBundleIndexMetadata p)) in H9.
  assert (K10 : (primaryEntryPoint s10 = primaryEntryPoint s9
                 /\ secondaryEntryPoints s10 = secondaryEntryPoints s9)
                /\ if truthy (licenseFile p)
                   then readFileSync (template (licenseFile p)) = Ok licenseBanner
                   else licenseBanner = EmptyString).
  { destruct (truthy (licenseFile p)).
    - split; [exact (keeps_lift _ _ _ _ H10)|].
      unfold lift in H10.
      destruct (readFileSync (template (licenseFile p))) as [banner|];
        [|discriminate].
      cbv beta iota in H10. injection H10 as H10 _. now rewrite H10.
    - injection H10 as <- <-. now split. }
  destruct K10 as [K10 Hbanner].
  assert (Hsame : primaryEntryPoint s10 = primaryEntryPoint s4
                  /\ secondaryEntryPoints s10 = secondaryEntryPoints s4).
  { destruct H5, H6, H7, H8, H9, K10. split; congruence. }
  destruct Hsame as [Hsameq Hsame].
  destruct (redirects_loop p licenseBanner s10) as [st'' [Hrun [Hq [Hs Hnames]]]].
  rewrite Hrun in H12. injection H12 as _ Hst. subst st''.
  exists licenseBanner. split; [exact Hbanner|]. split; [|split; [|reflexivity]].
  - intros file Hfile. rewrite Hq, Hs, Hsameq, Hsame.
    destruct (writeFesm_covers _ _ _ _ H3) as [_ [_ C3]].
    destruct (writeFesm_covers _ _ _ _ H4) as [Q4 [S4 C4]].
    apply in_app_or in Hfile. destruct Hfile as [Hfile|Hfile]; [|now apply C4].
    destruct (C3 file Hfile) as [Hc|Hc]; [left; now apply Q4|right; now apply S4].
  - intros name Hin baseName. rewrite Hs in Hin.
    assert (Hnl : Spec.lacks "010" baseName = true).
    { apply last_segment_all. rewrite Hsame in Hin.
      assert (Hfile : forall file,
                 In file (fesms2015 p ++ fesms5 p)%list ->
                 Spec.lacks "010" (entryPointNameOf file) = true).
      { intros file Hfile. apply all_entryPointNameOf; [reflexivity|].
        exact (parseParams_single_line paramFile p Hparams file Hfile). }
      destruct (writeFesm_names _ _ _ _ H4 name Hin) as [Hin3|[file [Hf ->]]].
      + destruct (writeFesm_names _ _ _ _ H3 name Hin3) as [Hin2|[file [Hf ->]]].
        * rewrite K2 in Hin2. destruct Hin2.
        * apply Hfile, in_or_app. now left.
      + apply Hfile, in_or_app. now right. }
    split; [now apply Hnames|]. split; [exact Hnl|].
    pose proof (redirectDeclaration_reexports licenseBanner baseName Hnl) as Hre.
    split; [exact Hre|]. intros Hnone. now rewrite Hre, Hnone.
Qed.

Lemma redirects_written_witness :
  readFileSync (Env := Examples.packageEnv) "/params" = Ok Examples.packageParamFile
  /\ parseParams Examples.packageParamFile = Ok Examples.packageParams
  /\ main (env := Examples.packageEnv) ["/params"] = Ok (0%Z, Examples.packageRun)
  /\ exists licenseBanner : string,
       (if truthy (licenseFile Examples.packageParams)
        then readFileSync (Env := Examples.packageEnv)
               (template (licenseFile Examples.packageParams))
             = Ok licenseBanner
        else licenseBanner = EmptyString)
       /\ (forall file,
              In file (fesms2015 Examples.packageParams
                       ++ fesms5 Examples.packageParams)%list ->
              primaryEntryPoint Examples.packageRun = Some (entryPointNameOf file)
              \/ In (entryPointNameOf file)
                   (secondaryEntryPoints Examples.packageRun))
       /\ (forall name,
              In name (secondaryEntryPoints Examples.packageRun) ->
              let baseName := template (JS.pop (JS.split name "/")) in
              Spec.redirectsOf Examples.packageParams licenseBanner name
                (log Examples.packageRun)
              /\ Spec.lacks "010" baseName = true
              /\ Spec.reexports (redirectDeclaration licenseBanner baseName)
                 = (Spec.reexports (licenseBanner ++ " ")
                    ++ [Spec.reexportLine baseName])%list
              /\ (Spec.reexports (licenseBanner ++ " ") = [] ->
                  Spec.reexports (redirectDeclaration licenseBanner baseName)
                  = [Spec.reexportLine baseName]))
       /\ Spec.reexports
            (redirectDeclaration EmptyString
               (template (JS.pop (JS.split "testing/foo" "/"))))
          = [" export * from './foo/foo'"].
Proof.
  split; [reflexivity|]. split; [vm_compute; reflexivity|]. split; [vm_compute; reflexivity|].
  apply (redirects_written Examples.packageEnv "/params" [] Examples.packageParamFile
           Examples.packageParams 0%Z Examples.packageRun);
    vm_compute; reflexivity.
Defined.

(** With a license file that holds a re-export line, the declaration
    redirect of [core/testing], the last file the run writes, has two
    re-export lines. *)
Lemma redirect_banner_reexport_counterexample :
  List.last
    (match main (env := Examples.bannerEnv) ["/params"] with
     | Ok (_, st) => log st
     | Throw _ => []
     end)
    (Mkdir EmptyString)
  = WriteFile "/out/core/testing.d.ts" Examples.bannerRedirect
  /\ Spec.reexports Examples.bannerRedirect
     = ["export * from './license';"; " export * from './testing/testing'"].
Proof. split; reflexivity. Qed.

(* ================================================================= *)
(** ** Relocation of bundle-index files *)

Section BundleIndex.

Lemma append_nonempty (a b : string) : b <> EmptyString -> (a ++ b) <> EmptyString.
Proof. destruct a; simpl; [auto|discriminate]. Qed.

Lemma normalize_nonempty (s : string) : Path.normalize s <> EmptyString.
Proof.
  unfold Path.normalize. destruct s as [|c s]; [discriminate|].
  destruct (JS.join _ "/") as [|d body].
  - destruct (JS.startsWith _ _); [discriminate|].
    destruct (JS.endsWith _ _); discriminate.
  - destruct (JS.startsWith _ _); simpl; discriminate.
Qed.

(** [path.join] never returns the empty string. *)
Lemma join_nonempty (l : list string) : Path.join l <> EmptyString.
Proof.
  unfold Path.join. destruct (List.filter _ l); [discriminate|].
  apply normalize_nonempty.
Qed.

Lemma join_truthy (l : list string) : truthy (Some (Path.join l)) = true.
Proof.
  pose proof (join_nonempty l) as H. destruct (Path.join l); [congruence|reflexivity].
Qed.

Context {env : Env}.
Variable p : params.

Lemma bundleIndexLoop_app (relative ext : string) (l1 l2 : list string) :
  forall acc,
    bundleIndexLoop p relative ext (l1 ++ l2)%list acc =
    bundleIndexLoop p relative ext l2 (bundleIndexLoop p relative ext l1 acc).
Proof. induction l1 as [|x l1 IH]; intros acc; simpl; [reflexivity|apply IH]. Qed.

Lemma bundleIndexLoop_none (relative ext : string) (l : list string) :
  (forall n, In n l -> JS.startsWith relative n = false) ->
  forall acc, bundleIndexLoop p relative ext l acc = acc.
Proof.
  induction l as [|x l IH]; intros H acc; simpl; [reflexivity|].
  rewrite (H x (or_introl eq_refl)). apply IH. intros n Hn. apply H. now right.
Qed.

Lemma moveBundleIndex_ext (f ext : string) (st : state) :
  bundleIndexExt f ext ->
  moveBundleIndex p f st =
  let relative := Path.relative cwd (binDir p) f in
  let outputPath := bundleIndexLoop p relative ext (secondaryEntryPoints st) None in
  if truthy outputPath
  then Ok (template outputPath, st)
  else Ok (Path.join [out p; concatNullable (primaryEntryPoint st) ext], st).
Proof.
  unfold moveBundleIndex. intros [[H ->]|[H1 [H2 ->]]].
  - now rewrite H.
  - now rewrite H1, H2.
Qed.

(** C2, as the code has it. For a bundle-index file [f] (its path ends in
    [.d.ts] or in [.metadata.json]) and any resolution state,
    [moveBundleIndex] goes through the secondary names in insertion order
    without stopping, so the LAST secondary name that is a prefix of the path
    of [f] relative to the build-output root decides: the destination is
    [<out>/<name>/<last segment of name><ext>], a path whose base name is
    [<last segment of name><ext>]. When no secondary name is a prefix, the
    destination is [<out>/<primary><ext>]. *)
Theorem moveBundleIndex_last_match :
  forall (f ext : string) (st : state),
    bundleIndexExt f ext ->
    let relative := Path.relative cwd (binDir p) f in
    (forall (before after : list string) (name : string),
        secondaryEntryPoints st = (before ++ name :: after)%list ->
        JS.startsWith relative name = true ->
        (forall n, In n after -> JS.startsWith relative n = false) ->
        moveBundleIndex p f st =
        Ok (Path.join [out p; name; template (JS.pop (JS.split name "/")) ++ ext], st))
    /\ ((forall n, In n (secondaryEntryPoints st) -> JS.startsWith relative n = false) ->
        moveBundleIndex p f st =
        Ok (Path.join [out p; concatNullable (primaryEntryPoint st) ext], st))
    /\ (forall name : string,
           Path.basename
             (Path.join [out p; name; template (JS.pop (JS.split name "/")) ++ ext])
           = (template (JS.pop (JS.split name "/")) ++ ext)).
Proof.
  intros f ext st Hext relative. split; [|split].
  - intros before after name Hs Hm Hafter.
    rewrite (moveBundleIndex_ext f ext st Hext). cbv zeta. fold relative.
    rewrite Hs, bundleIndexLoop_app. simpl. rewrite Hm.
    rewrite (bundleIndexLoop_none relative ext after Hafter).
    rewrite join_truthy. reflexivity.
  - intros Hnone.
    rewrite (moveBundleIndex_ext f ext st Hext). cbv zeta. fold relative.
    rewrite (bundleIndexLoop_none relative ext _ Hnone). reflexivity.
  - intros name. apply (basename_join [out p; name]).
    apply segment_with_ext; [apply last_segment_lacks_slash|].
    destruct Hext as [[_ ->]|[_ [_ ->]]]; [now left|now right].
Qed.

(** C10. With the primary entry point still unset and no secondary name a
    prefix of the relative path, [moveBundleIndex] on a bundle-index file
    does not throw: it returns [<out>/null<ext>], a path whose base name is
    [null<ext>]. *)
Theorem moveBundleIndex_unset_primary :
  forall (f ext : string) (st : state),
    bundleIndexExt f ext ->
    primaryEntryPoint st = None ->
    (forall n, In n (secondaryEntryPoints st) ->
               JS.startsWith (Path.relative cwd (binDir p) f) n = false) ->
    moveBundleIndex p f st = Ok (Path.join [out p; "null" ++ ext], st)
    /\ Path.basename (Path.join [out p; "null" ++ ext]) = ("null" ++ ext).
Proof.
  intros f ext st Hext Hp Hnone. split.
  - rewrite (moveBundleIndex_ext f ext st Hext). cbv zeta.
    rewrite (bundleIndexLoop_none _ ext _ Hnone), Hp. reflexivity.
  - apply (basename_join [out p]). apply segment_with_ext; [reflexivity|].
    destruct Hext as [[_ ->]|[_ [_ ->]]]; [now left|now right].
Qed.

End BundleIndex.

Lemma moveBundleIndex_last_match_witness :
  bundleIndexExt Examples.nestedIndex ".d.ts"
  /\ moveBundleIndex (env := Examples.nestedEnv) Examples.nestedParams
       Examples.nestedIndex Examples.nestedState
     = Ok ("/out/core/testing/foo/foo.d.ts", Examples.nestedState).
Proof.
  assert (H : bundleIndexExt Examples.nestedIndex ".d.ts")
    by (left; split; reflexivity).
  split; [exact H|].
  exact (proj1 (moveBundleIndex_last_match (env := Examples.nestedEnv)
                  Examples.nestedParams Examples.nestedIndex ".d.ts"
                  Examples.nestedState H)
           ["core/testing"] [] "core/testing/foo" eq_refl eq_refl
           (fun n (Hn : In n []) => match Hn with end)).
Defined.

(** C2 fails as stated. After the FESM files [core.js], [core__testing.js]
    and [core__testing__foo.js] the secondary names are [core/testing] and
    [core/testing/foo], in this order. Both are prefixes of the relative path
    of [/bin/core/testing/foo/foo.bundle_index.d.ts]; the first one would
    give [/out/core/testing/testing.d.ts], the code returns
    [/out/core/testing/foo/foo.d.ts]. *)
Lemma moveBundleIndex_first_match_counterexample :
  primaryEntryPoint Examples.nestedState = Some "core"
  /\ secondaryEntryPoints Examples.nestedState = ["core/testing"; "core/testing/foo"]
  /\ List.find
       (JS.startsWith
          (Path.relative (cwd (Env := Examples.nestedEnv))
             (binDir Examples.nestedParams) Examples.nestedIndex))
       (secondaryEntryPoints Examples.nestedState)
     = Some "core/testing"
  /\ Path.join [out Examples.nestedParams; "core/testing";
                template (JS.pop (JS.split "core/testing" "/")) ++ ".d.ts"]
     = "/out/core/testing/testing.d.ts"
  /\ moveBundleIndex (env := Examples.nestedEnv) Examples.nestedParams
       Examples.nestedIndex Examples.nestedState
     = Ok ("/out/core/testing/foo/foo.d.ts", Examples.nestedState).
Proof. repeat split. Qed.

Lemma moveBundleIndex_unset_primary_witness :
  moveBundleIndex (env := Examples.nestedEnv) Examples.bareParams
    "/bin/core.bundle_index.d.ts" initial
  = Ok ("/out/null.d.ts", initial)
  /\ Path.basename "/out/null.d.ts" = "null.d.ts".
Proof.
  apply (moveBundleIndex_unset_primary (env := Examples.nestedEnv)
           Examples.bareParams "/bin/core.bundle_index.d.ts" ".d.ts" initial).
  - left. split; reflexivity.
  - reflexivity.
  - intros n [].
Defined.


(* ================================================================= *)
(** ** Further properties: the storage calls of a run *)

Section CallLists.

Lemma issued_here (calls after : list event) : Spec.issued calls (calls ++ after).
Proof. now exists [], after. Qed.

Lemma issued_skip (calls earlier written : list event) :
  Spec.issued calls written -> Spec.issued calls (earlier ++ written).
Proof.
  intros [before [after ->]]. exists (earlier ++ before)%list, after.
  now rewrite <- app_assoc.
Qed.

Lemma issued_cons (calls : list event) (e : event) (written : list event) :
  Spec.issued calls written -> Spec.issued calls (e :: written).
Proof. exact (issued_skip calls [e] written). Qed.

Lemma issued_before (calls written later : list event) :
  Spec.issued calls written -> Spec.issued calls (written ++ later).
Proof.
  intros [before [after ->]]. exists before, (after ++ later)%list.
  now rewrite <- !app_assoc.
Qed.

Lemma issued_In (calls written : list event) (e : event) :
  Spec.issued calls written -> In e calls -> In e written.
Proof.
  intros [before [after ->]] H. apply in_or_app. right. apply in_or_app. now left.
Qed.

(** The calls of one element of a loop stand in the calls of the loop. *)
Lemma Forall2_issued {A} (R : A -> list event -> Prop) (l : list A)
  (callss : list (list event)) :
  Forall2 R l callss ->
  forall x, In x l -> exists calls, R x calls /\ Spec.issued calls (concat callss).
Proof.
  induction 1 as [|y calls l callss Hy Hl IH]; intros x Hin; [destruct Hin|].
  cbn [concat]. destruct Hin as [<-|Hin].
  - exists calls. split; [exact Hy|apply issued_here].
  - destruct (IH x Hin) as [calls' [Hx Hissued]].
    exists calls'. split; [exact Hx|now apply issued_skip].
Qed.

Lemma Forall2_flat_map {A} (g : A -> list event) (l : list A)
  (callss : list (list event)) :
  Forall2 (fun x calls => calls = g x) l callss -> concat callss = flat_map g l.
Proof.
  induction 1 as [|y calls l callss Hy Hl IH]; [reflexivity|].
  cbn [concat flat_map]. now rewrite Hy, IH.
Qed.

Lemma map_issued {A} (g : A -> event) (l : list A) (x : A) :
  In x l -> Spec.issued [g x] (map g l).
Proof.
  induction l as [|y l IH]; intros Hin; [destruct Hin|].
  cbn [map]. destruct Hin as [<-|Hin].
  - exact (issued_here [g y] (map g l)).
  - apply issued_cons. now apply IH.
Qed.

Lemma flat_map_issued {A} (g : A -> list event) (l : list A) (x : A) :
  In x l -> Spec.issued (g x) (flat_map g l).
Proof.
  induction l as [|y l IH]; intros Hin; [destruct Hin|].
  cbn [flat_map]. destruct Hin as [<-|Hin].
  - apply issued_here.
  - apply issued_skip. now apply IH.
Qed.

End CallLists.

Section RunLog.

Context {env : Env}.

Lemma lift_Ok {A} (r : result A) (a : A) (st st' : state) :
  lift r st = Ok (a, st') -> r = Ok a /\ st' = st.
Proof. unfold lift. destruct r; [|discriminate]. intros H. now injection H as -> ->. Qed.

(** The log after a loop: the calls of its elements, one element after the
    other, follow what was there. [I] is kept by every element. *)
Lemma forEach_log {A} (I : state -> Prop) (R : A -> list event -> Prop)
  (f : A -> M unit) :
  (forall x st st',
      I st -> f x st = Ok (tt, st') ->
      I st' /\ exists calls, R x calls /\ log st' = (log st ++ calls)%list) ->
  forall l st st',
    I st -> forEach l f st = Ok (tt, st') ->
    I st'
    /\ exists callss,
         Forall2 R l callss /\ log st' = (log st ++ concat callss)%list.
Proof.
  intros Hf. induction l as [|x l IH]; intros st st' Hi H.
  - injection H as <-. split; [exact Hi|]. exists [].
    split; [constructor|]. cbn [concat]. now rewrite app_nil_r.
  - rewrite forEach_cons in H.
    destruct (f x st) as [[[] st1]|] eqn:E; [|discriminate].
    destruct (Hf x st st1 Hi E) as [Hi1 [calls [Hr Hl]]].
    destruct (IH st1 st' Hi1 H) as [Hi' [callss [Hrs Hls]]].
    split; [exact Hi'|]. exists (calls :: callss). split; [now constructor|].
    cbn [concat]. now rewrite Hls, Hl, <- app_assoc.
Qed.

Lemma writeFesm_log (file baseDir : string) (st st' : state) :
  writeFesm file baseDir st = Ok (tt, st') ->
  log st' = (log st ++ Spec.fesmCalls baseDir file)%list.
Proof. intros H. unfold writeFesm in H. now injection H as <-. Qed.

Variable p : params.

(** The path [moveBundleIndex] returns depends on the state through the
    entry points only, and the state stays as it is. *)
Lemma moveBundleIndex_names (f dest : string) (st1 st1' st2 : state) :
  primaryEntryPoint st1 = primaryEntryPoint st2 ->
  secondaryEntryPoints st1 = secondaryEntryPoints st2 ->
  moveBundleIndex p f st1 = Ok (dest, st1') ->
  st1' = st1 /\ moveBundleIndex p f st2 = Ok (dest, st2).
Proof.
  intros Hq Hs. unfold moveBundleIndex. rewrite Hq, Hs.
  destruct (JS.endsWith f ".d.ts");
    [|destruct (JS.endsWith f ".metadata.json"); [|discriminate]];
    (destruct (truthy _); intros H; injection H as <- <-; now split).
Qed.

Lemma writeDeclaration_log (final : state) (f : string) (st st' : state) :
  primaryEntryPoint st = primaryEntryPoint final ->
  secondaryEntryPoints st = secondaryEntryPoints final ->
  writeDeclaration p f st = Ok (tt, st') ->
  exists calls,
    Spec.declarationCalls p final f calls /\ log st' = (log st ++ calls)%list.
Proof.
  intros Hq Hs H. unfold writeDeclaration in H.
  apply bind_Ok in H. destruct H as [content [sa [Hread H]]].
  apply lift_Ok in Hread. destruct Hread as [Hread ->].
  apply bind_Ok in H. destruct H as [dest [sb [Hdest H]]].
  assert (Hd : sb = st
               /\ if JS.endsWith f ".bundle_index.d.ts"
                  then moveBundleIndex p f final = Ok (dest, final)
                  else dest = Path.join [out p; Path.relative cwd (binDir p) f]).
  { destruct (JS.endsWith f ".bundle_index.d.ts").
    - exact (moveBundleIndex_names f dest st sb final Hq Hs Hdest).
    - injection Hdest as <- <-. now split. }
  destruct Hd as [-> Hd].
  unfold bind, emit in H. injection H as <-.
  eexists. split.
  - exists content, dest. split; [exact Hread|]. split; [exact Hd|reflexivity].
  - cbn [log]. now rewrite <- app_assoc.
Qed.

Lemma writeSource_log (src : string) (st st' : state) :
  writeSource p src st = Ok (tt, st') ->
  exists calls, Spec.sourceCalls p src calls /\ log st' = (log st ++ calls)%list.
Proof.
  intros H. unfold writeSource in H.
  apply bind_Ok in H. destruct H as [content [sa [Hread H]]].
  apply bind_Ok in H. destruct H as [stamped [sb [Hstamp H]]].
  apply bind_Ok in H. destruct H as [written [sc [Hamend H]]].
  apply lift_Ok in Hread. destruct Hread as [Hread ->].
  apply lift_Ok in Hstamp. destruct Hstamp as [Hstamp ->].
  assert (Hw : sc = st
               /\ if String.eqb (Path.basename src) "package.json"
                  then amendPackageJson src stamped = Ok written
                  else written = stamped).
  { destruct (String.eqb (Path.basename src) "package.json").
    - apply lift_Ok in Hamend. destruct Hamend as [Hamend ->]. now split.
    - injection Hamend as -> ->. now split. }
  destruct Hw as [-> Hw].
  unfold bind, emit in H. injection H as <-.
  eexists. split.
  - exists content, stamped, written.
    split; [exact Hread|]. split; [exact Hstamp|]. split; [exact Hw|reflexivity].
  - cbn [log]. now rewrite <- app_assoc.
Qed.

Lemma writeBundleIndexMetadata_log (final : state) (f : string) (st st' : state) :
  primaryEntryPoint st = primaryEntryPoint final ->
  secondaryEntryPoints st = secondaryEntryPoints final ->
  writeBundleIndexMetadata p f st = Ok (tt, st') ->
  exists calls,
    Spec.metadataCalls p final f calls /\ log st' = (log st ++ calls)%list.
Proof.
  intros Hq Hs H. unfold writeBundleIndexMetadata in H.
  apply bind_Ok in H. destruct H as [dest [sa [Hmove H]]].
  apply bind_Ok in H. destruct H as [content [sb [Hread H]]].
  apply bind_Ok in H. destruct H as [stamped [sc [Hstamp H]]].
  destruct (moveBundleIndex_names f dest st sa final Hq Hs Hmove) as [-> Hfinal].
  apply lift_Ok in Hread. destruct Hread as [Hread ->].
  apply lift_Ok in Hstamp. destruct Hstamp as [Hstamp ->].
  unfold emit in H. injection H as <-.
  eexists. split.
  - exists content, stamped, dest.
    split; [exact Hfinal|]. split; [exact Hread|]. split; [exact Hstamp|reflexivity].
  - reflexivity.
Qed.

Lemma writeRedirects_log (licenseBanner name : string) (st st' : state) :
  writeRedirects p licenseBanner name st = Ok (tt, st') ->
  log st' = (log st ++ Spec.redirectCalls p licenseBanner name)%list.
Proof.
  intros H. unfold writeRedirects, bind, emit in H. injection H as <-.
  cbn [log]. now rewrite <- app_assoc.
Qed.

Lemma keeps_writeRedirects (licenseBanner name : string) :
  Spec.keepsNames (writeRedirects p licenseBanner name).
Proof. unfold writeRedirects. apply keeps_bind; intros; apply keeps_emit. Qed.

(** The steps of a run that comes to its end, with the states between
    them. *)
Lemma run_steps (st0 : state) (z : Z) (st' : state) :
  run p st0 = Ok (z, st') ->
  z = 0%Z
  /\ exists s1 s2 s3 s4 s5 s6 s7 s8 s9 licenseBanner,
      emit (Mkdir (out p)) st0 = Ok (tt, s1)
      /\ (if truthy (Some (readmeMd p))
          then emit (Cp (readmeMd p) (Path.join [out p; "README.md"]))
          else ret tt) s1 = Ok (tt, s2)
      /\ forEach (fesms2015 p)
           (fun fesm2015 => writeFesm fesm2015 (Path.join [out p; "esm2015"])) s2
         = Ok (tt, s3)
      /\ forEach (fesms5 p)
           (fun fesm5 => writeFesm fesm5 (Path.join [out p; "esm5"])) s3
         = Ok (tt, s4)
      /\ emit (Mkdir (Path.join [out p; "bundles"])) s4 = Ok (tt, s5)
      /\ forEach (bundles p)
           (fun bundle => emit (Cp bundle (Path.join [out p; "bundles"]))) s5
         = Ok (tt, s6)
      /\ forEach (List.filter (Packager.filter ".d.ts") (shx_find (binDir p)))
           (writeDeclaration p) s6 = Ok (tt, s7)
      /\ forEach (srcs p) (writeSource p) s7 = Ok (tt, s8)
      /\ forEach (List.filter (Packager.filter ".bundle_index.metadata.json")
                    (shx_find (binDir p)))
           (writeBundleIndexMetadata p) s8 = Ok (tt, s9)
      /\ (if truthy (licenseFile p)
          then readFileSync (template (licenseFile p)) = Ok licenseBanner
          else licenseBanner = EmptyString)
      /\ forEach (secondaryEntryPoints s9) (writeRedirects p licenseBanner) s9
         = Ok (tt, st').
Proof.
  intros H. unfold run in H.
  apply bind_Ok in H. destruct H as [[] [s1 [H1 H]]]. cbv beta zeta in H.
  apply bind_Ok in H. destruct H as [[] [s2 [H2 H]]]. cbv beta zeta in H.
  apply bind_Ok in H. destruct H as [[] [s3 [H3 H]]]. cbv beta zeta in H.
  apply bind_Ok in H. destruct H as [[] [s4 [H4 H]]]. cbv beta zeta in H.
  apply bind_Ok in H. destruct H as [[] [s5 [H5 H]]]. cbv beta zeta in H.
  apply bind_Ok in H. destruct H as [[] [s6 [H6 H]]]. cbv beta zeta in H.
  apply bind_Ok in H. destruct H as [[] [s7 [H7 H]]]. cbv beta zeta in H.
  apply bind_Ok in H. destruct H as [[] [s8 [H8 H]]]. cbv beta zeta in H.
  apply bind_Ok in H. destruct H as [[] [s9 [H9 H]]]. cbv beta zeta in H.
  apply bind_Ok in H. destruct H as [licenseBanner [s10 [H10 H]]]. cbv beta zeta in H.
  apply bind_Ok in H. destruct H as [st [s11 [H11 H]]]. cbv beta zeta in H.
  apply bind_Ok in H. destruct H as [[] [s12 [H12 H]]]. cbv beta zeta in H.
  injection H as <- <-. injection H11 as <- <-.
  split; [reflexivity|].
  exists s1, s2, s3, s4, s5, s6, s7, s8, s9, licenseBanner.
  assert (Hbanner : s10 = s9
                    /\ if truthy (licenseFile p)
                       then readFileSync (template (licenseFile p)) = Ok licenseBanner
                       else licenseBanner = EmptyString).
  { destruct (truthy (licenseFile p)).
    - apply lift_Ok in H10. destruct H10 as [H10 ->]. now split.
    - injection H10 as <- <-. now split. }
  destruct Hbanner as [-> Hbanner].
  repeat (split; [assumption|]). exact H12.
Qed.

(** The log of a run that comes to its end, call by call, and the states
    around its two loops over the FESM files. *)
Lemma run_log (st0 : state) (z : Z) (st' : state) :
  run p st0 = Ok (z, st') ->
  z = 0%Z
  /\ exists s2 s3 s4 licenseBanner declarations sources metadata,
       primaryEntryPoint s2 = primaryEntryPoint st0
       /\ secondaryEntryPoints s2 = secondaryEntryPoints st0
       /\ forEach (fesms2015 p)
            (fun fesm2015 => writeFesm fesm2015 (Path.join [out p; "esm2015"])) s2
          = Ok (tt, s3)
       /\ forEach (fesms5 p)
            (fun fesm5 => writeFesm fesm5 (Path.join [out p; "esm5"])) s3
          = Ok (tt, s4)
       /\ primaryEntryPoint st' = primaryEntryPoint s4
       /\ secondaryEntryPoints st' = secondaryEntryPoints s4
       /\ (if truthy (licenseFile p)
           then readFileSync (template (licenseFile p)) = Ok licenseBanner
           else licenseBanner = EmptyString)
       /\ Forall2 (Spec.declarationCalls p st')
            (List.filter (Packager.filter ".d.ts") (shx_find (binDir p)))
            declarations
       /\ Forall2 (Spec.sourceCalls p) (srcs p) sources
       /\ Forall2 (Spec.metadataCalls p st')
            (List.filter (Packager.filter ".bundle_index.metadata.json")
               (shx_find (binDir p)))
            metadata
       /\ log st' =
          (log st0
           ++ Spec.runCalls p licenseBanner declarations sources metadata
                (secondaryEntryPoints st'))%list.
Proof.
  intros H. destruct (run_steps st0 z st' H)
    as [Hz [s1 [s2 [s3 [s4 [s5 [s6 [s7 [s8 [s9 [licenseBanner
         [H1 [H2 [H3 [H4 [H5 [H6 [H7 [H8 [H9 [Hbanner H12]]]]]]]]]]]]]]]]]]]]].
  split; [exact Hz|].
  (* the entry points *)
  assert (N2 : primaryEntryPoint s2 = primaryEntryPoint st0
               /\ secondaryEntryPoints s2 = secondaryEntryPoints st0).
  { injection H1 as <-.
    destruct (truthy (Some (readmeMd p))); injection H2 as <-; now split. }
  pose proof (keeps_emit _ _ _ _ H5) as [P5 S5].
  pose proof (keeps_forEach _ _ (fun bundle => keeps_emit _) _ _ _ H6) as [P6 S6].
  pose proof (keeps_forEach _ _ (keeps_writeDeclaration p) _ _ _ H7) as [P7 S7].
  pose proof (keeps_forEach _ _ (keeps_writeSource p) _ _ _ H8) as [P8 S8].
  pose proof (keeps_forEach _ _ (keeps_writeBundleIndexMetadata p) _ _ _ H9) as [P9 S9].
  pose proof (keeps_forEach _ _ (keeps_writeRedirects licenseBanner) _ _ _ H12)
    as [P12 S12].
  (* the calls, step by step *)
  assert (L1 : log s1 = (log st0 ++ [Mkdir (out p)])%list) by now injection H1 as <-.
  assert (L2 : log s2 =
               (log s1 ++ (if truthy (Some (readmeMd p))
                           then [Cp (readmeMd p) (Path.join [out p; "README.md"])]
                           else []))%list).
  { destruct (truthy (Some (readmeMd p))); injection H2 as <-;
      [reflexivity|now rewrite app_nil_r]. }
  destruct (forEach_log (fun _ => True)
              (fun file calls =>
                 calls = Spec.fesmCalls (Path.join [out p; "esm2015"]) file)
              (fun file => writeFesm file (Path.join [out p; "esm2015"]))) with
    (l := fesms2015 p) (st := s2) (st' := s3) as [_ [c3 [F3 L3]]];
    [|exact I|exact H3|].
  { intros x st st1 _ E. split; [exact I|]. eexists. split; [reflexivity|].
    exact (writeFesm_log _ _ _ _ E). }
  destruct (forEach_log (fun _ => True)
              (fun file calls =>
                 calls = Spec.fesmCalls (Path.join [out p; "esm5"]) file)
              (fun file => writeFesm file (Path.join [out p; "esm5"]))) with
    (l := fesms5 p) (st := s3) (st' := s4) as [_ [c4 [F4 L4]]];
    [|exact I|exact H4|].
  { intros x st st1 _ E. split; [exact I|]. eexists. split; [reflexivity|].
    exact (writeFesm_log _ _ _ _ E). }
  assert (L5 : log s5 = (log s4 ++ [Mkdir (Path.join [out p; "bundles"])])%list)
    by now injection H5 as <-.
  destruct (forEach_log (fun _ => True)
              (fun bundle calls => calls = [Cp bundle (Path.join [out p; "bundles"])])
              (fun bundle => emit (Cp bundle (Path.join [out p; "bundles"])))) with
    (l := bundles p) (st := s5) (st' := s6) as [_ [c6 [F6 L6]]];
    [|exact I|exact H6|].
  { intros x st st1 _ E. split; [exact I|]. eexists. split; [reflexivity|].
    now injection E as <-. }
  set (names := fun st : state =>
                  primaryEntryPoint st = primaryEntryPoint st'
                  /\ secondaryEntryPoints st = secondaryEntryPoints st').
  assert (N6 : names s6) by (unfold names; split; congruence).
  destruct (forEach_log names (Spec.declarationCalls p st') (writeDeclaration p)) with
    (l := List.filter (Packager.filter ".d.ts") (shx_find (binDir p)))
    (st := s6) (st' := s7) as [N7 [c7 [F7 L7]]]; [|exact N6|exact H7|].
  { intros f st st1 [Nq Ns] E. split.
    - destruct (keeps_writeDeclaration p f _ _ _ E) as [Kq Ks].
      unfold names. split; congruence.
    - exact (writeDeclaration_log st' f st st1 Nq Ns E). }
  destruct (forEach_log names (Spec.sourceCalls p) (writeSource p)) with
    (l := srcs p) (st := s7) (st' := s8) as [N8 [c8 [F8 L8]]]; [|exact N7|exact H8|].
  { intros src st st1 [Nq Ns] E. split.
    - destruct (keeps_writeSource p src _ _ _ E) as [Kq Ks].
      unfold names. split; congruence.
    - exact (writeSource_log src st st1 E). }
  destruct (forEach_log names (Spec.metadataCalls p st')
              (writeBundleIndexMetadata p)) with
    (l := List.filter (Packager.filter ".bundle_index.metadata.json")
            (shx_find (binDir p)))
    (st := s8) (st' := s9) as [N9 [c9 [F9 L9]]]; [|exact N8|exact H9|].
  { intros f st st1 [Nq Ns] E. split.
    - destruct (keeps_writeBundleIndexMetadata p f _ _ _ E) as [Kq Ks].
      unfold names. split; congruence.
    - exact (writeBundleIndexMetadata_log st' f st st1 Nq Ns E). }
  destruct (forEach_log (fun _ => True)
              (fun name calls => calls = Spec.redirectCalls p licenseBanner name)
              (writeRedirects p licenseBanner)) with
    (l := secondaryEntryPoints s9) (st := s9) (st' := st') as [_ [c12 [F12 L12]]];
    [|exact I|exact H12|].
  { intros x st st1 _ E. split; [exact I|]. eexists. split; [reflexivity|].
    exact (writeRedirects_log _ _ _ _ E). }
  exists s2, s3, s4, licenseBanner, c7, c8, c9.
  split; [apply N2|]. split; [apply N2|]. split; [exact H3|]. split; [exact H4|].
  split; [congruence|]. split; [congruence|]. split; [exact Hbanner|].
  split; [exact F7|]. split; [exact F8|]. split; [exact F9|].
  rewrite L12, L9, L8, L7, L6, L5, L4, L3, L2, L1.
  rewrite (Forall2_flat_map _ _ _ F3), (Forall2_flat_map _ _ _ F4),
    (Forall2_flat_map _ _ _ F12), S12.
  assert (Hc6 : concat c6
                = map (fun bundle => Cp bundle (Path.join [out p; "bundles"]))
                    (bundles p)).
  { rewrite (Forall2_flat_map _ _ _ F6). clear.
    induction (bundles p) as [|b l IH]; [reflexivity|].
    cbn [flat_map map app]. now rewrite IH. }
  rewrite Hc6. unfold Spec.runCalls.
  repeat rewrite <- app_assoc. reflexivity.
Qed.

End RunLog.

Section FinishedRuns.

Context {env : Env}.

(** A run of [main] on the parameter file that gives the arguments [p] is
    the run of lines 28-175 with these arguments. *)
Lemma main_run (paramFilePath : string) (rest : list string) (paramFile : string)
  (p : params) (z : Z) (st' : state) :
  readFileSync paramFilePath = Ok paramFile ->
  parseParams paramFile = Ok p ->
  main (paramFilePath :: rest) = Ok (z, st') ->
  run p initial = Ok (z, st').
Proof. intros Hread Hparams H. unfold main in H. now rewrite Hread, Hparams in H. Qed.

(** Where the calls of the declaration files, of the sources and of the
    bundle-index metadata stand in the log of a run. *)
Lemma runCalls_issued (p : params) (licenseBanner : string)
  (declarations sources metadata : list (list event)) (secondaries : list string)
  (calls : list event) :
  Spec.issued calls (concat declarations)
  \/ Spec.issued calls (concat sources)
  \/ Spec.issued calls (concat metadata) ->
  Spec.issued calls
    (Spec.runCalls p licenseBanner declarations sources metadata secondaries).
Proof.
  intros H. unfold Spec.runCalls.
  apply issued_cons. do 3 apply issued_skip. apply issued_cons, issued_skip.
  destruct H as [H|[H|H]].
  - now apply issued_before.
  - apply issued_skip. now apply issued_before.
  - do 2 apply issued_skip. now apply issued_before.
Qed.

(** X1. Take a run of [main] on the parameter file that gives the arguments
    [p], and let it come to its end. Every declaration file of the listing of
    the build-output tree that the [.d.ts] filter selects and that is no
    bundle index has been read; the run has made the directory of
    [<out>/<path relative to the build-output root>] and, as its very next
    storage call, has written the content there, the [amd-module] expression
    replaced. *)
Theorem declarations_written :
  forall (paramFilePath : string) (rest : list string) (paramFile : string)
         (p : params) (z : Z) (st' : state),
    readFileSync paramFilePath = Ok paramFile ->
    parseParams paramFile = Ok p ->
    main (paramFilePath :: rest) = Ok (z, st') ->
    forall f,
      In f (shx_find (binDir p)) ->
      Spec.declarationArtifact f = true ->
      exists content,
        readFileSync f = Ok content
        /\ Spec.issued
             [Mkdir (Path.dirname
                       (Path.join [out p; Path.relative cwd (binDir p) f]));
              WriteFile (Path.join [out p; Path.relative cwd (binDir p) f])
                (JS.replace content amdModuleRegex EmptyString)]
             (log st').
Proof.
  intros paramFilePath rest paramFile p z st' Hread Hparams H f Hin Hdecl.
  pose proof (main_run _ _ _ _ _ _ Hread Hparams H) as Hrun.
  destruct (run_log p initial z st' Hrun)
    as [_ [s2 [s3 [s4 [banner [declarations [sources [metadata
         [_ [_ [_ [_ [_ [_ [_ [Fd [_ [_ Hlog]]]]]]]]]]]]]]]]]].
  unfold Spec.declarationArtifact in Hdecl. apply andb_true_iff in Hdecl.
  destruct Hdecl as [Hfilter Hindex]. apply negb_true_iff in Hindex.
  assert (Hsel : In f (List.filter (Packager.filter ".d.ts") (shx_find (binDir p))))
    by (apply filter_In; now split).
  destruct (Forall2_issued _ _ _ Fd f Hsel)
    as [calls [[content [dest [Hcontent [Hdest ->]]]] Hissued]].
  rewrite Hindex in Hdest. subst dest.
  exists content. split; [exact Hcontent|].
  rewrite Hlog. apply issued_skip, runCalls_issued. now left.
Qed.

(** X2. Take a run of [main] on the parameter file that gives the arguments
    [p], and let it come to its end. Every file of [srcs] has been read and
    stamped by [replaceVersionPlaceholders]; a file whose base name is
    [package.json] has then gone through [amendPackageJson]; the run has made
    the directory of [<out>/<path relative to the source root>] and, as its
    very next storage call, has written the result there. *)
Theorem sources_written :
  forall (paramFilePath : string) (rest : list string) (paramFile : string)
         (p : params) (z : Z) (st' : state),
    readFileSync paramFilePath = Ok paramFile ->
    parseParams paramFile = Ok p ->
    main (paramFilePath :: rest) = Ok (z, st') ->
    forall src,
      In src (srcs p) ->
      exists content stamped written,
        readFileSync src = Ok content
        /\ replaceVersionPlaceholders p src content = Ok stamped
        /\ (if String.eqb (Path.basename src) "package.json"
            then amendPackageJson src stamped = Ok written
            else written = stamped)
        /\ Spec.issued
             [Mkdir (Path.dirname
                       (Path.join [out p; Path.relative cwd (srcDir p) src]));
              WriteFile (Path.join [out p; Path.relative cwd (srcDir p) src])
                written]
             (log st').
Proof.
  intros paramFilePath rest paramFile p z st' Hread Hparams H src Hin.
  pose proof (main_run _ _ _ _ _ _ Hread Hparams H) as Hrun.
  destruct (run_log p initial z st' Hrun)
    as [_ [s2 [s3 [s4 [banner [declarations [sources [metadata
         [_ [_ [_ [_ [_ [_ [_ [_ [Fs [_ Hlog]]]]]]]]]]]]]]]]]].
  destruct (Forall2_issued _ _ _ Fs src Hin)
    as [calls [[content [stamped [written [Hcontent [Hstamp [Hamend ->]]]]]] Hissued]].
  exists content, stamped, written.
  split; [exact Hcontent|]. split; [exact Hstamp|]. split; [exact Hamend|].
  rewrite Hlog. apply issued_skip, runCalls_issued. right. now left.
Qed.

(** X3. Take a run of [main] on the parameter file that gives the arguments
    [p], and let it come to its end. Every [.bundle_index.d.ts] file of the
    listing that the [.d.ts] filter selects has been read; with [dest] the
    path [moveBundleIndex] gives for it with the entry points the run ends
    with, the run has made the directory of [dest] and, as its very next
    storage call, has written the content to [dest], the [amd-module]
    expression replaced. *)
Theorem bundle_index_declarations_written :
  forall (paramFilePath : string) (rest : list string) (paramFile : string)
         (p : params) (z : Z) (st' : state),
    readFileSync paramFilePath = Ok paramFile ->
    parseParams paramFile = Ok p ->
    main (paramFilePath :: rest) = Ok (z, st') ->
    forall f,
      In f (shx_find (binDir p)) ->
      Packager.filter ".d.ts" f = true ->
      JS.endsWith f ".bundle_index.d.ts" = true ->
      exists content dest,
        readFileSync f = Ok content
        /\ moveBundleIndex p f st' = Ok (dest, st')
        /\ Spec.issued
             [Mkdir (Path.dirname dest);
              WriteFile dest (JS.replace content amdModuleRegex EmptyString)]
             (log st').
Proof.
  intros paramFilePath rest paramFile p z st' Hread Hparams H f Hin Hfilter Hindex.
  pose proof (main_run _ _ _ _ _ _ Hread Hparams H) as Hrun.
  destruct (run_log p initial z st' Hrun)
    as [_ [s2 [s3 [s4 [banner [declarations [sources [metadata
         [_ [_ [_ [_ [_ [_ [_ [Fd [_ [_ Hlog]]]]]]]]]]]]]]]]]].
  assert (Hsel : In f (List.filter (Packager.filter ".d.ts") (shx_find (binDir p))))
    by (apply filter_In; now split).
  destruct (Forall2_issued _ _ _ Fd f Hsel)
    as [calls [[content [dest [Hcontent [Hdest ->]]]] Hissued]].
  rewrite Hindex in Hdest.
  exists content, dest. split; [exact Hcontent|]. split; [exact Hdest|].
  rewrite Hlog. apply issued_skip, runCalls_issued. now left.
Qed.

(** X4. Take a run of [main] on the parameter file that gives the arguments
    [p], and let it come to its end. Every file of the listing of the
    build-output tree that the [.bundle_index.metadata.json] filter selects
    has been read and stamped by [replaceVersionPlaceholders], and the result
    has been written to the path [moveBundleIndex] gives for the file with
    the entry points the run ends with. *)
Theorem bundle_index_metadata_written :
  forall (paramFilePath : string) (rest : list string) (paramFile : string)
         (p : params) (z : Z) (st' : state),
    readFileSync paramFilePath = Ok paramFile ->
    parseParams paramFile = Ok p ->
    main (paramFilePath :: rest) = Ok (z, st') ->
    forall f,
      In f (shx_find (binDir p)) ->
      Packager.filter ".bundle_index.metadata.json" f = true ->
      exists content stamped dest,
        readFileSync f = Ok content
        /\ replaceVersionPlaceholders p f content = Ok stamped
        /\ moveBundleIndex p f st' = Ok (dest, st')
        /\ In (WriteFile dest stamped) (log st').
Proof.
  intros paramFilePath rest paramFile p z st' Hread Hparams H f Hin Hfilter.
  pose proof (main_run _ _ _ _ _ _ Hread Hparams H) as Hrun.
  destruct (run_log p initial z st' Hrun)
    as [_ [s2 [s3 [s4 [banner [declarations [sources [metadata
         [_ [_ [_ [_ [_ [_ [_ [_ [_ [Fm Hlog]]]]]]]]]]]]]]]]]].
  assert (Hsel : In f (List.filter (Packager.filter ".bundle_index.metadata.json")
                         (shx_find (binDir p))))
    by (apply filter_In; now split).
  destruct (Forall2_issued _ _ _ Fm f Hsel)
    as [calls [[content [stamped [dest [Hdest [Hcontent [Hstamp ->]]]]]] Hissued]].
  exists content, stamped, dest.
  split; [exact Hcontent|]. split; [exact Hstamp|]. split; [exact Hdest|].
  apply (issued_In [WriteFile dest stamped]); [|now left].
  rewrite Hlog. apply issued_skip, runCalls_issued. right. now right.
Qed.

End FinishedRuns.

(* ================================================================= *)
(** ** Further properties: the entry points a run ends with *)

Section EntryPointOrder.

Lemma filter_twice {A} (P Q : A -> bool) (l : list A) :
  List.filter P (List.filter Q l) = List.filter (fun y => Q y && P y) l.
Proof.
  induction l as [|x l IH]; [reflexivity|]. simpl.
  destruct (Q x); simpl; [destruct (P x); now rewrite IH|exact IH].
Qed.

Lemma filter_all {A} (l : list A) : List.filter (fun _ => true) l = l.
Proof. induction l as [|x l IH]; [reflexivity|]. simpl. now rewrite IH. Qed.

(** Adding the names of [l] to the set [s], one after the other, appends to
    [s] the names it lacks, in the order of their first occurrence. *)
Lemma fold_setAdd (l : list string) :
  forall s,
    fold_left (fun s n => setAdd n s) l s =
    (s ++ List.filter (fun n => negb (existsb (String.eqb n) s)) (Spec.distinct l))%list.
Proof.
  induction l as [|x r IH]; intros s; [simpl; now rewrite app_nil_r|].
  cbn [fold_left Spec.distinct List.filter]. rewrite IH. unfold setAdd.
  destruct (existsb (String.eqb x) s) eqn:E; cbn [negb].
  - f_equal. rewrite filter_twice. apply filter_ext. intros y.
    destruct (String.eqb x y) eqn:Exy; [|reflexivity].
    apply String.eqb_eq in Exy. subst y. now rewrite E.
  - rewrite <- app_assoc. cbn [app]. do 2 f_equal.
    rewrite filter_twice. apply filter_ext. intros y.
    rewrite existsb_app. cbn [existsb]. rewrite orb_false_r, negb_orb.
    rewrite (String.eqb_sym y x). apply andb_comm.
Qed.

Context {env : Env}.

(** A loop over FESM files once the primary entry point is known. *)
Lemma writeFesm_loop (baseDir q : string) (files : list string) :
  forall st st',
    primaryEntryPoint st = Some q ->
    forEach files (fun file => writeFesm file baseDir) st = Ok (tt, st') ->
    primaryEntryPoint st' = Some q
    /\ secondaryEntryPoints st' =
       fold_left (fun s n => setAdd n s)
         (List.filter (fun n => negb (String.eqb q n)) (map entryPointNameOf files))
         (secondaryEntryPoints st).
Proof.
  induction files as [|file files IH]; intros st st' Hq H.
  - injection H as <-. now split.
  - rewrite forEach_cons in H.
    destruct (writeFesm_step file baseDir q st Hq) as [st1 [H1 [Hq1 Hs1]]].
    rewrite H1 in H. destruct (IH st1 st' Hq1 H) as [Hq' Hs'].
    split; [exact Hq'|]. rewrite Hs', Hs1. cbn [map List.filter].
    now destruct (String.eqb q (entryPointNameOf file)).
Qed.

(** A loop over FESM files that starts with no entry point. *)
Lemma writeFesm_loop_initial (baseDir : string) (files : list string) :
  forall st st',
    primaryEntryPoint st = None ->
    secondaryEntryPoints st = [] ->
    forEach files (fun file => writeFesm file baseDir) st = Ok (tt, st') ->
    match map entryPointNameOf files with
    | [] => primaryEntryPoint st' = None /\ secondaryEntryPoints st' = []
    | q :: rest =>
        primaryEntryPoint st' = Some q
        /\ secondaryEntryPoints st' =
           fold_left (fun s n => setAdd n s)
             (List.filter (fun n => negb (String.eqb q n)) rest) []
    end.
Proof.
  intros st st' Hq Hs H. destruct files as [|file files].
  - injection H as <-. now split.
  - rewrite forEach_cons in H.
    destruct (writeFesm file baseDir st) as [[[] st1]|] eqn:E; [|discriminate].
    assert (H1 : primaryEntryPoint st1 = Some (entryPointNameOf file)
                 /\ secondaryEntryPoints st1 = []).
    { unfold writeFesm in E. rewrite Hq in E. injection E as <-. now split. }
    destruct H1 as [Hq1 Hs1].
    destruct (writeFesm_loop baseDir _ files st1 st' Hq1 H) as [Hq' Hs'].
    cbn [map]. split; [exact Hq'|]. now rewrite Hs', Hs1.
Qed.

(** X5. The entry points a run of [main] ends with, [p] being the arguments
    its parameter file gives: the primary entry point is the name of the
    first FESM file of [p], the ES2015 files coming before the ES5 ones, and
    is unset when [p] has no FESM file; the secondary entry points are the
    names of the later files that differ from the primary, each once, in the
    order of their first occurrence. *)
Theorem entry_points_of_run :
  forall (paramFilePath : string) (rest : list string) (paramFile : string)
         (p : params) (z : Z) (st' : state),
    readFileSync paramFilePath = Ok paramFile ->
    parseParams paramFile = Ok p ->
    main (paramFilePath :: rest) = Ok (z, st') ->
    match map entryPointNameOf (fesms2015 p ++ fesms5 p) with
    | [] => primaryEntryPoint st' = None /\ secondaryEntryPoints st' = []
    | q :: later =>
        primaryEntryPoint st' = Some q
        /\ secondaryEntryPoints st' =
           Spec.distinct (List.filter (fun n => negb (String.eqb q n)) later)
    end.
Proof.
  intros paramFilePath rest paramFile p z st' Hread Hparams H.
  pose proof (main_run _ _ _ _ _ _ Hread Hparams H) as Hrun.
  destruct (run_log p initial z st' Hrun)
    as [_ [s2 [s3 [s4 [banner [declarations [sources [metadata
         [Hq2 [Hs2 [H3 [H4 [Hq4 [Hs4 _]]]]]]]]]]]]]].
  cbn [initial primaryEntryPoint secondaryEntryPoints] in Hq2, Hs2.
  rewrite Hq4, Hs4.
  pose proof (writeFesm_loop_initial _ _ _ _ Hq2 Hs2 H3) as Hfirst.
  rewrite map_app.
  destruct (map entryPointNameOf (fesms2015 p)) as [|q later] eqn:E.
  - destruct Hfirst as [Hq3 Hs3]. cbn [app].
    pose proof (writeFesm_loop_initial _ _ _ _ Hq3 Hs3 H4) as Hsecond.
    destruct (map entryPointNameOf (fesms5 p)) as [|q later]; [exact Hsecond|].
    destruct Hsecond as [Hq Hs]. split; [exact Hq|].
    rewrite Hs, fold_setAdd. cbn [app existsb negb]. apply filter_all.
  - destruct Hfirst as [Hq3 Hs3]. cbn [app].
    destruct (writeFesm_loop _ q _ _ _ Hq3 H4) as [Hq Hs].
    split; [exact Hq|].
    rewrite Hs, Hs3, <- fold_left_app, <- filter_app, fold_setAdd.
    cbn [app existsb negb]. apply filter_all.
Qed.

End EntryPointOrder.

(* ================================================================= *)
(** ** Further properties: copies, FESM files and the order of the log *)

Section RunCopies.

Context {env : Env}.

(** X6. A run of [main] that comes to its end returns 0. With [p] the
    arguments its parameter file gives: the first storage call makes the
    output root; the next one copies the README to [<out>/README.md] when one
    is named; the directory [<out>/bundles] is made and, as the very next
    storage calls, every bundle is copied into it, in the order of the
    list. *)
Theorem copies_made :
  forall (paramFilePath : string) (rest : list string) (paramFile : string)
         (p : params) (z : Z) (st' : state),
    readFileSync paramFilePath = Ok paramFile ->
    parseParams paramFile = Ok p ->
    main (paramFilePath :: rest) = Ok (z, st') ->
    z = 0%Z
    /\ (exists later,
           log st' =
           (Mkdir (out p)
            :: (if truthy (Some (readmeMd p))
                then [Cp (readmeMd p) (Path.join [out p; "README.md"])]
                else [])
            ++ later)%list)
    /\ Spec.issued
         (Mkdir (Path.join [out p; "bundles"])
          :: map (fun bundle => Cp bundle (Path.join [out p; "bundles"])) (bundles p))
         (log st').
Proof.
  intros paramFilePath rest paramFile p z st' Hread Hparams H.
  pose proof (main_run _ _ _ _ _ _ Hread Hparams H) as Hrun.
  destruct (run_log p initial z st' Hrun)
    as [Hz [s2 [s3 [s4 [banner [declarations [sources [metadata
         [_ [_ [_ [_ [_ [_ [_ [_ [_ [_ Hlog]]]]]]]]]]]]]]]]]].
  split; [exact Hz|]. rewrite Hlog. cbn [initial log app]. unfold Spec.runCalls.
  split; [eexists; reflexivity|].
  apply issued_cons. do 3 apply issued_skip.
  change (Mkdir (Path.join [out p; "bundles"])
          :: map (fun bundle => Cp bundle (Path.join [out p; "bundles"])) (bundles p)
          ++ ?x)%list
    with ((Mkdir (Path.join [out p; "bundles"])
           :: map (fun bundle => Cp bundle (Path.join [out p; "bundles"])) (bundles p))
          ++ x)%list.
  apply issued_here.
Qed.

(** X7. Take a run of [main] on the parameter file that gives the arguments
    [p], and let it come to its end. For every ES2015 FESM file of [p], under
    [<out>/esm2015], and every ES5 FESM file, under [<out>/esm5], the run has
    issued three storage calls one after the other: it has made the directory
    given by the parts of the base name before the last [__], has copied the
    file into it, and has moved the copy to the name after the last [__]. *)
Theorem fesms_placed :
  forall (paramFilePath : string) (rest : list string) (paramFile : string)
         (p : params) (z : Z) (st' : state),
    readFileSync paramFilePath = Ok paramFile ->
    parseParams paramFile = Ok p ->
    main (paramFilePath :: rest) = Ok (z, st') ->
    forall file baseDir,
      (In file (fesms2015 p) /\ baseDir = Path.join [out p; "esm2015"])
      \/ (In file (fesms5 p) /\ baseDir = Path.join [out p; "esm5"]) ->
      let parts := JS.split (Path.basename file) "__" in
      let dir := Path.join (baseDir :: JS.slice_init parts) in
      Spec.issued
        [Mkdir dir;
         Cp file dir;
         Mv (Path.join [dir; Path.basename file])
            (Path.join [dir; template (JS.pop parts)])]
        (log st').
Proof.
  intros paramFilePath rest paramFile p z st' Hread Hparams H file baseDir Hfile
    parts dir.
  pose proof (main_run _ _ _ _ _ _ Hread Hparams H) as Hrun.
  destruct (run_log p initial z st' Hrun)
    as [_ [s2 [s3 [s4 [banner [declarations [sources [metadata
         [_ [_ [_ [_ [_ [_ [_ [_ [_ [_ Hlog]]]]]]]]]]]]]]]]]].
  rewrite Hlog. apply issued_skip. unfold Spec.runCalls.
  apply issued_cons, issued_skip.
  change [Mkdir dir; Cp file dir;
          Mv (Path.join [dir; Path.basename file])
             (Path.join [dir; template (JS.pop parts)])]
    with (Spec.fesmCalls baseDir file).
  destruct Hfile as [[Hin ->]|[Hin ->]].
  - apply issued_before. now apply flat_map_issued.
  - apply issued_skip, issued_before. now apply flat_map_issued.
Qed.

(** X8. The redirects are the last thing a run of [main] writes, [p] being
    the arguments its parameter file gives: its log ends with the two
    redirecting files of each secondary entry point, in the order of the
    secondary set, and these are writes only, no directory is made for them;
    the license banner is the content of the license file when one is named
    and empty otherwise. *)
Theorem redirects_come_last :
  forall (paramFilePath : string) (rest : list string) (paramFile : string)
         (p : params) (z : Z) (st' : state),
    readFileSync paramFilePath = Ok paramFile ->
    parseParams paramFile = Ok p ->
    main (paramFilePath :: rest) = Ok (z, st') ->
    exists licenseBanner earlier,
      (if truthy (licenseFile p)
       then readFileSync (template (licenseFile p)) = Ok licenseBanner
       else licenseBanner = EmptyString)
      /\ log st' =
         (earlier
          ++ flat_map
               (fun name =>
                  let baseName := template (JS.pop (JS.split name "/")) in
                  let dirName := Path.join (JS.slice_init (JS.split name "/")) in
                  [WriteFile
                     (Path.join [out p; dirName; (baseName ++ ".metadata.json")%string])
                     (redirectMetadata baseName);
                   WriteFile (Path.join [out p; dirName; (baseName ++ ".d.ts")%string])
                     (redirectDeclaration licenseBanner baseName)])
               (secondaryEntryPoints st'))%list.
Proof.
  intros paramFilePath rest paramFile p z st' Hread Hparams H.
  pose proof (main_run _ _ _ _ _ _ Hread Hparams H) as Hrun.
  destruct (run_log p initial z st' Hrun)
    as [_ [s2 [s3 [s4 [banner [declarations [sources [metadata
         [_ [_ [_ [_ [_ [_ [Hbanner [_ [_ [_ Hlog]]]]]]]]]]]]]]]]]].
  exists banner.
  exists (Mkdir (out p)
          :: (if truthy (Some (readmeMd p))
              then [Cp (readmeMd p) (Path.join [out p; "README.md"])]
              else [])
          ++ flat_map (Spec.fesmCalls (Path.join [out p; "esm2015"])) (fesms2015 p)
          ++ flat_map (Spec.fesmCalls (Path.join [out p; "esm5"])) (fesms5 p)
          ++ Mkdir (Path.join [out p; "bundles"])
          :: map (fun bundle => Cp bundle (Path.join [out p; "bundles"])) (bundles p)
          ++ concat declarations ++ concat sources ++ concat metadata)%list.
  split; [exact Hbanner|].
  rewrite Hlog. cbn [initial log app]. unfold Spec.runCalls.
  change (fun name : string =>
            [WriteFile
               (Path.join [out p; Path.join (JS.slice_init (JS.split name "/"));
                           (template (JS.pop (JS.split name "/"))
                            ++ ".metadata.json")%string])
               (redirectMetadata (template (JS.pop (JS.split name "/"))));
             WriteFile
               (Path.join [out p; Path.join (JS.slice_init (JS.split name "/"));
                           (template (JS.pop (JS.split name "/")) ++ ".d.ts")%string])
               (redirectDeclaration banner (template (JS.pop (JS.split name "/"))))])
    with (Spec.redirectCalls p banner).
  repeat (rewrite <- app_assoc || rewrite <- app_comm_cons). reflexivity.
Qed.

(** X21. Every storage call of a run of [main] that comes to its end is
    accounted for, [p] being the arguments its parameter file gives. The log
    is, in this order and with nothing else in it: the output root made; the
    README copied when one is named; the three calls of [writeFesm] for each
    ES2015 and then each ES5 FESM file; [<out>/bundles] made and each bundle
    copied; for each selected declaration file a directory made and a file
    written; the same for each source; one file written for each selected
    bundle-index metadata file; two files written for each secondary entry
    point. What is written where is as [Spec.declarationCalls],
    [Spec.sourceCalls] and [Spec.metadataCalls] say. *)
Theorem storage_calls_of_run :
  forall (paramFilePath : string) (rest : list string) (paramFile : string)
         (p : params) (z : Z) (st' : state),
    readFileSync paramFilePath = Ok paramFile ->
    parseParams paramFile = Ok p ->
    main (paramFilePath :: rest) = Ok (z, st') ->
    exists licenseBanner declarations sources metadata,
      (if truthy (licenseFile p)
       then readFileSync (template (licenseFile p)) = Ok licenseBanner
       else licenseBanner = EmptyString)
      /\ Forall2 (Spec.declarationCalls p st')
           (List.filter (Packager.filter ".d.ts") (shx_find (binDir p)))
           declarations
      /\ Forall2 (Spec.sourceCalls p) (srcs p) sources
      /\ Forall2 (Spec.metadataCalls p st')
           (List.filter (Packager.filter ".bundle_index.metadata.json")
              (shx_find (binDir p)))
           metadata
      /\ log st' =
         (Mkdir (out p)
          :: (if truthy (Some (readmeMd p))
              then [Cp (readmeMd p) (Path.join [out p; "README.md"])]
              else [])
          ++ flat_map (Spec.fesmCalls (Path.join [out p; "esm2015"])) (fesms2015 p)
          ++ flat_map (Spec.fesmCalls (Path.join [out p; "esm5"])) (fesms5 p)
          ++ Mkdir (Path.join [out p; "bundles"])
          :: map (fun bundle => Cp bundle (Path.join [out p; "bundles"])) (bundles p)
          ++ concat declarations
          ++ concat sources
          ++ concat metadata
          ++ flat_map (Spec.redirectCalls p licenseBanner)
               (secondaryEntryPoints st'))%list.
Proof.
  intros paramFilePath rest paramFile p z st' Hread Hparams H.
  pose proof (main_run _ _ _ _ _ _ Hread Hparams H) as Hrun.
  destruct (run_log p initial z st' Hrun)
    as [_ [s2 [s3 [s4 [banner [declarations [sources [metadata
         [_ [_ [_ [_ [_ [_ [Hbanner [Fd [Fs [Fm Hlog]]]]]]]]]]]]]]]]]].
  exists banner, declarations, sources, metadata.
  split; [exact Hbanner|]. split; [exact Fd|]. split; [exact Fs|].
  split; [exact Fm|]. exact Hlog.
Qed.

End RunCopies.

(* ================================================================= *)
(** ** Further properties: the files of the build-output tree *)

Section Selection.

Lemma filter_false_of_suffix (ext f : string) :
  JS.endsWith f ext = false -> Packager.filter ext f = false.
Proof. intros H. unfold Packager.filter. now rewrite H. Qed.

Lemma generated_not_selected (f : string) :
  Spec.generated f = true ->
  Packager.filter ".d.ts" f = false
  /\ Packager.filter ".bundle_index.metadata.json" f = false.
Proof.
  unfold Spec.generated. intros H.
  apply orb_true_iff in H. destruct H as [H|H];
    [apply orb_true_iff in H; destruct H as [H|H];
       [apply orb_true_iff in H; destruct H as [H|H]|]|].
  - split.
    + unfold Packager.filter.
      change (".ngfactory" ++ ".d.ts") with ".ngfactory.d.ts". rewrite H.
      now rewrite andb_false_r.
    + apply filter_false_of_suffix.
      apply (endsWith_last_differs f ".ngfactory.d.t" ".bundle_index.metadata.jso"
               "s" "n"); [discriminate|exact H].
  - split.
    + unfold Packager.filter.
      change (".ngsummary" ++ ".d.ts") with ".ngsummary.d.ts". rewrite H.
      now rewrite andb_false_r.
    + apply filter_false_of_suffix.
      apply (endsWith_last_differs f ".ngsummary.d.t" ".bundle_index.metadata.jso"
               "s" "n"); [discriminate|exact H].
  - split.
    + apply filter_false_of_suffix.
      apply (endsWith_last_differs f ".ngfactory.bundle_index.metadata.jso" ".d.t"
               "n" "s"); [discriminate|exact H].
    + unfold Packager.filter.
      change (".ngfactory" ++ ".bundle_index.metadata.json")
        with ".ngfactory.bundle_index.metadata.json".
      rewrite H. now rewrite andb_false_r.
  - split.
    + apply filter_false_of_suffix.
      apply (endsWith_last_differs f ".ngsummary.bundle_index.metadata.jso" ".d.t"
               "n" "s"); [discriminate|exact H].
    + unfold Packager.filter.
      change (".ngsummary" ++ ".bundle_index.metadata.json")
        with ".ngsummary.bundle_index.metadata.json".
      rewrite H. now rewrite andb_false_r.
Qed.

Context {env : Env}.

(** X9. The files the Angular compiler generates ([.ngfactory] and
    [.ngsummary] declaration and bundle-index metadata files) are selected by
    neither filter of [main]. A run reads the listing of the build-output
    tree through the two filters only: with any set of files that neither
    filter selects left out of the listing, [main] does what it does with
    them in it. *)
Theorem unselected_files_ignored :
  (forall f : string,
      Spec.generated f = true ->
      Packager.filter ".d.ts" f = false
      /\ Packager.filter ".bundle_index.metadata.json" f = false)
  /\ (forall hidden : string -> bool,
         (forall f, hidden f = true ->
                    Packager.filter ".d.ts" f = false
                    /\ Packager.filter ".bundle_index.metadata.json" f = false) ->
         forall args : list string,
           main (env := Spec.hiding hidden env) args = main args).
Proof.
  split; [exact generated_not_selected|].
  intros hidden Hhidden [|paramFilePath args]; [reflexivity|].
  unfold main. cbn [readFileSync Spec.hiding].
  destruct (readFileSync paramFilePath) as [paramFile|]; [|reflexivity].
  destruct (parseParams paramFile) as [q|]; [|reflexivity].
  unfold run. cbn [shx_find Spec.hiding].
  rewrite !filter_hidden by (intros f Hf; now apply Hhidden in Hf).
  reflexivity.
Qed.

End Selection.

(* ================================================================= *)
(** ** Further properties: errors of [moveBundleIndex] *)

Section BundleIndexErrors.

Context {env : Env}.
Variable p : params.

(** X10. [moveBundleIndex] throws exactly for a path that ends neither in
    [.d.ts] nor in [.metadata.json], and then with the message of line 94;
    for every other path it returns, whatever the entry points are. *)
Theorem moveBundleIndex_throws :
  forall (f : string) (st : state) (e : error),
    moveBundleIndex p f st = Throw e <->
    JS.endsWith f ".d.ts" = false
    /\ JS.endsWith f ".metadata.json" = false
    /\ e = Error "Bundle index files should be .d.ts or .metadata.json".
Proof.
  intros f st e. unfold moveBundleIndex.
  destruct (JS.endsWith f ".d.ts");
    [|destruct (JS.endsWith f ".metadata.json")].
  - destruct (truthy _); split; [discriminate|intros [H _]; discriminate
                                |discriminate|intros [H _]; discriminate].
  - destruct (truthy _); split;
      [discriminate|intros [_ [H _]]; discriminate
      |discriminate|intros [_ [H _]]; discriminate].
  - split.
    + intros H. injection H as <-. now repeat split.
    + intros [_ [_ ->]]. reflexivity.
Qed.

(** X11. [main] hands to [moveBundleIndex] the files ending in
    [.bundle_index.d.ts] and the files its filter for
    [.bundle_index.metadata.json] selects: for these the function returns a
    path and leaves the state as it is, so the error of line 94 is never
    thrown in a run. *)
Theorem moveBundleIndex_returns_in_run :
  forall (f : string) (st : state),
    JS.endsWith f ".bundle_index.d.ts" = true
    \/ Packager.filter ".bundle_index.metadata.json" f = true ->
    exists dest, moveBundleIndex p f st = Ok (dest, st) /\ dest <> EmptyString.
Proof.
  intros f st Hf.
  assert (Hext : exists ext, bundleIndexExt f ext).
  { destruct (JS.endsWith f ".d.ts") eqn:Ed.
    - exists ".d.ts". left. now split.
    - exists ".metadata.json". right. split; [exact Ed|]. split; [|reflexivity].
      destruct Hf as [Hf|Hf].
      + apply endsWith_iff in Hf. destruct Hf as [t ->].
        rewrite (endsWith_append t ".bundle_index.d.ts" ".d.ts") in Ed;
          [discriminate|reflexivity].
      + unfold Packager.filter in Hf. apply andb_true_iff in Hf.
        destruct Hf as [Hf _]. apply andb_true_iff in Hf. destruct Hf as [Hf _].
        apply endsWith_iff in Hf. destruct Hf as [t ->].
        apply (endsWith_append t ".bundle_index.metadata.json" ".metadata.json").
        reflexivity. }
  destruct Hext as [ext Hext]. rewrite (moveBundleIndex_ext p f ext st Hext).
  cbv zeta.
  destruct (bundleIndexLoop p (Path.relative cwd (binDir p) f) ext
              (secondaryEntryPoints st) None) as [[|c r]|] eqn:E; cbn [truthy].
  - eexists. split; [reflexivity|apply join_nonempty].
  - eexists. split; [reflexivity|]. cbn [template]. discriminate.
  - eexists. split; [reflexivity|apply join_nonempty].
Qed.

End BundleIndexErrors.

Lemma moveBundleIndex_returns_in_run_witness :
  (JS.endsWith "/bin/core/core.bundle_index.d.ts" ".bundle_index.d.ts" = true
   \/ Packager.filter ".bundle_index.metadata.json"
        "/bin/core/core.bundle_index.d.ts" = true)
  /\ exists dest,
       moveBundleIndex (env := Examples.nestedEnv) Examples.nestedParams
         "/bin/core/core.bundle_index.d.ts" Examples.nestedState
       = Ok (dest, Examples.nestedState)
       /\ dest <> EmptyString.
Proof.
  split; [left; reflexivity|].
  apply (moveBundleIndex_returns_in_run (env := Examples.nestedEnv)
           Examples.nestedParams).
  left. reflexivity.
Defined.

(* ================================================================= *)
(** ** Further properties: failures and repetition of [amendPackageJson] *)

Section DescriptorErrors.

Import JSON.

(** The first segment of a name starts with [@] when the name does, and it
    is the only segment when the name has no slash. *)
Lemma split_slash_head (name : string) :
  exists first others,
    JS.split name "/" = first :: others
    /\ JS.startsWith first "@" = JS.startsWith name "@"
    /\ (others = [] <-> Spec.lacks "/" name = true).
Proof.
  unfold JS.split. induction name as [|c r IH].
  - exists EmptyString, []. now repeat split.
  - rewrite splitOn_char_cons. destruct IH as [h [t [E [Hstart Hothers]]]].
    rewrite E. unfold Spec.lacks. cbn [Spec.all].
    destruct (c =? "/")%char eqn:Ec.
    + apply Ascii.eqb_eq in Ec. subst c.
      exists EmptyString, (h :: t). split; [reflexivity|].
      split; [reflexivity|]. split; discriminate.
    + exists (String c h), t. split; [reflexivity|]. split.
      * unfold JS.startsWith. now rewrite !prefix_cons, !prefix_empty.
      * exact Hothers.
Qed.

(** The name segments left once the scope is dropped: none exactly for a
    name that is a scope alone. *)
Lemma dropScope_empty (name : string) :
  dropScope (JS.split name "/") = []
  <-> JS.startsWith name "@" && Spec.lacks "/" name = true.
Proof.
  destruct (split_slash_head name) as [first [others [E [Hstart Hothers]]]].
  rewrite E. unfold dropScope. rewrite Hstart.
  destruct (JS.startsWith name "@"); cbn [andb].
  - exact Hothers.
  - split; discriminate.
Qed.


Context {env : Env}.

(** X12. How [amendPackageJson] ends. An error of [JSON.parse] is passed on.
    A document that is no object, or whose [name] is missing or no string,
    gives a [TypeError]. A name that is a scope alone (it starts with [@] and
    has no slash) leaves no name segment and gives a [RangeError]. In every
    other case a text is returned. *)
Theorem amendPackageJson_outcome :
  forall (filePath content : string),
    match JSON_parse content with
    | Throw e => amendPackageJson filePath content = Throw e
    | Ok parsedPackage =>
        match Spec.packageName parsedPackage with
        | None => amendPackageJson filePath content = Throw TypeError
        | Some name =>
            if JS.startsWith name "@" && Spec.lacks "/" name
            then amendPackageJson filePath content = Throw RangeError
            else exists text, amendPackageJson filePath content = Ok text
        end
    end.
Proof.
  intros filePath content. unfold amendPackageJson.
  destruct (JSON_parse content) as [parsedPackage|e]; [|reflexivity].
  destruct parsedPackage as [| | | | |members]; try reflexivity.
  unfold Spec.packageName, amendParsedPackage.
  destruct (lookup "name" members) as [[| | |name| |]|]; try reflexivity.
  pose proof (dropScope_empty name) as Hscope.
  destruct (JS.startsWith name "@" && Spec.lacks "/" name).
  - rewrite (proj2 Hscope eq_refl). reflexivity.
  - destruct (dropScope (JS.split name "/")) as [|seg segs].
    + discriminate (proj1 Hscope eq_refl).
    + eexists. reflexivity.
Qed.


End DescriptorErrors.


(* ================================================================= *)
(** ** Further properties: the parameter file *)

Section ParameterFile.

(** Splitting at a character undoes joining with it, for pieces without that
    character. *)
Lemma split_join_char (x : ascii) (items : list string) :
  items <> [] ->
  (forall s, In s items -> Spec.lacks x s = true) ->
  JS.split (JS.join items (String x EmptyString)) (String x EmptyString) = items.
Proof.
  induction items as [|a items IH]; [congruence|]. intros _ Hitems.
  destruct items as [|b items].
  - apply split_char_one. apply Hitems. now left.
  - change (JS.join (a :: b :: items) (String x EmptyString))
      with (a ++ String x (JS.join (b :: items) (String x EmptyString))).
    rewrite split_char_append, split_char_one by (apply Hitems; now left).
    rewrite IH; [reflexivity|discriminate|].
    intros s Hs. apply Hitems. now right.
Qed.

Lemma filter_nonempty (items : list string) :
  (forall s, In s items -> s <> EmptyString) ->
  List.filter (fun s => negb (JSON.isEmpty s)) items = items.
Proof.
  induction items as [|a items IH]; [reflexivity|]. intros H. cbn [List.filter].
  destruct a as [|c r]; [now elim (H EmptyString (or_introl eq_refl))|].
  cbn [JSON.isEmpty negb]. rewrite IH; [reflexivity|].
  intros s Hs. apply H. now right.
Qed.

(** X14. A list argument of the parameter file: [listArg] reads a list of
    names back from its comma-joined text exactly when every name is
    non-empty and free of commas; these are the only lists it returns. *)
Theorem listArg_round_trip :
  forall items : list string,
    listArg (JS.join items ",") = items
    <-> (forall s, In s items -> s <> EmptyString /\ Spec.lacks "," s = true).
Proof.
  intros items. split.
  - intros H s Hs. rewrite <- H in Hs. unfold listArg in Hs.
    apply filter_In in Hs. destruct Hs as [Hs Hne]. split.
    + intros ->. discriminate.
    + exact (split_char_lacks "," _ s Hs).
  - intros H. unfold listArg. destruct items as [|a items]; [reflexivity|].
    rewrite (split_join_char "," (a :: items)); [|discriminate|intros s Hs; now apply H].
    apply filter_nonempty. intros s Hs. now apply H.
Qed.

(** X15. The parameter file is read line by line: for lines free of line
    feeds, [parseParams] on their join gives the arguments the lines stand
    for, a line [''] standing for the empty string; fewer than eight lines
    give a [TypeError], and [stampData] and [licenseFile] are [undefined]
    when the ninth and tenth line are missing. *)
Theorem parseParams_of_lines :
  forall lines : list string,
    lines <> [] ->
    (forall line, In line lines -> Spec.lacks "010" line = true) ->
    parseParams (JS.join lines JSON.nl) =
    match map Spec.unquoted lines with
    | out :: srcDir :: binDir :: readmeMd :: fesms2015Arg :: fesms5Arg
        :: bundlesArg :: srcsArg :: rest =>
        Ok (mkParams out srcDir binDir readmeMd
              (listArg fesms2015Arg) (listArg fesms5Arg)
              (listArg bundlesArg) (listArg srcsArg)
              (List.nth_error rest 0) (List.nth_error rest 1))
    | _ => Throw TypeError
    end.
Proof.
  intros lines Hne Hlines. unfold parseParams, JSON.nl.
  rewrite (split_join_char "010" lines Hne Hlines). reflexivity.
Qed.

End ParameterFile.

Lemma parseParams_of_lines_witness :
  ["/out"; "/src"; "/bin"; "''"; "core.js,core__testing.js"; "''"; "''"; "''"] <> []
  /\ (forall line,
         In line ["/out"; "/src"; "/bin"; "''"; "core.js,core__testing.js";
                  "''"; "''"; "''"] ->
         Spec.lacks "010" line = true)
  /\ parseParams
       (JS.join ["/out"; "/src"; "/bin"; "''"; "core.js,core__testing.js";
                 "''"; "''"; "''"] JSON.nl)
     = Ok (mkParams "/out" "/src" "/bin" EmptyString ["core.js"; "core__testing.js"]
             [] [] [] None None).
Proof.
  assert (Hne : ["/out"; "/src"; "/bin"; "''"; "core.js,core__testing.js";
                 "''"; "''"; "''"] <> []) by discriminate.
  assert (Hlines : forall line,
             In line ["/out"; "/src"; "/bin"; "''"; "core.js,core__testing.js";
                      "''"; "''"; "''"] ->
             Spec.lacks "010" line = true).
  { intros line H. repeat (destruct H as [<-|H]; [reflexivity|]). destruct H. }
  split; [exact Hne|]. split; [exact Hlines|].
  exact (parseParams_of_lines _ Hne Hlines).
Defined.

(* ================================================================= *)
(** ** Further properties: a FESM file without [__] in its name *)

Section FlatFesm.

Lemma split_without_separator (x : ascii) (q s : string) :
  Spec.contains (String x q) s = false -> JS.split s (String x q) = [s].
Proof.
  unfold JS.split. induction s as [|c r IH]; intros H; [reflexivity|].
  cbn [Spec.contains] in H. apply orb_false_iff in H. destruct H as [Hprefix Hrest].
  rewrite splitOn_cons, Hprefix, (IH Hrest). reflexivity.
Qed.

Context {env : Env}.

(** X16. A FESM file whose base name has no [__] names an entry point of one
    segment: [writeFesm] makes the base directory itself, copies the file
    into it, and the move it then issues has the same path as source and as
    destination. *)
Theorem writeFesm_flat :
  forall (file baseDir : string) (st : state),
    Spec.contains "__" (Path.basename file) = false ->
    exists st',
      writeFesm file baseDir st = Ok (tt, st')
      /\ log st' =
         (log st
          ++ [Mkdir (Path.join [baseDir]);
              Cp file (Path.join [baseDir]);
              Mv (Path.join [Path.join [baseDir]; Path.basename file])
                 (Path.join [Path.join [baseDir]; Path.basename file])])%list.
Proof.
  intros file baseDir st H. unfold writeFesm.
  rewrite (split_without_separator "_" "_" _ H).
  eexists. split; reflexivity.
Qed.

End FlatFesm.

Lemma writeFesm_flat_witness :
  Spec.contains "__" (Path.basename "bazel-bin/core.js") = false
  /\ exists st',
       writeFesm "bazel-bin/core.js" "/out/esm5" initial = Ok (tt, st')
       /\ log st' =
          (log initial
           ++ [Mkdir (Path.join ["/out/esm5"]);
               Cp "bazel-bin/core.js" (Path.join ["/out/esm5"]);
               Mv (Path.join [Path.join ["/out/esm5"];
                              Path.basename "bazel-bin/core.js"])
                  (Path.join [Path.join ["/out/esm5"];
                              Path.basename "bazel-bin/core.js"])])%list.
Proof.
  split; [reflexivity|].
  exact (writeFesm_flat "bazel-bin/core.js" "/out/esm5" initial eq_refl).
Defined.

(* ================================================================= *)
(** ** Further properties: the [amd-module] line of a declaration file *)

Section AmdModule.

Local Arguments Ascii.eqb : simpl nomatch.
Local Arguments JS.lineTerminator : simpl never.

Lemma matchHere_lits (a : string) (re : list JS.atom) (s : string) :
  JS.matchHere (JS.lits a ++ re)%list (a ++ s) =
  option_map (Nat.add (String.length a)) (JS.matchHere re s).
Proof.
  induction a as [|c a IH]; cbn [JS.lits app String.append JS.matchHere String.length].
  - now destruct (JS.matchHere re s).
  - rewrite Ascii.eqb_refl, IH. now destruct (JS.matchHere re s).
Qed.

Lemma matchHere_lits_prefix (a : string) (re : list JS.atom) :
  forall s n,
    JS.matchHere (JS.lits a ++ re)%list s = Some n -> String.prefix a s = true.
Proof.
  induction a as [|c a IH]; intros s n H; [apply prefix_empty|].
  cbn [JS.lits app JS.matchHere] in H. destruct s as [|d s]; [discriminate|].
  rewrite prefix_cons. destruct (c =? d)%char; [|discriminate].
  destruct (JS.matchHere (JS.lits a ++ re)%list s) as [m|] eqn:E; [|discriminate].
  now rewrite (IH s m E).
Qed.

(** The greedy [.*] before [/>] and a line feed stops at the end of the
    first line. *)
Lemma matchHere_to_line_end (name rest : string) :
  Spec.noLineTerminator name = true ->
  JS.matchHere ([JS.AnyStar] ++ JS.lits "/>" ++ [JS.Lit "010"])%list
    (name ++ "/>" ++ JSON.nl ++ rest)
  = Some (String.length name + 3).
Proof.
  unfold Spec.noLineTerminator. induction name as [|c name IH]; intros H.
  - cbn. reflexivity.
  - cbn [Spec.all] in H. apply andb_true_iff in H. destruct H as [Hc H].
    apply negb_true_iff in Hc. specialize (IH H).
    cbn [app JS.lits JS.matchHere String.append String.length Nat.add] in IH |- *.
    rewrite Hc, IH. reflexivity.
Qed.

Lemma amd_line_matched (name rest : string) :
  Spec.noLineTerminator name = true ->
  JS.matchHere (JS.atoms amdModuleRegex) (Spec.amdModuleLine name ++ rest)
  = Some (String.length (Spec.amdModuleLine name)).
Proof.
  intros Hname.
  assert (Hs : (Spec.amdModuleLine name ++ rest)
               = ("/// <amd-module name=" ++ (name ++ "/>" ++ JSON.nl ++ rest))).
  { unfold Spec.amdModuleLine. rewrite !append_assoc. reflexivity. }
  rewrite Hs.
  change (JS.atoms amdModuleRegex)
    with (JS.lits "/// <amd-module name="
            ++ ([JS.AnyStar] ++ JS.lits "/>" ++ [JS.Lit "010"]))%list.
  rewrite matchHere_lits, (matchHere_to_line_end name rest Hname).
  unfold Spec.amdModuleLine. cbn [option_map]. f_equal.
  rewrite !length_append. cbn. lia.
Qed.

Lemma drop_all (a b : string) : JS.drop (String.length a) (a ++ b) = b.
Proof. induction a as [|c a IH]; [reflexivity|exact IH]. Qed.

(** X17. The declaration files lose their [amd-module] line: a content that
    begins with [/// <amd-module name=], a name without line terminator,
    [/>] and a line feed is written without this first line; a content that
    does not begin with [/// <amd-module name=] is written as it is, also
    when such a line stands further down. *)
Theorem amd_module_line_stripped :
  (forall name rest : string,
      Spec.noLineTerminator name = true ->
      JS.replace (Spec.amdModuleLine name ++ rest) amdModuleRegex EmptyString = rest)
  /\ (forall content : string,
         JS.startsWith content "/// <amd-module name=" = false ->
         JS.replace content amdModuleRegex EmptyString = content).
Proof.
  split.
  - intros name rest Hname. unfold JS.replace.
    change (JS.anchored amdModuleRegex) with true. cbv iota.
    rewrite (amd_line_matched name rest Hname). cbn [JS.expand String.append].
    apply drop_all.
  - intros content H. unfold JS.replace.
    change (JS.anchored amdModuleRegex) with true. cbv iota.
    change (JS.atoms amdModuleRegex)
      with (JS.lits "/// <amd-module name="
              ++ ([JS.AnyStar] ++ JS.lits "/>" ++ [JS.Lit "010"]))%list.
    destruct (JS.matchHere _ content) as [n|] eqn:E; [|reflexivity].
    apply matchHere_lits_prefix in E. unfold JS.startsWith in H. congruence.
Qed.

End AmdModule.

(* ================================================================= *)
(** ** Further properties: stamping *)

Section Stamping.

Local Arguments Ascii.eqb : simpl nomatch.
Local Arguments JS.lineTerminator : simpl never.

Lemma contains_drop (sub : string) :
  forall k s, String.prefix sub (JS.drop k s) = true -> Spec.contains sub s = true.
Proof.
  induction k as [|k IH]; intros s H.
  - destruct s; cbn [JS.drop] in H; cbn [Spec.contains]; rewrite H; reflexivity.
  - destruct s as [|c r].
    + cbn [JS.drop] in H. cbn [Spec.contains]. rewrite H. reflexivity.
    + cbn [JS.drop] in H. cbn [Spec.contains]. rewrite (IH r H). apply orb_true_r.
Qed.

Lemma matchHere_step (a : JS.atom) (re : list JS.atom) (s : string) (n : nat) :
  a <> JS.AnyStar ->
  JS.matchHere (a :: re) s = Some n ->
  exists c r m, s = String c r /\ JS.matchHere re r = Some m.
Proof.
  intros Ha H. destruct a as [c| |]; [| |congruence];
    cbn [JS.matchHere] in H; destruct s as [|d r]; try discriminate.
  - destruct (c =? d)%char; [|discriminate].
    destruct (JS.matchHere re r) as [m|] eqn:E; [|discriminate]. now exists d, r, m.
  - destruct (JS.lineTerminator d); [discriminate|].
    destruct (JS.matchHere re r) as [m|] eqn:E; [|discriminate]. now exists d, r, m.
Qed.

(** A match of the placeholder expression has [-PLACEHOLDER] in it. *)
Lemma placeholder_match_contains (s : string) (n : nat) :
  JS.matchHere placeholderRegex s = Some n ->
  Spec.contains "-PLACEHOLDER" s = true.
Proof.
  unfold placeholderRegex. cbn [app]. intros H.
  apply matchHere_step in H; [|discriminate]. destruct H as [c1 [r1 [m1 [-> H]]]].
  apply matchHere_step in H; [|discriminate]. destruct H as [c2 [r2 [m2 [-> H]]]].
  apply matchHere_step in H; [|discriminate]. destruct H as [c3 [r3 [m3 [-> H]]]].
  apply matchHere_step in H; [|discriminate]. destruct H as [c4 [r4 [m4 [-> H]]]].
  apply matchHere_step in H; [|discriminate]. destruct H as [c5 [r5 [m5 [-> H]]]].
  apply (contains_drop "-PLACEHOLDER" 5). cbn [JS.drop].
  apply (matchHere_lits_prefix "-PLACEHOLDER" [] r5 m5).
  rewrite app_nil_r. exact H.
Qed.

Lemma matchFree_placeholder (s : string) :
  Spec.contains "-PLACEHOLDER" s = false ->
  Spec.matchFree placeholderRegex s = true.
Proof.
  induction s as [|c r IH]; intros H; [reflexivity|].
  cbn [Spec.matchFree].
  destruct (JS.matchHere placeholderRegex (String c r)) as [n|] eqn:E.
  - apply placeholder_match_contains in E. congruence.
  - apply IH. cbn [Spec.contains] in H. now apply orb_false_iff in H.
Qed.

Context {env : Env}.
Variable p : params.

(** X18. Stamping needs a version: with stamp data whose
    [BUILD_SCM_VERSION] line, as [grep] gives it, has no space in it, there
    is no second field to trim and [replaceVersionPlaceholders] ends with a
    [TypeError], whatever the content. *)
Theorem replaceVersionPlaceholders_without_version :
  forall (filePath content : string),
    truthy (stampData p) = true ->
    Spec.lacks " " (shx_grep "BUILD_SCM_VERSION" (template (stampData p))) = true ->
    replaceVersionPlaceholders p filePath content = Throw TypeError.
Proof.
  intros filePath content Hstamp Hline. unfold replaceVersionPlaceholders.
  rewrite Hstamp, (split_char_one " " _ Hline). reflexivity.
Qed.

(** X19. Stamping touches placeholders only: a content in which the text
    [-PLACEHOLDER] does not occur is returned as it is whenever
    [replaceVersionPlaceholders] returns, whatever the version. *)
Theorem replaceVersionPlaceholders_leaves_plain_content :
  forall (filePath content stamped : string),
    Spec.contains "-PLACEHOLDER" content = false ->
    replaceVersionPlaceholders p filePath content = Ok stamped ->
    stamped = content.
Proof.
  intros filePath content stamped Hplain H. unfold replaceVersionPlaceholders in H.
  destruct (truthy (stampData p)); [|now injection H as <-].
  destruct (List.nth_error _ 1) as [field|]; [|discriminate].
  injection H as <-. unfold JS.replaceAll.
  apply replaceAllFrom_matchFree, matchFree_placeholder, Hplain.
Qed.

End Stamping.

Section PlaceholderDots.

Local Arguments Ascii.eqb : simpl nomatch.
Local Arguments JS.lineTerminator : simpl never.

(** X20. The dots of the placeholder expression are not escaped: with any
    two characters other than line terminators in place of the dots of
    [0.0.0-PLACEHOLDER], the text is replaced by the version all the same,
    for a version free of [$]. *)
Theorem placeholder_dots_match_any :
  forall (version b : string) (x y : ascii),
    Spec.lacks "$" version = true ->
    JS.lineTerminator x = false ->
    JS.lineTerminator y = false ->
    JS.replaceAll
      (String "0" (String x (String "0" (String y ("0-PLACEHOLDER" ++ b)))))
      placeholderRegex version
    = (version ++ JS.replaceAll b placeholderRegex version).
Proof.
  intros version b x y Hv Hx Hy. unfold JS.replaceAll.
  rewrite (replaceAllFrom_match placeholderRegex version _ _ 16).
  - rewrite expand_plain by exact Hv. f_equal.
    apply replaceAllFrom_before, Hv.
  - unfold placeholderRegex. cbn. rewrite Hx, Hy. reflexivity.
Qed.

End PlaceholderDots.

Lemma replaceVersionPlaceholders_without_version_witness :
  truthy (stampData Examples.stampedParams) = true
  /\ Spec.lacks " "
       (shx_grep (Env := Examples.fooEnv) "BUILD_SCM_VERSION"
          (template (stampData Examples.stampedParams))) = true
  /\ replaceVersionPlaceholders (env := Examples.fooEnv) Examples.stampedParams
       "/src/index.ts" "export {};"
     = Throw TypeError.
Proof.
  split; [reflexivity|]. split; [reflexivity|].
  exact (replaceVersionPlaceholders_without_version (env := Examples.fooEnv)
           Examples.stampedParams "/src/index.ts" "export {};" eq_refl eq_refl).
Defined.

Lemma replaceVersionPlaceholders_leaves_plain_content_witness :
  Spec.contains "-PLACEHOLDER" "version 0.0.0" = false
  /\ replaceVersionPlaceholders (env := Examples.stampedEnv) Examples.stampedParams
       "/src/index.ts" "version 0.0.0"
     = Ok "version 0.0.0"
  /\ "version 0.0.0" = "version 0.0.0".
Proof.
  split; [reflexivity|]. split; [reflexivity|].
  exact (replaceVersionPlaceholders_leaves_plain_content
           (env := Examples.stampedEnv) Examples.stampedParams
           "/src/index.ts" "version 0.0.0" "version 0.0.0" eq_refl eq_refl).
Defined.

Lemma placeholder_dots_match_any_witness :
  Spec.lacks "$" "10.0.0" = true
  /\ JS.lineTerminator "1" = false
  /\ JS.lineTerminator "2" = false
  /\ JS.replaceAll "01020-PLACEHOLDER" placeholderRegex "10.0.0" = "10.0.0".
Proof.
  split; [reflexivity|]. split; [reflexivity|]. split; [reflexivity|].
  exact (placeholder_dots_match_any "10.0.0" EmptyString "1" "2"
           eq_refl eq_refl eq_refl).
Defined.

(* ================================================================= *)
(** ** Further properties: the run of a package, as an instance *)

Lemma declarations_written_witness :
  readFileSync (Env := Examples.packageEnv) "/params" = Ok Examples.packageParamFile
  /\ parseParams Examples.packageParamFile = Ok Examples.packageParams
  /\ main (env := Examples.packageEnv) ["/params"] = Ok (0%Z, Examples.packageRun)
  /\ forall f,
       In f (shx_find (Env := Examples.packageEnv) (binDir Examples.packageParams)) ->
       Spec.declarationArtifact f = true ->
       exists content,
         readFileSync (Env := Examples.packageEnv) f = Ok content
         /\ Spec.issued
              [Mkdir (Path.dirname
                        (Path.join
                           [out Examples.packageParams;
                            Path.relative (cwd (Env := Examples.packageEnv))
                              (binDir Examples.packageParams) f]));
               WriteFile
                 (Path.join
                    [out Examples.packageParams;
                     Path.relative (cwd (Env := Examples.packageEnv))
                       (binDir Examples.packageParams) f])
                 (JS.replace content amdModuleRegex EmptyString)]
              (log Examples.packageRun).
Proof.
  split; [reflexivity|]. split; [vm_compute; reflexivity|]. split; [vm_compute; reflexivity|].
  apply (declarations_written (env := Examples.packageEnv) "/params" []
           Examples.packageParamFile Examples.packageParams 0%Z Examples.packageRun);
    vm_compute; reflexivity.
Defined.

Lemma sources_written_witness :
  readFileSync (Env := Examples.packageEnv) "/params" = Ok Examples.packageParamFile
  /\ parseParams Examples.packageParamFile = Ok Examples.packageParams
  /\ main (env := Examples.packageEnv) ["/params"] = Ok (0%Z, Examples.packageRun)
  /\ forall src,
       In src (srcs Examples.packageParams) ->
       exists content stamped written,
         readFileSync (Env := Examples.packageEnv) src = Ok content
         /\ replaceVersionPlaceholders (env := Examples.packageEnv)
              Examples.packageParams src content
            = Ok stamped
         /\ (if String.eqb (Path.basename src) "package.json"
             then amendPackageJson (env := Examples.packageEnv) src stamped
                  = Ok written
             else written = stamped)
         /\ Spec.issued
              [Mkdir (Path.dirname
                        (Path.join
                           [out Examples.packageParams;
                            Path.relative (cwd (Env := Examples.packageEnv))
                              (srcDir Examples.packageParams) src]));
               WriteFile
                 (Path.join
                    [out Examples.packageParams;
                     Path.relative (cwd (Env := Examples.packageEnv))
                       (srcDir Examples.packageParams) src])
                 written]
              (log Examples.packageRun).
Proof.
  split; [reflexivity|]. split; [vm_compute; reflexivity|]. split; [vm_compute; reflexivity|].
  apply (sources_written (env := Examples.packageEnv) "/params" []
           Examples.packageParamFile Examples.packageParams 0%Z Examples.packageRun);
    vm_compute; reflexivity.
Defined.

Lemma bundle_index_declarations_written_witness :
  readFileSync (Env := Examples.packageEnv) "/params" = Ok Examples.packageParamFile
  /\ parseParams Examples.packageParamFile = Ok Examples.packageParams
  /\ main (env := Examples.packageEnv) ["/params"] = Ok (0%Z, Examples.packageRun)
  /\ forall f,
       In f (shx_find (Env := Examples.packageEnv) (binDir Examples.packageParams)) ->
       Packager.filter ".d.ts" f = true ->
       JS.endsWith f ".bundle_index.d.ts" = true ->
       exists content dest,
         readFileSync (Env := Examples.packageEnv) f = Ok content
         /\ moveBundleIndex (env := Examples.packageEnv) Examples.packageParams f
              Examples.packageRun
            = Ok (dest, Examples.packageRun)
         /\ Spec.issued
              [Mkdir (Path.dirname dest);
               WriteFile dest (JS.replace content amdModuleRegex EmptyString)]
              (log Examples.packageRun).
Proof.
  split; [reflexivity|]. split; [vm_compute; reflexivity|]. split; [vm_compute; reflexivity|].
  apply (bundle_index_declarations_written (env := Examples.packageEnv) "/params" []
           Examples.packageParamFile Examples.packageParams 0%Z Examples.packageRun);
    vm_compute; reflexivity.
Defined.

Lemma bundle_index_metadata_written_witness :
  readFileSync (Env := Examples.packageEnv) "/params" = Ok Examples.packageParamFile
  /\ parseParams Examples.packageParamFile = Ok Examples.packageParams
  /\ main (env := Examples.packageEnv) ["/params"] = Ok (0%Z, Examples.packageRun)
  /\ forall f,
       In f (shx_find (Env := Examples.packageEnv) (binDir Examples.packageParams)) ->
       Packager.filter ".bundle_index.metadata.json" f = true ->
       exists content stamped dest,
         readFileSync (Env := Examples.packageEnv) f = Ok content
         /\ replaceVersionPlaceholders (env := Examples.packageEnv)
              Examples.packageParams f content
            = Ok stamped
         /\ moveBundleIndex (env := Examples.packageEnv) Examples.packageParams f
              Examples.packageRun
            = Ok (dest, Examples.packageRun)
         /\ In (WriteFile dest stamped) (log Examples.packageRun).
Proof.
  split; [reflexivity|]. split; [vm_compute; reflexivity|]. split; [vm_compute; reflexivity|].
  apply (bundle_index_metadata_written (env := Examples.packageEnv) "/params" []
           Examples.packageParamFile Examples.packageParams 0%Z Examples.packageRun);
    vm_compute; reflexivity.
Defined.

Lemma entry_points_of_run_witness :
  readFileSync (Env := Examples.packageEnv) "/params" = Ok Examples.packageParamFile
  /\ parseParams Examples.packageParamFile = Ok Examples.packageParams
  /\ main (env := Examples.packageEnv) ["/params"] = Ok (0%Z, Examples.packageRun)
  /\ match map entryPointNameOf
             (fesms2015 Examples.packageParams ++ fesms5 Examples.packageParams) with
     | [] =>
         primaryEntryPoint Examples.packageRun = None
         /\ secondaryEntryPoints Examples.packageRun = []
     | q :: later =>
         primaryEntryPoint Examples.packageRun = Some q
         /\ secondaryEntryPoints Examples.packageRun =
            Spec.distinct (List.filter (fun n => negb (String.eqb q n)) later)
     end.
Proof.
  split; [reflexivity|]. split; [vm_compute; reflexivity|]. split; [vm_compute; reflexivity|].
  apply (entry_points_of_run (env := Examples.packageEnv) "/params" []
           Examples.packageParamFile Examples.packageParams 0%Z Examples.packageRun);
    vm_compute; reflexivity.
Defined.

Lemma copies_made_witness :
  readFileSync (Env := Examples.packageEnv) "/params" = Ok Examples.packageParamFile
  /\ parseParams Examples.packageParamFile = Ok Examples.packageParams
  /\ main (env := Examples.packageEnv) ["/params"] = Ok (0%Z, Examples.packageRun)
  /\ 0%Z = 0%Z
  /\ (exists later,
         log Examples.packageRun =
         (Mkdir (out Examples.packageParams)
          :: (if truthy (Some (readmeMd Examples.packageParams))
              then [Cp (readmeMd Examples.packageParams)
                      (Path.join [out Examples.packageParams; "README.md"])]
              else [])
          ++ later)%list)
  /\ Spec.issued
       (Mkdir (Path.join [out Examples.packageParams; "bundles"])
        :: map (fun bundle =>
                  Cp bundle (Path.join [out Examples.packageParams; "bundles"]))
             (bundles Examples.packageParams))
       (log Examples.packageRun).
Proof.
  split; [reflexivity|]. split; [vm_compute; reflexivity|]. split; [vm_compute; reflexivity|].
  apply (copies_made (env := Examples.packageEnv) "/params" []
           Examples.packageParamFile Examples.packageParams 0%Z Examples.packageRun);
    vm_compute; reflexivity.
Defined.

Lemma fesms_placed_witness :
  readFileSync (Env := Examples.packageEnv) "/params" = Ok Examples.packageParamFile
  /\ parseParams Examples.packageParamFile = Ok Examples.packageParams
  /\ main (env := Examples.packageEnv) ["/params"] = Ok (0%Z, Examples.packageRun)
  /\ forall file baseDir,
       (In file (fesms2015 Examples.packageParams)
        /\ baseDir = Path.join [out Examples.packageParams; "esm2015"])
       \/ (In file (fesms5 Examples.packageParams)
           /\ baseDir = Path.join [out Examples.packageParams; "esm5"]) ->
       let parts := JS.split (Path.basename file) "__" in
       let dir := Path.join (baseDir :: JS.slice_init parts) in
       Spec.issued
         [Mkdir dir;
          Cp file dir;
          Mv (Path.join [dir; Path.basename file])
             (Path.join [dir; template (JS.pop parts)])]
         (log Examples.packageRun).
Proof.
  split; [reflexivity|]. split; [vm_compute; reflexivity|]. split; [vm_compute; reflexivity|].
  apply (fesms_placed (env := Examples.packageEnv) "/params" []
           Examples.packageParamFile Examples.packageParams 0%Z Examples.packageRun);
    vm_compute; reflexivity.
Defined.

Lemma redirects_come_last_witness :
  readFileSync (Env := Examples.packageEnv) "/params" = Ok Examples.packageParamFile
  /\ parseParams Examples.packageParamFile = Ok Examples.packageParams
  /\ main (env := Examples.packageEnv) ["/params"] = Ok (0%Z, Examples.packageRun)
  /\ exists licenseBanner earlier,
       (if truthy (licenseFile Examples.packageParams)
        then readFileSync (Env := Examples.packageEnv)
               (template (licenseFile Examples.packageParams))
             = Ok licenseBanner
        else licenseBanner = EmptyString)
       /\ log Examples.packageRun =
          (earlier
           ++ flat_map
                (fun name =>
                   let baseName := template (JS.pop (JS.split name "/")) in
                   let dirName := Path.join (JS.slice_init (JS.split name "/")) in
                   [WriteFile
                      (Path.join [out Examples.packageParams; dirName;
                                  (baseName ++ ".metadata.json")%string])
                      (redirectMetadata baseName);
                    WriteFile
                      (Path.join [out Examples.packageParams; dirName;
                                  (baseName ++ ".d.ts")%string])
                      (redirectDeclaration licenseBanner baseName)])
                (secondaryEntryPoints Examples.packageRun))%list.
Proof.
  split; [reflexivity|]. split; [vm_compute; reflexivity|]. split; [vm_compute; reflexivity|].
  apply (redirects_come_last (env := Examples.packageEnv) "/params" []
           Examples.packageParamFile Examples.packageParams 0%Z Examples.packageRun);
    vm_compute; reflexivity.
Defined.

Lemma storage_calls_of_run_witness :
  readFileSync (Env := Examples.packageEnv) "/params" = Ok Examples.packageParamFile
  /\ parseParams Examples.packageParamFile = Ok Examples.packageParams
  /\ main (env := Examples.packageEnv) ["/params"] = Ok (0%Z, Examples.packageRun)
  /\ exists licenseBanner declarations sources metadata,
       (if truthy (licenseFile Examples.packageParams)
        then readFileSync (Env := Examples.packageEnv)
               (template (licenseFile Examples.packageParams))
             = Ok licenseBanner
        else licenseBanner = EmptyString)
       /\ Forall2
            (Spec.declarationCalls (env := Examples.packageEnv)
               Examples.packageParams Examples.packageRun)
            (List.filter (Packager.filter ".d.ts")
               (shx_find (Env := Examples.packageEnv) (binDir Examples.packageParams)))
            declarations
       /\ Forall2
            (Spec.sourceCalls (env := Examples.packageEnv) Examples.packageParams)
            (srcs Examples.packageParams) sources
       /\ Forall2
            (Spec.metadataCalls (env := Examples.packageEnv)
               Examples.packageParams Examples.packageRun)
            (List.filter (Packager.filter ".bundle_index.metadata.json")
               (shx_find (Env := Examples.packageEnv) (binDir Examples.packageParams)))
            metadata
       /\ log Examples.packageRun =
          (Mkdir (out Examples.packageParams)
           :: (if truthy (Some (readmeMd Examples.packageParams))
               then [Cp (readmeMd Examples.packageParams)
                       (Path.join [out Examples.packageParams; "README.md"])]
               else [])
           ++ flat_map
                (Spec.fesmCalls (Path.join [out Examples.packageParams; "esm2015"]))
                (fesms2015 Examples.packageParams)
           ++ flat_map
                (Spec.fesmCalls (Path.join [out Examples.packageParams; "esm5"]))
                (fesms5 Examples.packageParams)
           ++ Mkdir (Path.join [out Examples.packageParams; "bundles"])
           :: map (fun bundle =>
                     Cp bundle (Path.join [out Examples.packageParams; "bundles"]))
                (bundles Examples.packageParams)
           ++ concat declarations
           ++ concat sources
           ++ concat metadata
           ++ flat_map (Spec.redirectCalls Examples.packageParams licenseBanner)
                (secondaryEntryPoints Examples.packageRun))%list.
Proof.
  split; [reflexivity|]. split; [vm_compute; reflexivity|]. split; [vm_compute; reflexivity|].
  apply (storage_calls_of_run (env := Examples.packageEnv) "/params" []
           Examples.packageParamFile Examples.packageParams 0%Z Examples.packageRun);
    vm_compute; reflexivity.
Defined.
